(** * Invoice reimbursement analysis: a model of [Invoice_Reimbursement.py]

    The development embeds the request pipeline of the service: PDF text
    extraction, the archive loader, the prompt, the parser of the model's
    answer and the [/analyze-invoices] endpoint.

    Conventions of the embedding.
    - A Python [str] is a Rocq [string] holding its UTF-8 encoding; [bytes]
      is [list byte].
    - A Python exception is a value of [exn]; code that may raise returns a
      [result].
    - Calls that leave the process (reading an upload, PyPDF2, zipfile, the
      Gemini model) are logged as [event]s in a writer monad [M], so that a
      statement can say which of them happened.
    - What the repository does not define and cannot be computed from its
      text (the PDF and ZIP readers, the model's answer, pydantic's
      validation of a [str] field, the room the server leaves on the
      interpreter's stack) is a field of the record [World].
    - The library functions the parser applies to the model's answer
      ([re.search], [json.loads], [int], iteration and indexing) are
      modelled as CPython 3.11 computes them, with the exceptions they
      raise and their messages. *)

From Stdlib Require Import ZArith List String Ascii Bool Arith Lia.
From Stdlib Require Import Strings.Byte.
From Stdlib Require Import DecimalString.
Import ListNotations.

Local Open Scope list_scope.
Local Open Scope string_scope.

#[local] Set Warnings "-register-all".

(* ===================================================================== *)
(** ** Text: the [str] methods the source calls *)
(* ===================================================================== *)

Module Text.

Definition chr (n : nat) : string := String (ascii_of_nat n) EmptyString.

(** The characters that a Rocq string literal cannot hold directly. *)
Definition nl : string := chr 10.
Definition dquote : string := chr 34.

Definition str_of_nat (n : nat) : string :=
  NilZero.string_of_uint (Nat.to_uint n).

Definition str_of_Z (z : Z) : string :=
  NilZero.string_of_int (Z.to_int z).

Fixpoint rev_onto (s acc : string) : string :=
  match s with
  | EmptyString => acc
  | String c s' => rev_onto s' (String c acc)
  end.

Definition rev (s : string) : string := rev_onto s EmptyString.

Fixpoint drop (n : nat) (s : string) : string :=
  match n, s with
  | O, _ => s
  | S n', String _ s' => drop n' s'
  | S _, EmptyString => EmptyString
  end.

(** [str.lower()].  Only the letters A-Z are mapped.  The source uses the
    result for one thing, the test whether it ends in '.pdf' or in '.zip',
    and no other character changes that test: the only one whose lower
    case holds a character of these suffixes is U+0130, which becomes an
    'i' followed by a combining dot, and no suffix has that dot. *)
Definition lower_ascii (c : ascii) : ascii :=
  let n := nat_of_ascii c in
  if (65 <=? n)%nat && (n <=? 90)%nat then ascii_of_nat (n + 32) else c.

Fixpoint lower (s : string) : string :=
  match s with
  | EmptyString => EmptyString
  | String c s' => String (lower_ascii c) (lower s')
  end.

(** [s.startswith(p)] and [s.endswith(p)]. *)
Definition startswith (s p : string) : bool := String.prefix p s.

Definition endswith (s p : string) : bool :=
  String.prefix (rev p) (rev s).

(** UTF-8 encoding of a code point (surrogates, which a Python [str] may
    hold, get the three-byte form). *)
Definition utf8 (cp : N) : string :=
  let b (n : N) := String (ascii_of_N n) EmptyString in
  let cont (n : N) := b (128 + N.land n 63)%N in
  if (cp <? 128)%N then b cp
  else if (cp <? 2048)%N then b (192 + N.shiftr cp 6)%N ++ cont cp
  else if (cp <? 65536)%N then
    b (224 + N.shiftr cp 12)%N ++ cont (N.shiftr cp 6) ++ cont cp
  else
    b (240 + N.shiftr cp 18)%N ++ cont (N.shiftr cp 12)
      ++ cont (N.shiftr cp 6) ++ cont cp.

(** The code points for which [str.isspace()] holds; these are what
    [str.strip()] removes. *)
Definition whitespace_code_points : list N :=
  [9; 10; 11; 12; 13; 28; 29; 30; 31; 32; 133; 160; 5760;
   8192; 8193; 8194; 8195; 8196; 8197; 8198; 8199; 8200; 8201; 8202;
   8232; 8233; 8239; 8287; 12288]%N.

Definition whitespace : list string := map utf8 whitespace_code_points.

(** The first element of [ps] that is a prefix of [s]. *)
Fixpoint find_prefix (ps : list string) (s : string) : option string :=
  match ps with
  | [] => None
  | p :: ps' => if String.prefix p s then Some p else find_prefix ps' s
  end.

(** Remove leading occurrences of the strings [ps]; one character of fuel
    per character of [s] is enough, every removed string is non-empty. *)
Fixpoint strip_prefixes (fuel : nat) (ps : list string) (s : string) : string :=
  match fuel with
  | O => s
  | S fuel' =>
      match find_prefix ps s with
      | Some p =>
          match p with
          | EmptyString => s
          | String _ _ => strip_prefixes fuel' ps (drop (String.length p) s)
          end
      | None => s
      end
  end.

Definition lstrip (s : string) : string :=
  strip_prefixes (String.length s) whitespace s.

Definition rstrip (s : string) : string :=
  rev (strip_prefixes (String.length s) (map rev whitespace) (rev s)).

(** [str.strip()] *)
Definition strip (s : string) : string := rstrip (lstrip s).

(** Index of the first occurrence of [c] in [s]. *)
Fixpoint find_char (c : ascii) (s : string) : option nat :=
  match s with
  | EmptyString => None
  | String a s' =>
      if Ascii.eqb a c then Some O
      else match find_char c s' with
           | Some i => Some (S i)
           | None => None
           end
  end.

(** Index of the last occurrence of [c] in [s]. *)
Fixpoint rfind_char (c : ascii) (s : string) : option nat :=
  match s with
  | EmptyString => None
  | String a s' =>
      match rfind_char c s' with
      | Some i => Some (S i)
      | None => if Ascii.eqb a c then Some O else None
      end
  end.

Fixpoint contains_char (c : ascii) (s : string) : bool :=
  match s with
  | EmptyString => false
  | String a s' => Ascii.eqb a c || contains_char c s'
  end.

End Text.

(* ===================================================================== *)
(** ** Exceptions, results and the effect log *)
(* ===================================================================== *)

(** [HTTPException(status_code, detail)] is FastAPI's; every other
    subclass of [Exception] is kept as its class name and its [str(e)]. *)
Inductive exn : Type :=
| HTTPException (status_code : Z) (detail : string)
| PyException (cls : string) (msg : string).

(** [str(e)].  Starlette's HTTPException defines
    [__str__] as [f"{self.status_code}: {self.detail}"]. *)
Definition str_exn (e : exn) : string :=
  match e with
  | HTTPException status_code detail => Text.str_of_Z status_code ++ ": " ++ detail
  | PyException _ msg => msg
  end.

Inductive result (A : Type) : Type :=
| Ok (a : A)
| Raise (e : exn).

Arguments Ok {A} a.
Arguments Raise {A} e.

(** The calls whose order and presence the specification talks about. *)
Inductive event : Type :=
| EvUploadRead (part : string)        (* [await <part>.read()] *)
| EvPdfReader (data : list byte)      (* [PyPDF2.PdfReader(...)] and its pages *)
| EvZipFile (data : list byte)        (* [zipfile.ZipFile(...)] *)
| EvZipOpen (member : string)         (* [zip_ref.open(file_info)] and [read()] *)
| EvGenerateContent (system_prompt prompt : string). (* the model call *)

Definition is_model_call (ev : event) : bool :=
  match ev with
  | EvGenerateContent _ _ => true
  | _ => false
  end.

(** A computation: the events it caused, in order, and how it ended. *)
Definition M (A : Type) : Type := list event * result A.

Definition ret {A} (a : A) : M A := ([], Ok a).

Definition raise {A} (e : exn) : M A := ([], Raise e).

Definition emit (ev : event) : M unit := ([ev], Ok tt).

Definition lift {A} (r : result A) : M A := ([], r).

Definition bind {A B} (m : M A) (f : A -> M B) : M B :=
  match m with
  | (t, Ok a) => let (t', r) := f a in ((t ++ t')%list, r)
  | (t, Raise e) => (t, Raise e)
  end.

(** [try: m except Exception as e: handler e] *)
Definition try_except {A} (m : M A) (handler : exn -> M A) : M A :=
  match m with
  | (t, Ok a) => (t, Ok a)
  | (t, Raise e) => let (t', r) := handler e in ((t ++ t')%list, r)
  end.

Definition events {A} (m : M A) : list event := fst m.
Definition outcome {A} (m : M A) : result A := snd m.

Notation "x <- m ;; k" := (bind m (fun x => k))
  (at level 61, m at next level, right associativity).
Notation "m ;;; k" := (bind m (fun _ => k))
  (at level 61, right associativity).

(* ===================================================================== *)
(** ** Python dictionaries *)
(* ===================================================================== *)

(** A [dict] with string keys.  The source iterates [invoices.items()] to
    build the prompt, so the insertion order is part of the value: the
    dictionary is the list of its items in that order, without repeated
    keys. *)
Definition dict (V : Type) : Type := list (string * V).

(** [d[k] = v]: a key already present keeps its place and gets the new
    value, a new key goes last. *)
Fixpoint dict_set {V} (d : dict V) (k : string) (v : V) : dict V :=
  match d with
  | [] => [(k, v)]
  | (k', v') :: d' =>
      if String.eqb k' k then (k', v) :: d' else (k', v') :: dict_set d' k v
  end.

Fixpoint dict_get {V} (d : dict V) (k : string) : option V :=
  match d with
  | [] => None
  | (k', v') :: d' => if String.eqb k' k then Some v' else dict_get d' k
  end.

Definition dict_keys {V} (d : dict V) : list string := map fst d.

(** [not d] *)
Definition dict_is_empty {V} (d : dict V) : bool :=
  match d with
  | [] => true
  | _ :: _ => false
  end.

(* ===================================================================== *)
(** ** The world outside the repository *)
(* ===================================================================== *)

(** A member of an opened archive: [file_info.filename] and what
    [zip_ref.open(file_info).read()] gives. *)
Record ZipMember : Type := {
  zm_filename : string;
  zm_read : result (list byte)
}.

(* ===================================================================== *)
(** ** Python values *)
(* ===================================================================== *)

(** A Python [float] (binary64): [Finite m e] is the number [m * 2^e]. *)
Inductive pyfloat : Type :=
| Finite (m e : Z)
| Infinite (negative : bool)
| NaN.

(** What [json.loads] returns: [None], [bool], [int], [float], [str],
    [list] and [dict]. *)
Inductive json : Type :=
| JNull
| JBool (b : bool)
| JInt (z : Z)
| JFloat (f : pyfloat)
| JString (s : string)
| JArray (items : list json)
| JObject (members : list (string * json)).

(* ===================================================================== *)
(** ** [float(...)] of a decimal literal *)
(* ===================================================================== *)

Module Float.

Local Open Scope Z_scope.

(** [floor (log2 (n / d))] for positive [n] and [d]. *)
Definition floor_log2 (n d : Z) : Z :=
  let k := Z.log2 n - Z.log2 d in
  let ge := if 0 <=? k then d * 2 ^ k <=? n else d <=? n * 2 ^ (- k) in
  if ge then k else k - 1.

(** The binary64 number nearest to [n / d] (ties to even), for positive
    [n] and [d]: 53 significant bits, exponents down to [-1074], infinity
    from [2^1024] on. *)
Definition round_ratio (negative : bool) (n d : Z) : pyfloat :=
  let q := Z.max (floor_log2 n d - 52) (-1074) in
  let a := if 0 <=? q then n else n * 2 ^ (- q) in
  let b := if 0 <=? q then d * 2 ^ q else d in
  let m := a / b in
  let r := a mod b in
  let m := if (b <? 2 * r) || ((b =? 2 * r) && Z.odd m) then m + 1 else m in
  if (971 <? q) || ((q =? 971) && (2 ^ 53 <=? m)) then Infinite negative
  else Finite (if negative then - m else m) q.

(** The float written [digits * 10^exp10], with its sign. *)
Definition of_decimal (negative : bool) (digits exp10 : Z) : pyfloat :=
  if digits =? 0 then Finite 0 0
  else if 0 <=? exp10 then round_ratio negative (digits * 10 ^ exp10) 1
  else round_ratio negative digits (10 ^ (- exp10)).

(** Truncation toward zero of [m * 2^e]: what [int(x)] is on a finite
    float. *)
Definition trunc (m e : Z) : Z :=
  if 0 <=? e then m * 2 ^ e else Z.quot m (2 ^ (- e)).

End Float.

(* ===================================================================== *)
(** ** [json.loads] *)
(* ===================================================================== *)

(** The interpreter's limit on the digits of an integer written as
    text, which [int(str)] and the decoder's integers share. *)
Module Sys.

(** [sys.get_int_max_str_digits()], which the source leaves at its
    default. *)
Definition int_max_str_digits : nat := 4300.

(** The [ValueError] for an integer of [digits] digits, more than the
    limit. *)
Definition digits_error (digits : nat) : exn :=
  PyException "ValueError"
    ("Exceeds the limit (" ++ Text.str_of_nat int_max_str_digits
       ++ " digits) for integer string conversion: value has "
       ++ Text.str_of_nat digits
       ++ " digits; use sys.set_int_max_str_digits() to increase the limit").

End Sys.

(** The decoder of CPython's [json] module with its default settings
    (strict strings, [NaN] and [Infinity] accepted, objects as [dict]).
    The decoder walks the document from left to right; a position in the
    document is kept as the text that is still unread.  Two limits of the
    interpreter end the decoding with an exception that is not a
    [JSONDecodeError]: an integer may have [Sys.int_max_str_digits] digits,
    and the interpreter's stack has [room] for so many levels of
    recursion.  An array or an object takes one level while it is read;
    the constants NaN, Infinity and -Infinity take one while they are
    looked up; a [JSONDecodeError] takes three while it is made.  The
    scanner, written in C, makes its [JSONDecodeError]s where it finds the
    error, at the depth it has reached, but leaves a missing value to
    [raw_decode] by raising [StopIteration]. *)
Module Json.

Inductive parsed (A : Type) : Type :=
| Parsed (a : A) (rest : string)
| ParseError (msg : string) (at_ : string)
| StopIteration (at_ : string)
| Failed (e : exn)
| OutOfFuel.

Arguments Parsed {A} a rest.
Arguments ParseError {A} msg at_.
Arguments StopIteration {A} at_.
Arguments Failed {A} e.
Arguments OutOfFuel {A}.

(** The [RecursionError] of a call for which no level is left; [where_]
    says what was being done. *)
Definition RecursionError (where_ : string) : exn :=
  PyException "RecursionError" ("maximum recursion depth exceeded" ++ where_).

Definition while_calling : string := " while calling a Python object".

(** Decoding a JSON [what], an array or an object. *)
Definition while_decoding (what : string) : string :=
  " while decoding a JSON " ++ what ++ " from a unicode string".

(** Making a [JSONDecodeError] where [levels] levels are left: the call of
    the class takes one, the frame of its [__init__] a second, and the
    call of [doc.count] in it a third. *)
Definition short_of_levels (levels : nat) : option exn :=
  match levels with
  | 0 => Some (RecursionError while_calling)
  | 1 => Some (RecursionError "")
  | 2 => Some (RecursionError while_calling)
  | _ => None
  end.

(** [raise_errmsg(msg, s, end)] of the scanner, with [room] levels left. *)
Definition raise_errmsg {A : Type} (room : nat) (msg at_ : string) : parsed A :=
  match short_of_levels room with
  | Some e => Failed e
  | None => ParseError msg at_
  end.

Definition code (c : ascii) : N := N_of_ascii c.

Definition is_ws (c : ascii) : bool :=
  let n := code c in
  ((n =? 32) || (n =? 9) || (n =? 10) || (n =? 13))%N.

Definition is_digit (c : ascii) : bool :=
  let n := code c in ((48 <=? n) && (n <=? 57))%N.

Definition digit_value (c : ascii) : Z := Z.of_N (code c) - 48.

Definition hex_value (c : ascii) : option N :=
  let n := code c in
  if ((48 <=? n) && (n <=? 57))%N then Some (n - 48)%N
  else if ((97 <=? n) && (n <=? 102))%N then Some (n - 87)%N
  else if ((65 <=? n) && (n <=? 70))%N then Some (n - 55)%N
  else None.

Definition hex4 (h1 h2 h3 h4 : ascii) : option N :=
  match hex_value h1, hex_value h2, hex_value h3, hex_value h4 with
  | Some a, Some b, Some c, Some d => Some (((a * 16 + b) * 16 + c) * 16 + d)%N
  | _, _, _, _ => None
  end.

Fixpoint skip_ws (s : string) : string :=
  match s with
  | String c s' => if is_ws c then skip_ws s' else s
  | EmptyString => s
  end.

(** The digits [s] starts with, as the number they write after [acc],
    with their count and the rest. *)
Fixpoint take_digits (s : string) (acc : Z) (count : nat) : Z * nat * string :=
  match s with
  | String c s' =>
      if is_digit c then take_digits s' (acc * 10 + digit_value c)%Z (S count)
      else (acc, count, s)
  | EmptyString => (acc, count, s)
  end.

(** The escapes: a quote, a backslash, a slash, and b, f, n, r, t. *)
Definition simple_escape (c : ascii) : option ascii :=
  let n := code c in
  if (n =? 34)%N then Some c
  else if (n =? 92)%N then Some c
  else if (n =? 47)%N then Some c
  else if (n =? 98)%N then Some (ascii_of_nat 8)
  else if (n =? 102)%N then Some (ascii_of_nat 12)
  else if (n =? 110)%N then Some (ascii_of_nat 10)
  else if (n =? 114)%N then Some (ascii_of_nat 13)
  else if (n =? 116)%N then Some (ascii_of_nat 9)
  else None.

Definition is_high_surrogate (c : N) : bool := ((55296 <=? c) && (c <=? 56319))%N.
Definition is_low_surrogate (c : N) : bool := ((56320 <=? c) && (c <=? 57343))%N.
Definition join_surrogates (hi lo : N) : N :=
  (65536 + (hi - 55296) * 1024 + (lo - 56320))%N.

Definition prepend (p : string) (r : parsed string) : parsed string :=
  match r with
  | Parsed a rest => Parsed (p ++ a) rest
  | other => other
  end.

(** [scanstring]: the body of a string literal up to its closing quote.
    [begin] is the document from the opening quote on, [s] what follows
    the quote.  Its errors go through [raise_errmsg], which the callers
    apply. *)
Fixpoint scanstring (begin s : string) {struct s} : parsed string :=
  match s with
  | EmptyString => ParseError "Unterminated string starting at" begin
  | String c rest =>
      if (code c =? 34)%N then Parsed EmptyString rest
      else if (code c =? 92)%N then
        match rest with
        | EmptyString => ParseError "Unterminated string starting at" begin
        | String esc rest1 =>
            if (code esc =? 117)%N then
              match rest1 with
              | String h1 (String h2 (String h3 (String h4 (String _ _ as tail)))) =>
                  match hex4 h1 h2 h3 h4 with
                  | None => ParseError "Invalid \uXXXX escape" rest
                  | Some u =>
                      let single := prepend (Text.utf8 u) (scanstring begin tail) in
                      if is_high_surrogate u then
                        match tail with
                        | String b (String v (String g1 (String g2 (String g3
                            (String g4 (String _ _ as tail2))))) as second) =>
                            if ((code b =? 92) && (code v =? 117))%N then
                              match hex4 g1 g2 g3 g4 with
                              | None => ParseError "Invalid \uXXXX escape" second
                              | Some u2 =>
                                  if is_low_surrogate u2 then
                                    prepend (Text.utf8 (join_surrogates u u2))
                                      (scanstring begin tail2)
                                  else single
                              end
                            else single
                        | _ => single
                        end
                      else single
                  end
              | _ => ParseError "Invalid \uXXXX escape" rest
              end
            else
              match simple_escape esc with
              | Some ch => prepend (String ch EmptyString) (scanstring begin rest1)
              | None => ParseError "Invalid \escape" s
              end
        end
      else if (code c <=? 31)%N then ParseError "Invalid control character at" s
      else prepend (String c EmptyString) (scanstring begin rest)
  end.

(** [_match_number]: an optional minus sign, then 0 or a digit 1-9 and
    more digits; then, optionally, a point and digits; then, optionally,
    e or E, an optional sign and digits.  The value is an [int] when the
    literal has neither fraction nor exponent, a [float] otherwise.  The
    [int] is made by [PyLong_FromString], which refuses more digits than
    the limit. *)
Definition match_number (s : string) : parsed json :=
  let negative := match s with String c _ => (code c =? 45)%N | _ => false end in
  let s1 := if negative then Text.drop 1 s else s in
  let int_part :=
    match s1 with
    | String c r =>
        if (code c =? 48)%N then Some (0%Z, 1%nat, r)
        else if is_digit c then
          let '(z, n, r') := take_digits r (digit_value c) 1 in Some (z, n, r')
        else None
    | EmptyString => None
    end in
  match int_part with
  | None => StopIteration s
  | Some (i, int_len, r) =>
      let '(digits, frac_len, r2, has_frac) :=
        match r with
        | String dot (String d r') =>
            if (code dot =? 46)%N && is_digit d then
              let '(z, n, r'') := take_digits (String d r') i 0 in (z, n, r'', true)
            else (i, O, r, false)
        | _ => (i, O, r, false)
        end in
      let '(exp10, r3, has_exp) :=
        match r2 with
        | String e r' =>
            if ((code e =? 101) || (code e =? 69))%N then
              let '(exp_negative, r'') :=
                match r' with
                | String sg r'' =>
                    if (code sg =? 45)%N then (true, r'')
                    else if (code sg =? 43)%N then (false, r'')
                    else (false, r')
                | EmptyString => (false, r')
                end in
              let '(z, n, r''') := take_digits r'' 0%Z 0 in
              match n with
              | O => (0%Z, r2, false)
              | S _ => (if exp_negative then (- z)%Z else z, r''', true)
              end
            else (0%Z, r2, false)
        | EmptyString => (0%Z, r2, false)
        end in
      if has_frac || has_exp then
        Parsed (JFloat (Float.of_decimal negative digits (exp10 - Z.of_nat frac_len))) r3
      else if (Sys.int_max_str_digits <? int_len)%nat then
        Failed (Sys.digits_error int_len)
      else Parsed (JInt (if negative then (- digits)%Z else digits)) r3
  end.

Definition literals : list (string * json) :=
  [ ("null", JNull); ("true", JBool true); ("false", JBool false);
    ("NaN", JFloat NaN); ("Infinity", JFloat (Infinite false));
    ("-Infinity", JFloat (Infinite true)) ].

Fixpoint match_literal (ls : list (string * json)) (s : string) : option (json * string) :=
  match ls with
  | [] => None
  | (name, v) :: ls' =>
      if String.prefix name s then Some (v, Text.drop (String.length name) s)
      else match_literal ls' s
  end.

(** The result of [scanstring] as the scanner passes it on with [room]
    levels left. *)
Definition scanned_string (room : nat) (r : parsed string) : parsed string :=
  match r with
  | ParseError msg a => raise_errmsg room msg a
  | other => other
  end.

(** [scan_once] with the loops of [_parse_array] and [_parse_object];
    [items] and [members] are what the loop has read so far.  [room] is
    the number of levels of recursion that are left: [scan_once] takes one
    for the array or the object it enters, before it looks at what the
    brackets hold, and the constants that are floats are looked up by a
    call of [parse_constant]. *)
Fixpoint scan_once (fuel room : nat) (s : string) : parsed json :=
  match fuel with
  | O => OutOfFuel
  | S fuel' =>
      match s with
      | EmptyString => StopIteration s
      | String c rest =>
          if (code c =? 34)%N then
            match scanned_string room (scanstring s rest) with
            | Parsed str r => Parsed (JString str) r
            | ParseError msg a => ParseError msg a
            | StopIteration a => StopIteration a
            | Failed e => Failed e
            | OutOfFuel => OutOfFuel
            end
          else if (code c =? 123)%N then
            match room with
            | O => Failed (RecursionError (while_decoding "object"))
            | S room' =>
                let r := skip_ws rest in
                match r with
                | String c' r' =>
                    if (code c' =? 125)%N then Parsed (JObject []) r'
                    else parse_object fuel' room' r []
                | EmptyString => parse_object fuel' room' r []
                end
            end
          else if (code c =? 91)%N then
            match room with
            | O => Failed (RecursionError (while_decoding "array"))
            | S room' =>
                let r := skip_ws rest in
                match r with
                | String c' r' =>
                    if (code c' =? 93)%N then Parsed (JArray []) r'
                    else parse_array fuel' room' r []
                | EmptyString => parse_array fuel' room' r []
                end
            end
          else
            match match_literal literals s with
            | Some (JFloat f, r) =>
                match room with
                | O => Failed (RecursionError while_calling)
                | S _ => Parsed (JFloat f) r
                end
            | Some (v, r) => Parsed v r
            | None => match_number s
            end
      end
  end

with parse_array (fuel room : nat) (s : string) (items : list json) : parsed json :=
  match fuel with
  | O => OutOfFuel
  | S fuel' =>
      match scan_once fuel' room s with
      | Parsed v r =>
          let r := skip_ws r in
          match r with
          | String c r' =>
              if (code c =? 93)%N then Parsed (JArray (items ++ [v])%list) r'
              else if (code c =? 44)%N then
                parse_array fuel' room (skip_ws r') (items ++ [v])%list
              else raise_errmsg room "Expecting ',' delimiter" r
          | EmptyString => raise_errmsg room "Expecting ',' delimiter" r
          end
      | ParseError msg a => ParseError msg a
      | StopIteration a => StopIteration a
      | Failed e => Failed e
      | OutOfFuel => OutOfFuel
      end
  end

with parse_object (fuel room : nat) (s : string) (members : dict json) : parsed json :=
  match fuel with
  | O => OutOfFuel
  | S fuel' =>
      match s with
      | String q after_quote =>
          if (code q =? 34)%N then
            match scanned_string room (scanstring s after_quote) with
            | Parsed key r =>
                let r := skip_ws r in
                match r with
                | String colon r' =>
                    if (code colon =? 58)%N then
                      match scan_once fuel' room (skip_ws r') with
                      | Parsed v r'' =>
                          let r'' := skip_ws r'' in
                          match r'' with
                          | String c r3 =>
                              if (code c =? 125)%N then
                                Parsed (JObject (dict_set members key v)) r3
                              else if (code c =? 44)%N then
                                parse_object fuel' room (skip_ws r3) (dict_set members key v)
                              else raise_errmsg room "Expecting ',' delimiter" r''
                          | EmptyString => raise_errmsg room "Expecting ',' delimiter" r''
                          end
                      | ParseError msg a => ParseError msg a
                      | StopIteration a => StopIteration a
                      | Failed e => Failed e
                      | OutOfFuel => OutOfFuel
                      end
                    else raise_errmsg room "Expecting ':' delimiter" r
                | EmptyString => raise_errmsg room "Expecting ':' delimiter" r
                end
            | ParseError msg a => ParseError msg a
            | StopIteration a => StopIteration a
            | Failed e => Failed e
            | OutOfFuel => OutOfFuel
            end
          else raise_errmsg room "Expecting property name enclosed in double quotes" s
      | EmptyString =>
          raise_errmsg room "Expecting property name enclosed in double quotes" s
      end
  end.

(** Positions in messages count characters, not bytes: the bytes of a
    UTF-8 text that do not continue a character. *)
Fixpoint char_count (s : string) : nat :=
  match s with
  | EmptyString => O
  | String c s' =>
      if ((128 <=? code c) && (code c <=? 191))%N then char_count s'
      else S (char_count s')
  end.

(** Line and column of the position where [n] characters of [doc] are
    left unread: [doc.count('\n', 0, pos) + 1] and
    [pos - doc.rfind('\n', 0, pos)]. *)
Fixpoint line_col (doc : string) (unread : nat) (line col : nat) : nat * nat :=
  match doc with
  | EmptyString => (line, col)
  | String c doc' =>
      if (String.length doc <=? unread)%nat then (line, col)
      else if (code c =? 10)%N then line_col doc' unread (S line) 1
      else if ((128 <=? code c) && (code c <=? 191))%N then line_col doc' unread line col
      else line_col doc' unread line (S col)
  end.

(** [str(JSONDecodeError(msg, doc, pos))]:
    ['%s: line %d column %d (char %d)']. *)
Definition errmsg (msg doc at_ : string) : string :=
  let '(line, col) := line_col doc (String.length at_) 1 1 in
  let pos := (char_count doc - char_count at_)%nat in
  msg ++ ": line " ++ Text.str_of_nat line ++ " column " ++ Text.str_of_nat col
      ++ " (char " ++ Text.str_of_nat pos ++ ")".

Definition JSONDecodeError (msg doc at_ : string) : exn :=
  PyException "JSONDecodeError" (errmsg msg doc at_).

Definition bom : string := Text.utf8 65279.

(** A [JSONDecodeError] made by the decoder's own code, [above] frames
    above the scanner. *)
Definition raise_above (room above : nat) (e : exn) : result json :=
  match short_of_levels (room + above) with
  | Some short => Raise short
  | None => Raise e
  end.

(** [json.loads(s)], called where the interpreter's stack leaves the
    scanner [room] levels.  [loads] calls [decode], which calls
    [raw_decode], which calls the scanner: [raw_decode] makes the error of
    a missing value, [decode] that of text after the value.  The fuel is
    enough for every text, so that the last case does not occur. *)
Definition loads (room : nat) (s : string) : result json :=
  if String.prefix bom s then
    Raise (JSONDecodeError "Unexpected UTF-8 BOM (decode using utf-8-sig)" s s)
  else
    match scan_once (2 * String.length s + 2) room (skip_ws s) with
    | Parsed obj rest =>
        match skip_ws rest with
        | EmptyString => Ok obj
        | String _ _ as extra => raise_above room 2 (JSONDecodeError "Extra data" s extra)
        end
    | ParseError msg a => Raise (JSONDecodeError msg s a)
    | StopIteration a => raise_above room 1 (JSONDecodeError "Expecting value" s a)
    | Failed e => Raise e
    | OutOfFuel => Raise (PyException "RecursionError" "maximum recursion depth exceeded")
    end.

End Json.

(* ===================================================================== *)
(** ** The built-in operations the source applies to decoded values *)
(* ===================================================================== *)

(** Messages are those of CPython 3.11. *)
Module Py.

Definition code (c : ascii) : N := N_of_ascii c.

(** The code points of a UTF-8 text. *)
Fixpoint code_points (s : string) : list N :=
  match s with
  | EmptyString => []
  | String c rest =>
      let n := code c in
      let low (b : ascii) := N.land (code b) 63 in
      if (n <? 192)%N then n :: code_points rest
      else if (n <? 224)%N then
        match rest with
        | String c2 rest2 => ((n - 192) * 64 + low c2)%N :: code_points rest2
        | _ => [n]
        end
      else if (n <? 240)%N then
        match rest with
        | String c2 (String c3 rest3) =>
            (((n - 224) * 64 + low c2) * 64 + low c3)%N :: code_points rest3
        | _ => [n]
        end
      else
        match rest with
        | String c2 (String c3 (String c4 rest4)) =>
            ((((n - 240) * 64 + low c2) * 64 + low c3) * 64 + low c4)%N
              :: code_points rest4
        | _ => [n]
        end
  end.

Definition type_name (v : json) : string :=
  match v with
  | JNull => "NoneType"
  | JBool _ => "bool"
  | JInt _ => "int"
  | JFloat _ => "float"
  | JString _ => "str"
  | JArray _ => "list"
  | JObject _ => "dict"
  end.

Definition hex_digit (n : N) : string :=
  String (ascii_of_N (if (n <? 10)%N then 48 + n else 87 + n)%N) EmptyString.

(** The last [width] hexadecimal digits of [n]. *)
Fixpoint hex (width : nat) (n : N) : string :=
  match width with
  | O => EmptyString
  | S width' => hex width' (n / 16) ++ hex_digit (n mod 16)
  end.

(** The code points from 128 on that [str.isprintable] refuses (Unicode
    14), as ranges with both ends included. *)
Definition unprintable_ranges : list (N * N) :=
  [(128, 160); (173, 173); (888, 889); (896, 899); (907, 907); (909, 909);
   (930, 930); (1328, 1328); (1367, 1368); (1419, 1420); (1424, 1424);
   (1480, 1487); (1515, 1518); (1525, 1541); (1564, 1564); (1757, 1757);
   (1806, 1807); (1867, 1868); (1970, 1983); (2043, 2044); (2094, 2095);
   (2111, 2111); (2140, 2141); (2143, 2143); (2155, 2159); (2191, 2199);
   (2274, 2274); (2436, 2436); (2445, 2446); (2449, 2450); (2473, 2473);
   (2481, 2481); (2483, 2485); (2490, 2491); (2501, 2502); (2505, 2506);
   (2511, 2518); (2520, 2523); (2526, 2526); (2532, 2533); (2559, 2560);
   (2564, 2564); (2571, 2574); (2577, 2578); (2601, 2601); (2609, 2609);
   (2612, 2612); (2615, 2615); (2618, 2619); (2621, 2621); (2627, 2630);
   (2633, 2634); (2638, 2640); (2642, 2648); (2653, 2653); (2655, 2661);
   (2679, 2688); (2692, 2692); (2702, 2702); (2706, 2706); (2729, 2729);
   (2737, 2737); (2740, 2740); (2746, 2747); (2758, 2758); (2762, 2762);
   (2766, 2767); (2769, 2783); (2788, 2789); (2802, 2808); (2816, 2816);
   (2820, 2820); (2829, 2830); (2833, 2834); (2857, 2857); (2865, 2865);
   (2868, 2868); (2874, 2875); (2885, 2886); (2889, 2890); (2894, 2900);
   (2904, 2907); (2910, 2910); (2916, 2917); (2936, 2945); (2948, 2948);
   (2955, 2957); (2961, 2961); (2966, 2968); (2971, 2971); (2973, 2973);
   (2976, 2978); (2981, 2983); (2987, 2989); (3002, 3005); (3011, 3013);
   (3017, 3017); (3022, 3023); (3025, 3030); (3032, 3045); (3067, 3071);
   (3085, 3085); (3089, 3089); (3113, 3113); (3130, 3131); (3141, 3141);
   (3145, 3145); (3150, 3156); (3159, 3159); (3163, 3164); (3166, 3167);
   (3172, 3173); (3184, 3190); (3213, 3213); (3217, 3217); (3241, 3241);
   (3252, 3252); (3258, 3259); (3269, 3269); (3273, 3273); (3278, 3284);
   (3287, 3292); (3295, 3295); (3300, 3301); (3312, 3312); (3315, 3327);
   (3341, 3341); (3345, 3345); (3397, 3397); (3401, 3401); (3408, 3411);
   (3428, 3429); (3456, 3456); (3460, 3460); (3479, 3481); (3506, 3506);
   (3516, 3516); (3518, 3519); (3527, 3529); (3531, 3534); (3541, 3541);
   (3543, 3543); (3552, 3557); (3568, 3569); (3573, 3584); (3643, 3646);
   (3676, 3712); (3715, 3715); (3717, 3717); (3723, 3723); (3748, 3748);
   (3750, 3750); (3774, 3775); (3781, 3781); (3783, 3783); (3790, 3791);
   (3802, 3803); (3808, 3839); (3912, 3912); (3949, 3952); (3992, 3992);
   (4029, 4029); (4045, 4045); (4059, 4095); (4294, 4294); (4296, 4300);
   (4302, 4303); (4681, 4681); (4686, 4687); (4695, 4695); (4697, 4697);
   (4702, 4703); (4745, 4745); (4750, 4751); (4785, 4785); (4790, 4791);
   (4799, 4799); (4801, 4801); (4806, 4807); (4823, 4823); (4881, 4881);
   (4886, 4887); (4955, 4956); (4989, 4991); (5018, 5023); (5110, 5111);
   (5118, 5119); (5760, 5760); (5789, 5791); (5881, 5887); (5910, 5918);
   (5943, 5951); (5972, 5983); (5997, 5997); (6001, 6001); (6004, 6015);
   (6110, 6111); (6122, 6127); (6138, 6143); (6158, 6158); (6170, 6175);
   (6265, 6271); (6315, 6319); (6390, 6399); (6431, 6431); (6444, 6447);
   (6460, 6463); (6465, 6467); (6510, 6511); (6517, 6527); (6572, 6575);
   (6602, 6607); (6619, 6621); (6684, 6685); (6751, 6751); (6781, 6782);
   (6794, 6799); (6810, 6815); (6830, 6831); (6863, 6911); (6989, 6991);
   (7039, 7039); (7156, 7163); (7224, 7226); (7242, 7244); (7305, 7311);
   (7355, 7356); (7368, 7375); (7419, 7423); (7958, 7959); (7966, 7967);
   (8006, 8007); (8014, 8015); (8024, 8024); (8026, 8026); (8028, 8028);
   (8030, 8030); (8062, 8063); (8117, 8117); (8133, 8133); (8148, 8149);
   (8156, 8156); (8176, 8177); (8181, 8181); (8191, 8207); (8232, 8239);
   (8287, 8303); (8306, 8307); (8335, 8335); (8349, 8351); (8385, 8399);
   (8433, 8447); (8588, 8591); (9255, 9279); (9291, 9311); (11124, 11125);
   (11158, 11158); (11508, 11512); (11558, 11558); (11560, 11564);
   (11566, 11567); (11624, 11630); (11633, 11646); (11671, 11679);
   (11687, 11687); (11695, 11695); (11703, 11703); (11711, 11711);
   (11719, 11719); (11727, 11727); (11735, 11735); (11743, 11743);
   (11870, 11903); (11930, 11930); (12020, 12031); (12246, 12271);
   (12284, 12288); (12352, 12352); (12439, 12440); (12544, 12548);
   (12592, 12592); (12687, 12687); (12772, 12783); (12831, 12831);
   (42125, 42127); (42183, 42191); (42540, 42559); (42744, 42751);
   (42955, 42959); (42962, 42962); (42964, 42964); (42970, 42993);
   (43053, 43055); (43066, 43071); (43128, 43135); (43206, 43213);
   (43226, 43231); (43348, 43358); (43389, 43391); (43470, 43470);
   (43482, 43485); (43519, 43519); (43575, 43583); (43598, 43599);
   (43610, 43611); (43715, 43738); (43767, 43776); (43783, 43784);
   (43791, 43792); (43799, 43807); (43815, 43815); (43823, 43823);
   (43884, 43887); (44014, 44015); (44026, 44031); (55204, 55215);
   (55239, 55242); (55292, 63743); (64110, 64111); (64218, 64255);
   (64263, 64274); (64280, 64284); (64311, 64311); (64317, 64317);
   (64319, 64319); (64322, 64322); (64325, 64325); (64451, 64466);
   (64912, 64913); (64968, 64974); (64976, 65007); (65050, 65055);
   (65107, 65107); (65127, 65127); (65132, 65135); (65141, 65141);
   (65277, 65280); (65471, 65473); (65480, 65481); (65488, 65489);
   (65496, 65497); (65501, 65503); (65511, 65511); (65519, 65531);
   (65534, 65535); (65548, 65548); (65575, 65575); (65595, 65595);
   (65598, 65598); (65614, 65615); (65630, 65663); (65787, 65791);
   (65795, 65798); (65844, 65846); (65935, 65935); (65949, 65951);
   (65953, 65999); (66046, 66175); (66205, 66207); (66257, 66271);
   (66300, 66303); (66340, 66348); (66379, 66383); (66427, 66431);
   (66462, 66462); (66500, 66503); (66518, 66559); (66718, 66719);
   (66730, 66735); (66772, 66775); (66812, 66815); (66856, 66863);
   (66916, 66926); (66939, 66939); (66955, 66955); (66963, 66963);
   (66966, 66966); (66978, 66978); (66994, 66994); (67002, 67002);
   (67005, 67071); (67383, 67391); (67414, 67423); (67432, 67455);
   (67462, 67462); (67505, 67505); (67515, 67583); (67590, 67591);
   (67593, 67593); (67638, 67638); (67641, 67643); (67645, 67646);
   (67670, 67670); (67743, 67750); (67760, 67807); (67827, 67827);
   (67830, 67834); (67868, 67870); (67898, 67902); (67904, 67967);
   (68024, 68027); (68048, 68049); (68100, 68100); (68103, 68107);
   (68116, 68116); (68120, 68120); (68150, 68151); (68155, 68158);
   (68169, 68175); (68185, 68191); (68256, 68287); (68327, 68330);
   (68343, 68351); (68406, 68408); (68438, 68439); (68467, 68471);
   (68498, 68504); (68509, 68520); (68528, 68607); (68681, 68735);
   (68787, 68799); (68851, 68857); (68904, 68911); (68922, 69215);
   (69247, 69247); (69290, 69290); (69294, 69295); (69298, 69375);
   (69416, 69423); (69466, 69487); (69514, 69551); (69580, 69599);
   (69623, 69631); (69710, 69713); (69750, 69758); (69821, 69821);
   (69827, 69839); (69865, 69871); (69882, 69887); (69941, 69941);
   (69960, 69967); (70007, 70015); (70112, 70112); (70133, 70143);
   (70162, 70162); (70207, 70271); (70279, 70279); (70281, 70281);
   (70286, 70286); (70302, 70302); (70314, 70319); (70379, 70383);
   (70394, 70399); (70404, 70404); (70413, 70414); (70417, 70418);
   (70441, 70441); (70449, 70449); (70452, 70452); (70458, 70458);
   (70469, 70470); (70473, 70474); (70478, 70479); (70481, 70486);
   (70488, 70492); (70500, 70501); (70509, 70511); (70517, 70655);
   (70748, 70748); (70754, 70783); (70856, 70863); (70874, 71039);
   (71094, 71095); (71134, 71167); (71237, 71247); (71258, 71263);
   (71277, 71295); (71354, 71359); (71370, 71423); (71451, 71452);
   (71468, 71471); (71495, 71679); (71740, 71839); (71923, 71934);
   (71943, 71944); (71946, 71947); (71956, 71956); (71959, 71959);
   (71990, 71990); (71993, 71994); (72007, 72015); (72026, 72095);
   (72104, 72105); (72152, 72153); (72165, 72191); (72264, 72271);
   (72355, 72367); (72441, 72703); (72713, 72713); (72759, 72759);
   (72774, 72783); (72813, 72815); (72848, 72849); (72872, 72872);
   (72887, 72959); (72967, 72967); (72970, 72970); (73015, 73017);
   (73019, 73019); (73022, 73022); (73032, 73039); (73050, 73055);
   (73062, 73062); (73065, 73065); (73103, 73103); (73106, 73106);
   (73113, 73119); (73130, 73439); (73465, 73647); (73649, 73663);
   (73714, 73726); (74650, 74751); (74863, 74863); (74869, 74879);
   (75076, 77711); (77811, 77823); (78895, 82943); (83527, 92159);
   (92729, 92735); (92767, 92767); (92778, 92781); (92863, 92863);
   (92874, 92879); (92910, 92911); (92918, 92927); (92998, 93007);
   (93018, 93018); (93026, 93026); (93048, 93052); (93072, 93759);
   (93851, 93951); (94027, 94030); (94088, 94094); (94112, 94175);
   (94181, 94191); (94194, 94207); (100344, 100351); (101590, 101631);
   (101641, 110575); (110580, 110580); (110588, 110588); (110591, 110591);
   (110883, 110927); (110931, 110947); (110952, 110959); (111356, 113663);
   (113771, 113775); (113789, 113791); (113801, 113807); (113818, 113819);
   (113824, 118527); (118574, 118575); (118599, 118607); (118724, 118783);
   (119030, 119039); (119079, 119080); (119155, 119162); (119275, 119295);
   (119366, 119519); (119540, 119551); (119639, 119647); (119673, 119807);
   (119893, 119893); (119965, 119965); (119968, 119969); (119971, 119972);
   (119975, 119976); (119981, 119981); (119994, 119994); (119996, 119996);
   (120004, 120004); (120070, 120070); (120075, 120076); (120085, 120085);
   (120093, 120093); (120122, 120122); (120127, 120127); (120133, 120133);
   (120135, 120137); (120145, 120145); (120486, 120487); (120780, 120781);
   (121484, 121498); (121504, 121504); (121520, 122623); (122655, 122879);
   (122887, 122887); (122905, 122906); (122914, 122914); (122917, 122917);
   (122923, 123135); (123181, 123183); (123198, 123199); (123210, 123213);
   (123216, 123535); (123567, 123583); (123642, 123646); (123648, 124895);
   (124903, 124903); (124908, 124908); (124911, 124911); (124927, 124927);
   (125125, 125126); (125143, 125183); (125260, 125263); (125274, 125277);
   (125280, 126064); (126133, 126208); (126270, 126463); (126468, 126468);
   (126496, 126496); (126499, 126499); (126501, 126502); (126504, 126504);
   (126515, 126515); (126520, 126520); (126522, 126522); (126524, 126529);
   (126531, 126534); (126536, 126536); (126538, 126538); (126540, 126540);
   (126544, 126544); (126547, 126547); (126549, 126550); (126552, 126552);
   (126554, 126554); (126556, 126556); (126558, 126558); (126560, 126560);
   (126563, 126563); (126565, 126566); (126571, 126571); (126579, 126579);
   (126584, 126584); (126589, 126589); (126591, 126591); (126602, 126602);
   (126620, 126624); (126628, 126628); (126634, 126634); (126652, 126703);
   (126706, 126975); (127020, 127023); (127124, 127135); (127151, 127152);
   (127168, 127168); (127184, 127184); (127222, 127231); (127406, 127461);
   (127491, 127503); (127548, 127551); (127561, 127567); (127570, 127583);
   (127590, 127743); (128728, 128732); (128749, 128751); (128765, 128767);
   (128884, 128895); (128985, 128991); (129004, 129007); (129009, 129023);
   (129036, 129039); (129096, 129103); (129114, 129119); (129160, 129167);
   (129198, 129199); (129202, 129279); (129620, 129631); (129646, 129647);
   (129653, 129655); (129661, 129663); (129671, 129679); (129709, 129711);
   (129723, 129727); (129734, 129743); (129754, 129759); (129768, 129775);
   (129783, 129791); (129939, 129939); (129995, 130031); (130042, 131071);
   (173792, 173823); (177977, 177983); (178206, 178207); (183970, 183983);
   (191457, 194559); (195102, 196607); (201547, 917759); (918000, 1114111)]%N.

(** [chr(cp).isprintable()] *)
Definition is_printable (cp : N) : bool :=
  if (cp <? 128)%N then ((32 <=? cp) && (cp <? 127))%N
  else negb (existsb (fun r => ((fst r <=? cp) && (cp <=? snd r))%N) unprintable_ranges).

(** One character of [repr(s)] between the quotes [quote]. *)
Definition repr_char (quote cp : N) : string :=
  if ((cp =? quote) || (cp =? 92))%N then String (ascii_of_nat 92) (Text.utf8 cp)
  else if (cp =? 9)%N then "\t"
  else if (cp =? 10)%N then "\n"
  else if (cp =? 13)%N then "\r"
  else if is_printable cp then Text.utf8 cp
  else if (cp <? 256)%N then "\x" ++ hex 2 cp
  else if (cp <? 65536)%N then "\u" ++ hex 4 cp
  else "\U" ++ hex 8 cp.

(** [repr(s)] of a [str]: double quotes only when [s] holds a single
    quote and no double quote; a character that is not printable is
    written as an escape. *)
Definition repr_str (s : string) : string :=
  let single := ascii_of_nat 39 in
  let double := ascii_of_nat 34 in
  let quote :=
    if Text.contains_char single s && negb (Text.contains_char double s)
    then double else single in
  String quote
    (String.concat EmptyString (map (repr_char (code quote)) (code_points s))
       ++ String quote EmptyString).

(** [iter(v)]: the elements of a list, the keys of a dict, the
    characters of a string. *)
Definition iter (v : json) : result (list json) :=
  match v with
  | JArray items => Ok items
  | JObject members => Ok (map (fun kv => JString (fst kv)) members)
  | JString s => Ok (map (fun cp => JString (Text.utf8 cp)) (code_points s))
  | _ => Raise (PyException "TypeError"
                  ("'" ++ type_name v ++ "' object is not iterable"))
  end.

(** [v[key]] for a [str] key. *)
Definition getitem (v : json) (key : string) : result json :=
  match v with
  | JObject members =>
      match dict_get members key with
      | Some x => Ok x
      | None => Raise (PyException "KeyError" (repr_str key))
      end
  | JArray _ =>
      Raise (PyException "TypeError" "list indices must be integers or slices, not str")
  | JString _ =>
      Raise (PyException "TypeError" "string indices must be integers, not 'str'")
  | _ => Raise (PyException "TypeError"
                  ("'" ++ type_name v ++ "' object is not subscriptable"))
  end.

(** The code points that start a run of the ten decimal digits 0-9
    (Unicode 14). *)
Definition decimal_zeros : list N :=
  [48; 1632; 1776; 1984; 2406; 2534; 2662; 2790; 2918; 3046; 3174; 3302;
   3430; 3558; 3664; 3792; 3872; 4160; 4240; 6112; 6160; 6470; 6608; 6784;
   6800; 6992; 7088; 7232; 7248; 42528; 43216; 43264; 43472; 43504; 43600;
   44016; 65296; 66720; 68912; 69734; 69872; 69942; 70096; 70384; 70736;
   70864; 71248; 71360; 71472; 71904; 72016; 72784; 73040; 73120; 92768;
   92864; 93008; 120782; 120792; 120802; 120812; 120822; 123200; 123632;
   125264; 130032]%N.

Definition decimal_value (cp : N) : option N :=
  match find (fun z => (z <=? cp) && (cp <? z + 10))%N decimal_zeros with
  | Some z => Some (cp - z)%N
  | None => None
  end.

(** What [int(str)] reads instead of a character: ASCII stays, any other
    space becomes a blank, any other decimal digit its ASCII digit, and
    everything else a character no number contains. *)
Definition to_ascii (cp : N) : N :=
  if (cp <? 127)%N then cp
  else if existsb (N.eqb cp) Text.whitespace_code_points then 32%N
  else match decimal_value cp with
       | Some d => (48 + d)%N
       | None => 63%N
       end.

Definition is_c_space (n : N) : bool :=
  ((n =? 32) || ((9 <=? n) && (n <=? 13)))%N.

Fixpoint skip_spaces (l : list N) : list N :=
  match l with
  | n :: l' => if is_c_space n then skip_spaces l' else l
  | [] => []
  end.

Definition is_digit (n : N) : bool := ((48 <=? n) && (n <=? 57))%N.

(** Digits with single underscores between them; [prev_digit] tells
    whether the previous character was a digit.  The result is the value,
    the number of digits after the [count] before them, and what follows
    the digits. *)
Fixpoint digits (l : list N) (acc : Z) (count : nat) (prev_digit : bool)
  : option (Z * nat * list N) :=
  match l with
  | n :: l' =>
      if is_digit n then digits l' (acc * 10 + (Z.of_N n - 48))%Z (S count) true
      else if (n =? 95)%N then
        if prev_digit then
          match l' with
          | d :: _ => if is_digit d then digits l' acc count false else None
          | [] => None
          end
        else None
      else Some (acc, count, l)
  | [] => Some (acc, count, l)
  end.

(** The first [n] characters of a UTF-8 text, each with the bytes that
    continue it. *)
Fixpoint take_chars (n : nat) (s : string) : string :=
  match s with
  | EmptyString => EmptyString
  | String c rest =>
      if ((128 <=? code c) && (code c <=? 191))%N then String c (take_chars n rest)
      else match n with
           | O => EmptyString
           | S n' => String c (take_chars n' rest)
           end
  end.

(** [int(s)] for a [str], base 10.  The digits are counted while they are
    read, leading zeros among them, and more than the limit are refused
    before what follows them is looked at.  The message of an invalid
    literal shows the first 200 characters of [repr(s)]. *)
Definition int_of_str (s : string) : result Z :=
  let invalid :=
    Raise (PyException "ValueError"
             ("invalid literal for int() with base 10: "
                ++ take_chars 200 (repr_str s))) in
  let l := skip_spaces (map to_ascii (code_points s)) in
  let '(negative, l) :=
    match l with
    | n :: l' => if (n =? 45)%N then (true, l')
                 else if (n =? 43)%N then (false, l') else (false, l)
    | [] => (false, l)
    end in
  match l with
  | d :: _ =>
      if is_digit d then
        match digits l 0%Z 0 false with
        | Some (z, count, rest) =>
            if (Sys.int_max_str_digits <? count)%nat then
              Raise (Sys.digits_error count)
            else
              match skip_spaces rest with
              | [] => Ok (if negative then (- z)%Z else z)
              | _ :: _ => invalid
              end
        | None => invalid
        end
      else invalid
  | [] => invalid
  end.

(** [int(v)] *)
Definition int (v : json) : result Z :=
  match v with
  | JInt z => Ok z
  | JBool b => Ok (if b then 1%Z else 0%Z)
  | JFloat (Finite m e) => Ok (Float.trunc m e)
  | JFloat (Infinite _) =>
      Raise (PyException "OverflowError" "cannot convert float infinity to integer")
  | JFloat NaN =>
      Raise (PyException "ValueError" "cannot convert float NaN to integer")
  | JString s => int_of_str s
  | _ => Raise (PyException "TypeError"
                  ("int() argument must be a string, a bytes-like object or a real number, not '"
                     ++ type_name v ++ "'"))
  end.

End Py.

(* ===================================================================== *)
(** ** The service *)
(* ===================================================================== *)

(** What the service reaches outside itself.
    - [PdfReader data]: [PyPDF2.PdfReader(io.BytesIO(data)).pages], each
      page being what [page.extract_text()] gives, or the exception the
      reader raises.
    - [ZipFile data]: [zipfile.ZipFile(io.BytesIO(data), 'r').infolist()],
      or the exception raised on opening.
    - [generate_content system_prompt prompt]: the [text] of the answer of
      [GenerativeModel('gemini-2.0-flash').generate_content], or the
      exception of the call.
    - [pydantic_str v]: pydantic's validation of [v] for a field declared
      [str].
    - [recursion_room]: the levels of recursion the interpreter has left
      for the scanner of [json.loads] when the parser calls it: the
      recursion limit, 1000 unless the server changes it, less the frames
      in use there, which the server decides.  The calls of the service
      itself nest to a depth that no input changes and are taken to have
      room. *)
Record World : Type := {
  PdfReader : list byte -> result (list (result string));
  ZipFile : list byte -> result (list ZipMember);
  generate_content : string -> string -> result string;
  pydantic_str : json -> result string;
  recursion_room : nat
}.

(** [class InvoiceAnalysis(BaseModel)] *)
Record InvoiceAnalysis : Type := {
  invoice_id : string;
  reimbursement_status : string;
  reimbursable_amount : Z;
  reason : string
}.

(** [class ReimbursementResponse(BaseModel)] *)
Record ReimbursementResponse : Type := {
  analyses : list InvoiceAnalysis;
  total_invoices_processed : Z
}.

(** An uploaded form part: its declared name and what [await read()]
    gives. *)
Record UploadFile : Type := {
  filename : string;
  read : result (list byte)
}.

Definition OPTIMIZED_SYSTEM_PROMPT : string :=
  "
You are a precision-focused HR expense analyst. Your task is to evaluate invoices against company reimbursement policies with absolute accuracy and consistency.

CORE RESPONSIBILITIES:
1. Extract key invoice data: date, vendor, amount, expense category, purpose, line items
2. Map expenses to appropriate policy categories and limits  
3. Apply all policy restrictions systematically
4. Calculate exact reimbursable amounts as integers
5. Provide clear, policy-backed reasoning

ANALYSIS WORKFLOW:
For EACH invoice, execute these steps sequentially:

STEP 1 - INVOICE PARSING:
- Extract: Total amount, date, vendor/merchant, expense purpose, individual line items
- Identify primary expense category (meals, travel, office supplies, etc.)

STEP 2 - POLICY MAPPING:
- Locate relevant policy section for this expense category
- Identify applicable limits (daily, monthly, per-item, percentage-based)
- Note any categorical restrictions or exclusions

STEP 3 - RESTRICTION ANALYSIS:
- Check date validity against policy timeframes
- Verify expense falls within allowed categories
- Apply any caps, limits, or percentage restrictions
- Identify prohibited items or vendors

STEP 4 - CALCULATION:
- Calculate maximum allowable amount based on policy
- Compare against actual invoice amount
- Determine final reimbursable amount (integer only)

STEP 5 - CLASSIFICATION:
- FULLY REIMBURSED: Entire amount within policy limits
- PARTIALLY REIMBURSED: Amount exceeds limits but partially eligible  
- DECLINED: Violates policy restrictions or prohibited category

CRITICAL REQUIREMENTS:
- Use ONLY the provided company policy - no external assumptions
- All amounts must be integers (round down if necessary)
- Provide specific policy citations in reasoning
- Be consistent in applying rules across all invoices
- Process each invoice independently

RESPONSE FORMAT:
For each invoice, provide:
{
  " ++ Text.dquote ++
  "invoice_id" ++ Text.dquote ++
  ": " ++ Text.dquote ++
  "filename.pdf" ++ Text.dquote ++
  ",
  " ++ Text.dquote ++
  "reimbursement_status" ++ Text.dquote ++
  ": " ++ Text.dquote ++
  "Fully Reimbursed|Partially Reimbursed|Declined" ++ Text.dquote ++
  ", 
  " ++ Text.dquote ++
  "reimbursable_amount" ++ Text.dquote ++
  ": integer_value,
  " ++ Text.dquote ++
  "reason" ++ Text.dquote ++
  ": " ++ Text.dquote ++
  "Specific policy-based explanation with section references" ++ Text.dquote ++
  "
}

IMPORTANT: Analyze all invoices in a single response to minimize API calls. Be thorough but concise in reasoning.
".

(** The loop [for page in pdf_reader.pages: text += page.extract_text() + "\n"]. *)
Fixpoint concat_pages (pages : list (result string)) (text : string) : result string :=
  match pages with
  | [] => Ok text
  | Ok page_text :: pages' => concat_pages pages' (text ++ page_text ++ Text.nl)
  | Raise e :: _ => Raise e
  end.

(** [extract_text_from_pdf] *)
Definition extract_text_from_pdf (w : World) (pdf_file_bytes : list byte) : M string :=
  try_except
    (emit (EvPdfReader pdf_file_bytes) ;;;
     pages <- lift (PdfReader w pdf_file_bytes) ;;
     text <- lift (concat_pages pages "") ;;
     ret (Text.strip text))
    (fun e => raise (HTTPException 400 ("Error extracting PDF text: " ++ str_exn e))).

(** [file_info.filename.lower().endswith('.pdf')] *)
Definition is_pdf_name (name : string) : bool :=
  Text.endswith (Text.lower name) ".pdf".

(** The loop over [zip_ref.infolist()]. *)
Fixpoint load_members (w : World) (infolist : list ZipMember) (invoices : dict string)
  : M (dict string) :=
  match infolist with
  | [] => ret invoices
  | file_info :: infolist' =>
      if is_pdf_name (zm_filename file_info) then
        emit (EvZipOpen (zm_filename file_info)) ;;;
        pdf_bytes <- lift (zm_read file_info) ;;
        invoice_text <- extract_text_from_pdf w pdf_bytes ;;
        load_members w infolist' (dict_set invoices (zm_filename file_info) invoice_text)
      else load_members w infolist' invoices
  end.

(** [extract_invoices_from_zip] *)
Definition extract_invoices_from_zip (w : World) (zip_file_bytes : list byte)
  : M (dict string) :=
  try_except
    (emit (EvZipFile zip_file_bytes) ;;;
     infolist <- lift (ZipFile w zip_file_bytes) ;;
     load_members w infolist [])
    (fun e => raise (HTTPException 400 ("Error processing ZIP file: " ++ str_exn e))).

(** The prompt of [analyze_invoices_with_llm]. *)
Fixpoint invoice_sections (items : dict string) : string :=
  match items with
  | [] => ""
  | (filename, invoice_text) :: items' =>
      Text.nl ++ "--- INVOICE: " ++ filename ++ " ---" ++ Text.nl
        ++ invoice_text ++ Text.nl ++ invoice_sections items'
  end.

Definition combined_prompt (policy_text : string) (invoices : dict string) : string :=
  " COMPANY REIMBURSEMENT POLICY:" ++ policy_text ++ " INVOICES TO ANALYZE:"
    ++ invoice_sections invoices
    ++ Text.nl
    ++ "Please analyze each invoice against the policy and provide a JSON array response with the exact format specified in the system prompt."
    ++ Text.nl.

(** [re.search(r'\[.*\]', text, re.DOTALL)]: with DOTALL the dot matches
    every character, so the leftmost match starts at the first '[' that has
    a ']' after it, which is the first '[' of the text if any has one, and,
    the star being greedy, ends at the last ']' of the text. *)
Definition re_search_array (text : string) : option string :=
  match Text.find_char "["%char text with
  | None => None
  | Some i =>
      let from := Text.drop i text in
      match Text.rfind_char "]"%char from with
      | Some j => Some (substring 0 (S j) from)
      | None => None
      end
  end.

Definition rbind {A B} (r : result A) (f : A -> result B) : result B :=
  match r with
  | Ok a => f a
  | Raise e => Raise e
  end.

Notation "x <-- r ;; k" := (rbind r (fun x => k))
  (at level 61, r at next level, right associativity).

(** [InvoiceAnalysis(invoice_id=..., reimbursement_status=...,
    reimbursable_amount=int(...), reason=...)]: the keyword arguments are
    evaluated from left to right, then pydantic validates the fields; the
    third field receives an [int] and keeps it.  Pydantic reports every
    failing field in one [ValidationError]; here the first failing field
    gives the exception. *)
Definition make_analysis (w : World) (analysis_data : json) : result InvoiceAnalysis :=
  a <-- Py.getitem analysis_data "invoice_id" ;;
  b <-- Py.getitem analysis_data "reimbursement_status" ;;
  c <-- Py.getitem analysis_data "reimbursable_amount" ;;
  n <-- Py.int c ;;
  d <-- Py.getitem analysis_data "reason" ;;
  a' <-- pydantic_str w a ;;
  b' <-- pydantic_str w b ;;
  d' <-- pydantic_str w d ;;
  Ok {| invoice_id := a';
        reimbursement_status := b';
        reimbursable_amount := n;
        reason := d' |}.

(** The loop [for analysis_data in analyses_data: ... analyses.append(analysis)]. *)
Fixpoint convert_analyses (w : World) (analyses_data : list json)
    (analyses : list InvoiceAnalysis) : result (list InvoiceAnalysis) :=
  match analyses_data with
  | [] => Ok analyses
  | analysis_data :: rest =>
      analysis <-- make_analysis w analysis_data ;;
      convert_analyses w rest (analyses ++ [analysis])%list
  end.

(** The array the parser decodes: the match of the pattern when there is
    one, the whole answer otherwise. *)
Definition decode_response (w : World) (response_text : string) : result json :=
  match re_search_array response_text with
  | Some json_str => Json.loads (recursion_room w) json_str
  | None => Json.loads (recursion_room w) response_text
  end.

(** The response parser: what [analyze_invoices_with_llm] does with
    [response.text]. *)
Definition parse_response (w : World) (response_text : string)
  : result (list InvoiceAnalysis) :=
  analyses_data <-- decode_response w response_text ;;
  items <-- Py.iter analyses_data ;;
  convert_analyses w items [].

(** [analyze_invoices_with_llm] *)
Definition analyze_invoices_with_llm (w : World) (policy_text : string)
    (invoices : dict string) : M (list InvoiceAnalysis) :=
  let prompt := combined_prompt policy_text invoices in
  try_except
    (emit (EvGenerateContent OPTIMIZED_SYSTEM_PROMPT prompt) ;;;
     response_text <- lift (generate_content w OPTIMIZED_SYSTEM_PROMPT prompt) ;;
     lift (parse_response w response_text))
    (fun e => raise (HTTPException 500 ("LLM analysis failed: " ++ str_exn e))).

(** [not s] for a [str]. *)
Definition str_is_empty (s : string) : bool :=
  match s with
  | EmptyString => true
  | String _ _ => false
  end.

(** The [try] block of [analyze_invoices]. *)
Definition analyze_invoices_try (w : World) (hr_policy invoices_zip : UploadFile)
  : M ReimbursementResponse :=
  emit (EvUploadRead "hr_policy") ;;;
  policy_bytes <- lift (read hr_policy) ;;
  policy_text <- extract_text_from_pdf w policy_bytes ;;
  if str_is_empty (Text.strip policy_text) then
    raise (HTTPException 400 "Could not extract text from policy PDF")
  else
    emit (EvUploadRead "invoices_zip") ;;;
    invoices_bytes <- lift (read invoices_zip) ;;
    invoices <- extract_invoices_from_zip w invoices_bytes ;;
    if dict_is_empty invoices then
      raise (HTTPException 400 "No PDF invoices found in ZIP file")
    else
      analyses <- analyze_invoices_with_llm w policy_text invoices ;;
      ret {| analyses := analyses;
             total_invoices_processed := Z.of_nat (List.length analyses) |}.

(** The handlers of that block: [except HTTPException: raise] and
    [except Exception as e: raise HTTPException(500, ...)]. *)
Definition analyze_invoices_except (e : exn) : M ReimbursementResponse :=
  match e with
  | HTTPException _ _ => raise e
  | PyException _ _ =>
      raise (HTTPException 500 ("Internal server error: " ++ str_exn e))
  end.

(** [analyze_invoices]: the endpoint [POST /analyze-invoices]. *)
Definition analyze_invoices (w : World) (hr_policy invoices_zip : UploadFile)
  : M ReimbursementResponse :=
  if negb (Text.endswith (Text.lower (filename hr_policy)) ".pdf") then
    raise (HTTPException 400 "HR policy must be a PDF file")
  else if negb (Text.endswith (Text.lower (filename invoices_zip)) ".zip") then
    raise (HTTPException 400 "Invoices must be in a ZIP file")
  else
    try_except (analyze_invoices_try w hr_policy invoices_zip) analyze_invoices_except.

(* ===================================================================== *)
(** ** Concrete requests *)
(* ===================================================================== *)

(** Worlds and requests on which the statements below are evaluated. *)
Module Scenario.

(** JSON text is written with apostrophes in place of the double
    quotes. *)
Fixpoint json_text (s : string) : string :=
  match s with
  | EmptyString => EmptyString
  | String c s' =>
      String (if Ascii.eqb c (ascii_of_nat 39) then ascii_of_nat 34 else c) (json_text s')
  end.

(** Pydantic 2 accepts a [str] for a [str] field and nothing else. *)
Definition strict_str (v : json) : result string :=
  match v with
  | JString s => Ok s
  | _ => Raise (PyException "ValidationError" "Input should be a valid string")
  end.

Definition policy_bytes : list byte := [x25; x50; x44; x46; x2d; x31].
Definition invoice_bytes : list byte := [x25; x50; x44; x46; x2d; x32].
Definition broken_bytes : list byte := [x00].
Definition archive_bytes : list byte := [x50; x4b; x03; x04].

(** A reader that knows three documents: the policy, an invoice, and a
    file that is not a PDF. *)
Definition reader (data : list byte) : result (list (result string)) :=
  match data with
  | [x25; x50; x44; x46; x2d; x31] => Ok [Ok "Meals are reimbursed up to 50 per day. "]
  | [x25; x50; x44; x46; x2d; x32] => Ok [Ok "Lunch 50"]
  | _ => Raise (PyException "PdfReadError" "EOF marker not found")
  end.

Definition member (name : string) (data : list byte) : ZipMember :=
  {| zm_filename := name; zm_read := Ok data |}.

(** A world whose archive holds [members] and whose model answers
    [answer]; the server has used 60 of the 1000 frames of the
    interpreter's recursion limit. *)
Definition world (members : list ZipMember) (answer : string) : World :=
  {| PdfReader := reader;
     ZipFile := fun _ => Ok members;
     generate_content := fun _ _ => Ok answer;
     pydantic_str := strict_str;
     recursion_room := 940 |}.

Definition upload (name : string) (data : list byte) : UploadFile :=
  {| filename := name; read := Ok data |}.

Definition hr_policy : UploadFile := upload "policy.pdf" policy_bytes.
Definition invoices_zip : UploadFile := upload "invoices.zip" archive_bytes.

Definition one_invoice : list ZipMember :=
  [member "readme.txt" broken_bytes; member "a.pdf" invoice_bytes].

Definition answer_A : string :=
  json_text "[{'invoice_id':'a.pdf','reimbursement_status':'Fully Reimbursed','reimbursable_amount':50,'reason':'Within meal limit per Section 3.2'}]".

Definition analysis_A : InvoiceAnalysis :=
  {| invoice_id := "a.pdf";
     reimbursement_status := "Fully Reimbursed";
     reimbursable_amount := 50;
     reason := "Within meal limit per Section 3.2" |}.

(** The array of scenario A after a remark in square brackets. *)
Definition answer_with_remark : string := "Results [final]: " ++ answer_A.

Definition answer_negative : string :=
  json_text "[{'invoice_id':'a.pdf','reimbursement_status':'Declined','reimbursable_amount':-5,'reason':'Refund'}]".

Definition answer_fraction : string :=
  json_text "Here you are: [{'invoice_id':'a.pdf','reimbursement_status':'Partially Reimbursed','reimbursable_amount':42.9,'reason':'Cap'}]".

Definition answer_plain : string := "I cannot determine this.".

(** Two members under one path. *)
Definition repeated_path : list ZipMember :=
  [member "a.pdf" invoice_bytes; member "a.pdf" invoice_bytes].

Definition broken_member : list ZipMember :=
  [member "a.pdf" invoice_bytes; member "b.PDF" broken_bytes; member "c.pdf" invoice_bytes].

End Scenario.

(** The positions [(start, length)] of the substrings of [text] that are
    JSON arrays: delimited by square brackets and accepted by
    [json.loads] as a list, given more levels of recursion than the text
    can take. *)
Definition is_json_array_text (s : string) : bool :=
  Text.startswith s "[" && Text.endswith s "]" &&
  match Json.loads (String.length s + 3) s with
  | Ok (JArray _) => true
  | _ => false
  end.

Definition array_substrings (text : string) : list (nat * nat) :=
  filter (fun p => is_json_array_text (substring (fst p) (snd p) text))
    (flat_map (fun i => map (fun n => (i, S n)) (seq 0 (String.length text - i)))
       (seq 0 (String.length text))).

(** An array element as the record it stands for. *)
Definition describes (item : json) (r : InvoiceAnalysis) : Prop :=
  Py.getitem item "invoice_id" = Ok (JString (invoice_id r)) /\
  Py.getitem item "reimbursement_status" = Ok (JString (reimbursement_status r)) /\
  (exists v, Py.getitem item "reimbursable_amount" = Ok v /\
             Py.int v = Ok (reimbursable_amount r)) /\
  Py.getitem item "reason" = Ok (JString (reason r)).

(** [z] is [m * 2^e] with its fractional part cut off. *)
Definition truncated_toward_zero (m e z : Z) : Prop :=
  (0 <= e -> z = m * 2 ^ e)%Z /\
  (e < 0 -> Z.abs z * 2 ^ (- e) <= Z.abs m < (Z.abs z + 1) * 2 ^ (- e))%Z /\
  (0 <= m -> 0 <= z)%Z /\ (m <= 0 -> z <= 0)%Z.

(* ===================================================================== *)
(** ** The vocabulary of the statements *)
(* ===================================================================== *)

(** No event of [t] is a call of the model. *)
Definition no_model_call (t : list event) : Prop :=
  existsb is_model_call t = false.

(** The keys of a dictionary after one more assignment. *)
Fixpoint add_key (keys : list string) (k : string) : list string :=
  match keys with
  | [] => [k]
  | k' :: keys' => if String.eqb k' k then keys else k' :: add_key keys' k
  end.

(** The members the loader takes for invoices. *)
Definition pdf_members (infolist : list ZipMember) : list ZipMember :=
  filter (fun m => is_pdf_name (zm_filename m)) infolist.

(** A member whose bytes can be read and whose text can be extracted. *)
Definition extractable (w : World) (m : ZipMember) : Prop :=
  exists data text,
    zm_read m = Ok data /\ outcome (extract_text_from_pdf w data) = Ok text.

(** The declared names pass the check of the file types. *)
Definition names_accepted (hr_policy invoices_zip : UploadFile) : Prop :=
  Text.endswith (Text.lower (filename hr_policy)) ".pdf" = true /\
  Text.endswith (Text.lower (filename invoices_zip)) ".zip" = true.

(** The request gets as far as having loaded the archive: the names are
    accepted, the policy is read and its text, which is not blank,
    extracted, and the archive is read and loaded as [invoices]. *)
Definition archive_loaded (w : World) (hr_policy invoices_zip : UploadFile)
    (policy_text : string) (invoices : dict string) : Prop :=
  names_accepted hr_policy invoices_zip /\
  exists policy_bytes invoices_bytes,
    read hr_policy = Ok policy_bytes /\
    outcome (extract_text_from_pdf w policy_bytes) = Ok policy_text /\
    str_is_empty (Text.strip policy_text) = false /\
    read invoices_zip = Ok invoices_bytes /\
    outcome (extract_invoices_from_zip w invoices_bytes) = Ok invoices.

(** The number written [digits * 10^exp10] as a ratio of integers. *)
Definition decimal_ratio (digits exp10 : Z) : Z * Z :=
  if (0 <=? exp10)%Z then (digits * 10 ^ exp10, 1)%Z else (digits, 10 ^ (- exp10))%Z.

(** What the parser stores for the number [n / d], written with the sign
    [negative], when [json.loads] reads it as the float [m * 2^e] and
    [int()] makes [z] of that float: the float has no positive exponent and
    lies within half a unit of its last place of the number; [z] has the
    sign of the number and is the number truncated toward zero, or the
    next integer away from zero, and this only when the float is that
    integer. *)
Definition stored_for (negative : bool) (n d m e z : Z) : Prop :=
  (e <= 0)%Z /\
  (2 * Z.abs (n * 2 ^ (- e) - Z.abs m * d) <= d)%Z /\
  (if negative then z <= 0 else 0 <= z)%Z /\
  (Z.abs z = n / d \/
   (Z.abs z = n / d + 1 /\ Z.abs m = (n / d + 1) * 2 ^ (- e)))%Z.

(** The character [c], [n] times. *)
Fixpoint repeat_char (c : ascii) (n : nat) : string :=
  match n with
  | O => EmptyString
  | S n' => String c (repeat_char c n')
  end.

(** The number of characters of [s] that open an array or an object. *)
Fixpoint opening_brackets (s : string) : nat :=
  match s with
  | EmptyString => O
  | String c s' =>
      if ((Json.code c =? 91) || (Json.code c =? 123))%N then S (opening_brackets s')
      else opening_brackets s'
  end.

(** What a step of the decoder may give when it reads [s] with [room]
    levels of recursion left: a value and a rest that is shorter than [s]
    and has no more opening brackets than it, an error of the syntax, the
    refusal of an integer of more digits than the limit, which [s] holds,
    or a [RecursionError], when [s] has opening brackets for all the
    levels but two. *)
Definition reads_on {A : Type} (room : nat) (s : string) (x : Json.parsed A) : Prop :=
  match x with
  | Json.Parsed _ r =>
      (String.length r < String.length s)%nat /\
      (opening_brackets r <= opening_brackets s)%nat
  | Json.ParseError _ _ => True
  | Json.StopIteration _ => True
  | Json.Failed e =>
      (exists n, e = Sys.digits_error n /\
                 (Sys.int_max_str_digits < n <= String.length s)%nat) \/
      (exists where_, e = Json.RecursionError where_ /\
                      (room < opening_brackets s + 3)%nat)
  | Json.OutOfFuel => False
  end.

(** The texts of the pages, each followed by a newline. *)
Fixpoint join_pages (texts : list string) : string :=
  match texts with
  | [] => ""
  | t :: texts' => t ++ Text.nl ++ join_pages texts'
  end.

(** The members that the events of [t] open, in order. *)
Fixpoint opened_members (t : list event) : list string :=
  match t with
  | [] => []
  | EvZipOpen name :: t' => name :: opened_members t'
  | _ :: t' => opened_members t'
  end.

(** The calls of the model among the events of [t]. *)
Definition model_calls (t : list event) : list event := filter is_model_call t.

(** The four keys the parser reads from an element. *)
Definition analysis_fields : list string :=
  ["invoice_id"; "reimbursement_status"; "reimbursable_amount"; "reason"].

(** [item] is an object that has the four keys. *)
Definition has_fields (item : json) : bool :=
  match item with
  | JObject members =>
      forallb (fun k => match dict_get members k with
                        | Some _ => true
                        | None => false
                        end) analysis_fields
  | _ => false
  end.

(** Further worlds and requests. *)
Module Edge.

(** One path recorded twice, with two documents. *)
Definition overwritten_path : list ZipMember :=
  [Scenario.member "a.pdf" Scenario.policy_bytes;
   Scenario.member "notes.txt" Scenario.broken_bytes;
   Scenario.member "a.pdf" Scenario.invoice_bytes].

(** An upload whose reading fails. *)
Definition unreadable (name : string) : UploadFile :=
  {| filename := name;
     read := Raise (PyException "ValueError" "I/O operation on closed file.") |}.

(** An answer whose second element lacks three of the keys. *)
Definition answer_missing_fields : string :=
  Scenario.json_text "[{'invoice_id':'a.pdf','reimbursement_status':'Declined','reimbursable_amount':0,'reason':'None'},{'invoice_id':'b.pdf'}]".

(** An answer whose amount is a fraction that no binary64 float tells
    from the integer above it. *)
Definition answer_nearly_three : string :=
  Scenario.json_text "[{'invoice_id':'a.pdf','reimbursement_status':'Partially Reimbursed','reimbursable_amount':2.9999999999999999,'reason':'Cap'}]".

(** An answer that is one object, not an array. *)
Definition answer_object : string :=
  Scenario.json_text "{'invoice_id':'a.pdf','reimbursement_status':'Declined','reimbursable_amount':0,'reason':'None'}".

End Edge.

(* ===================================================================== *)
(** ** Facts about computations *)
(* ===================================================================== *)

Section Computations.

Context {A B : Type}.

Lemma outcome_bind (m : M A) (f : A -> M B) :
  outcome (bind m f) =
  match outcome m with
  | Ok a => outcome (f a)
  | Raise e => Raise e
  end.
Proof.
  destruct m as [t [a | e]]; simpl; [destruct (f a) | ]; reflexivity.
Qed.

Lemma events_bind (m : M A) (f : A -> M B) :
  events (bind m f) =
  match outcome m with
  | Ok a => (events m ++ events (f a))%list
  | Raise _ => events m
  end.
Proof.
  destruct m as [t [a | e]]; simpl; [destruct (f a) | ]; reflexivity.
Qed.

Lemma outcome_try_except (m : M A) (h : exn -> M A) :
  outcome (try_except m h) =
  match outcome m with
  | Ok a => Ok a
  | Raise e => outcome (h e)
  end.
Proof.
  destruct m as [t [a | e]]; simpl; [ | destruct (h e)]; reflexivity.
Qed.

Lemma events_try_except (m : M A) (h : exn -> M A) :
  events (try_except m h) =
  match outcome m with
  | Ok _ => events m
  | Raise e => (events m ++ events (h e))%list
  end.
Proof.
  destruct m as [t [a | e]]; simpl; [ | destruct (h e)]; reflexivity.
Qed.

Lemma outcome_lift (r : result A) : outcome (lift r) = r.
Proof. reflexivity. Qed.

Lemma outcome_ret (a : A) : outcome (ret a) = Ok a.
Proof. reflexivity. Qed.

Lemma outcome_raise (e : exn) : outcome (@raise A e) = Raise e.
Proof. reflexivity. Qed.

End Computations.

Lemma outcome_emit (ev : event) : outcome (emit ev) = Ok tt.
Proof. reflexivity. Qed.

(** Push [outcome] through a computation. *)
Ltac run :=
  repeat (rewrite ?outcome_bind, ?outcome_try_except, ?outcome_emit,
            ?outcome_lift, ?outcome_ret, ?outcome_raise;
          cbv beta iota).

Lemma no_model_call_app (t t' : list event) :
  no_model_call t -> no_model_call t' -> no_model_call (t ++ t')%list.
Proof.
  unfold no_model_call. intros H H'. rewrite existsb_app, H, H'. reflexivity.
Qed.

(** [extract_text_from_pdf] opens the reader once and does nothing else. *)
Lemma extract_text_from_pdf_events (w : World) (data : list byte) :
  events (extract_text_from_pdf w data) = [EvPdfReader data].
Proof.
  unfold extract_text_from_pdf.
  destruct (PdfReader w data) as [pages | e]; cbn; [ | reflexivity].
  destruct (concat_pages pages "") as [text | e]; reflexivity.
Qed.

(** Whatever goes wrong in [extract_text_from_pdf] leaves it as an
    [HTTPException] with status 400. *)
Lemma extract_text_from_pdf_raises (w : World) (data : list byte) (e : exn) :
  outcome (extract_text_from_pdf w data) = Raise e ->
  exists cause, e = HTTPException 400 ("Error extracting PDF text: " ++ str_exn cause).
Proof.
  unfold extract_text_from_pdf. run.
  destruct (PdfReader w data) as [pages | e0]; run.
  - destruct (concat_pages pages "") as [text | e1]; run.
    + discriminate.
    + intros [= <-]. now exists e1.
  - intros [= <-]. now exists e0.
Qed.

(* ===================================================================== *)
(** ** The decoder reads every document to an end *)
(* ===================================================================== *)

Module JsonFacts.
Import Json.

Local Abbreviation len := String.length.
Local Abbreviation opens := opening_brackets.

Lemma opens_tail (c : ascii) (s : string) : (opens s <= opens (String c s))%nat.
Proof. simpl. destruct ((code c =? 91) || (code c =? 123))%N; lia. Qed.

Lemma skip_ws_length (s : string) : (len (skip_ws s) <= len s)%nat.
Proof.
  induction s as [ | c s IH]; simpl; [lia | ].
  destruct (is_ws c); simpl; lia.
Qed.

Lemma skip_ws_opens (s : string) : (opens (skip_ws s) <= opens s)%nat.
Proof.
  induction s as [ | c s IH]; [simpl; lia | ].
  pose proof (opens_tail c s). cbn [skip_ws].
  destruct (is_ws c); lia.
Qed.

Lemma take_digits_length (s : string) :
  forall acc count z n r,
    take_digits s acc count = (z, n, r) -> (len r <= len s)%nat.
Proof.
  induction s as [ | c s IH]; simpl; intros acc count z n r H.
  - injection H as <- <- <-. simpl. lia.
  - destruct (is_digit c).
    + apply IH in H. lia.
    + injection H as <- <- <-. simpl. lia.
Qed.

Lemma take_digits_opens (s : string) :
  forall acc count z n r,
    take_digits s acc count = (z, n, r) -> (opens r <= opens s)%nat.
Proof.
  induction s as [ | c s IH]; intros acc count z n r H.
  - injection H as <- <- <-. lia.
  - pose proof (opens_tail c s). cbn [take_digits] in H. destruct (is_digit c).
    + apply IH in H. lia.
    + injection H as <- <- <-. lia.
Qed.

(** Every digit read is counted. *)
Lemma take_digits_count (s : string) :
  forall acc count z n r,
    take_digits s acc count = (z, n, r) -> (n + len r = count + len s)%nat.
Proof.
  induction s as [ | c s IH]; simpl; intros acc count z n r H.
  - injection H as <- <- <-. reflexivity.
  - destruct (is_digit c).
    + apply IH in H. lia.
    + injection H as <- <- <-. reflexivity.
Qed.

Lemma drop_length (n : nat) (s : string) : len (Text.drop n s) = (len s - n)%nat.
Proof.
  revert s. induction n as [ | n IH]; intros s; simpl; [lia | ].
  destruct s as [ | c s]; simpl; [reflexivity | apply IH].
Qed.

Lemma drop_opens (n : nat) (s : string) : (opens (Text.drop n s) <= opens s)%nat.
Proof.
  revert s. induction n as [ | n IH]; intros s; [simpl; lia | ].
  destruct s as [ | c s]; [simpl; lia | ].
  pose proof (opens_tail c s). specialize (IH s). cbn [Text.drop]. lia.
Qed.

Lemma prefix_length (p s : string) : String.prefix p s = true -> (len p <= len s)%nat.
Proof.
  revert s. induction p as [ | c p IH]; intros s; simpl; [lia | ].
  destruct s as [ | d s]; simpl; [discriminate | ].
  destruct (Ascii.ascii_dec c d); [ | discriminate].
  intros H. apply IH in H. lia.
Qed.

(** A step that reads on from [t] reads on from every text that [t] is
    what is left of, with as much room and one level more for each
    opening bracket passed. *)
Lemma reads_on_from {A : Type} (room room' : nat) (t s : string) (x : parsed A) :
  (len t <= len s)%nat ->
  (opens t <= opens s)%nat ->
  (opens t + room' <= opens s + room)%nat ->
  reads_on room t x -> reads_on room' s x.
Proof.
  intros Hlen Hopens Hroom.
  destruct x as [a r | msg at_ | at_ | e | ]; cbn [reads_on]; [ | trivial | trivial | | trivial].
  - lia.
  - intros [(n & -> & Hn) | (what & -> & Hw)].
    + left. exists n. split; [reflexivity | lia].
    + right. exists what. split; [reflexivity | lia].
Qed.

Lemma reads_on_prepend (room : nat) (s p : string) (x : parsed string) :
  reads_on room s x -> reads_on room s (prepend p x).
Proof. destruct x; simpl; trivial. Qed.

(** A [JSONDecodeError] is not made with fewer than three levels left. *)
Lemma short_of_levels_some (levels : nat) (e : exn) :
  short_of_levels levels = Some e ->
  (levels < 3)%nat /\ exists where_, e = RecursionError where_.
Proof.
  destruct levels as [ | [ | [ | levels]]]; cbn [short_of_levels];
    intros [= <-]; (split; [lia | eexists; reflexivity]).
Qed.

Lemma reads_on_raise_errmsg {A : Type} (room : nat) (s msg at_ : string) :
  reads_on (A := A) room s (raise_errmsg room msg at_).
Proof.
  unfold raise_errmsg.
  destruct (short_of_levels room) as [e | ] eqn:He; [ | exact I].
  destruct (short_of_levels_some _ _ He) as (Hroom & where_ & ->).
  right. exists where_. split; [reflexivity | lia].
Qed.

Lemma reads_on_scanned_string (room : nat) (s : string) (x : parsed string) :
  reads_on room s x -> reads_on room s (scanned_string room x).
Proof.
  destruct x; cbn [scanned_string]; trivial.
  intros _. apply reads_on_raise_errmsg.
Qed.

(** [scanstring] needs no fuel and consumes the closing quote. *)
Lemma scanstring_spec (room : nat) (begin : string) (n : nat) :
  forall s, (len s <= n)%nat -> reads_on room s (scanstring begin s).
Proof.
  induction n as [n IH] using lt_wf_ind. intros s Hn.
  assert (Hpre : forall p t, (len t < len s)%nat -> (opens t <= opens s)%nat ->
            reads_on room s (prepend p (scanstring begin t))).
  { intros p t Ht Ho. apply reads_on_prepend.
    apply (reads_on_from room room t s); [lia | lia | lia | ].
    apply (IH (len t)); lia. }
  clear IH.
  destruct s as [ | c rest]; [exact I | ].
  pose proof (opens_tail c rest) as Hc.
  cbn [scanstring].
  destruct (code c =? 34)%N.
  { cbn [reads_on String.length]. lia. }
  destruct (code c =? 92)%N.
  2:{ destruct (code c <=? 31)%N; [exact I | ].
      apply Hpre; cbn [reads_on String.length]; lia. }
  destruct rest as [ | esc rest1]; [exact I | ].
  pose proof (opens_tail esc rest1) as Hesc.
  destruct (code esc =? 117)%N.
  2:{ destruct (simple_escape esc); [ | exact I].
      apply Hpre; cbn [reads_on String.length]; lia. }
  destruct rest1 as [ | h1 [ | h2 [ | h3 [ | h4 [ | c5 rest6]]]]];
    try exact I.
  destruct (hex4 h1 h2 h3 h4) as [u | ]; [ | exact I].
  assert (Htail : (opens (String c5 rest6)
                   <= opens (String h1 (String h2 (String h3 (String h4 (String c5 rest6))))))%nat).
  { pose proof (opens_tail h4 (String c5 rest6)).
    pose proof (opens_tail h3 (String h4 (String c5 rest6))).
    pose proof (opens_tail h2 (String h3 (String h4 (String c5 rest6)))).
    pose proof (opens_tail h1 (String h2 (String h3 (String h4 (String c5 rest6))))).
    lia. }
  assert (Hsingle : reads_on room
            (String c (String esc (String h1 (String h2 (String h3 (String h4
               (String c5 rest6)))))))
            (prepend (Text.utf8 u) (scanstring begin (String c5 rest6)))).
  { apply Hpre; [cbn [reads_on String.length]; lia | lia]. }
  cbv zeta.
  destruct (is_high_surrogate u); [ | exact Hsingle].
  destruct c5 as [b0 b1 b2 b3 b4 b5 b6 b7] eqn:Hc5.
  rewrite <- Hc5 in *. clear Hc5 b0 b1 b2 b3 b4 b5 b6 b7.
  destruct rest6 as [ | v [ | g1 [ | g2 [ | g3 [ | g4 [ | c11 rest12]]]]]];
    try exact Hsingle.
  destruct ((code c5 =? 92) && (code v =? 117))%N; [ | exact Hsingle].
  destruct (hex4 g1 g2 g3 g4) as [u2 | ]; [ | exact I].
  destruct (is_low_surrogate u2); [ | exact Hsingle].
  apply Hpre; [cbn [reads_on String.length]; lia | ].
  pose proof (opens_tail g4 (String c11 rest12)).
  pose proof (opens_tail g3 (String g4 (String c11 rest12))).
  pose proof (opens_tail g2 (String g3 (String g4 (String c11 rest12)))).
  pose proof (opens_tail g1 (String g2 (String g3 (String g4 (String c11 rest12))))).
  pose proof (opens_tail v (String g1 (String g2 (String g3 (String g4 (String c11 rest12)))))).
  pose proof (opens_tail c5
                (String v (String g1 (String g2 (String g3 (String g4 (String c11 rest12))))))).
  lia.
Qed.

Lemma scanstring_reads_on (room : nat) (begin s : string) :
  reads_on room s (scanstring begin s).
Proof. apply (scanstring_spec room begin (len s) s). lia. Qed.

Lemma match_literal_reads_on (ls : list (string * json)) (s : string) (v : json)
    (r : string) :
  Forall (fun l => (0 < len (fst l))%nat) ls ->
  match_literal ls s = Some (v, r) ->
  (len r < len s)%nat /\ (opens r <= opens s)%nat.
Proof.
  induction 1 as [ | [name v'] ls Hname _ IH]; simpl; [discriminate | ].
  destruct (String.prefix name s) eqn:Hp.
  - intros [= <- <-]. rewrite drop_length. apply prefix_length in Hp.
    simpl in Hname. pose proof (drop_opens (len name) s). lia.
  - exact IH.
Qed.

Lemma literals_nonempty : Forall (fun l => (0 < len (fst l))%nat) literals.
Proof. repeat constructor. Qed.

(** A number takes at least one character, and an integer that is
    refused has more digits than the limit, all of them in the text. *)
Lemma match_number_spec (room : nat) (s : string) : reads_on room s (match_number s).
Proof.
  unfold match_number.
  set (negative := match s with String c _ => (code c =? 45)%N | _ => false end).
  set (s1 := if negative then Text.drop 1 s else s).
  assert (Hs1 : (len s1 <= len s)%nat /\ (opens s1 <= opens s)%nat).
  { unfold s1. destruct negative; [rewrite drop_length | ]; [ | lia].
    pose proof (drop_opens 1 s). lia. }
  clearbody s1 negative.
  destruct s1 as [ | c r]; [exact I | ].
  pose proof (opens_tail c r) as Hc.
  assert (Hint : forall i k r0,
            (if (code c =? 48)%N then Some (0%Z, 1%nat, r)
             else if is_digit c
                  then let '(z, n, r') := take_digits r (digit_value c) 1 in Some (z, n, r')
                  else None) = Some (i, k, r0) ->
            (len r0 < len s)%nat /\ (opens r0 <= opens s)%nat /\ (k <= len s)%nat).
  { intros i k r0. destruct (code c =? 48)%N.
    - intros [= <- <- <-]. cbn [String.length] in Hs1. lia.
    - destruct (is_digit c); [ | discriminate].
      destruct (take_digits r (digit_value c) 1) as [[z k'] r'] eqn:Htd.
      intros [= <- <- <-].
      pose proof (take_digits_length _ _ _ _ _ _ Htd).
      pose proof (take_digits_opens _ _ _ _ _ _ Htd).
      pose proof (take_digits_count _ _ _ _ _ _ Htd).
      cbn [String.length] in Hs1. lia. }
  destruct (if (code c =? 48)%N then _ else _) as [[[i k] r0] | ]; [ | exact I].
  specialize (Hint i k r0 eq_refl).
  set (frac := match r0 with
               | String dot (String d r') =>
                   if (code dot =? 46)%N && is_digit d
                   then let '(z, n, r'') := take_digits (String d r') i 0 in (z, n, r'', true)
                   else (i, 0%nat, r0, false)
               | _ => (i, 0%nat, r0, false)
               end).
  assert (Hfrac : (len (snd (fst frac)) <= len r0)%nat /\
                  (opens (snd (fst frac)) <= opens r0)%nat).
  { unfold frac. destruct r0 as [ | dot [ | d r']]; try (cbn [fst snd]; lia).
    destruct ((code dot =? 46)%N && is_digit d); [ | cbn [fst snd]; lia].
    destruct (take_digits (String d r') i 0) as [[z n] r''] eqn:Htd.
    pose proof (take_digits_length _ _ _ _ _ _ Htd).
    pose proof (take_digits_opens _ _ _ _ _ _ Htd).
    pose proof (opens_tail dot (String d r')).
    cbn [fst snd String.length] in *. lia. }
  destruct frac as [[[digits frac_len] r2] has_frac]. cbn [fst snd] in Hfrac.
  set (ex := match r2 with
             | String e r' =>
                 if ((code e =? 101) || (code e =? 69))%N then _ else (0%Z, r2, false)
             | EmptyString => (0%Z, r2, false)
             end).
  assert (Hex : (len (snd (fst ex)) <= len r2)%nat /\
                (opens (snd (fst ex)) <= opens r2)%nat).
  { unfold ex. destruct r2 as [ | e r']; [cbn [fst snd]; lia | ].
    destruct ((code e =? 101) || (code e =? 69))%N; [ | cbn [fst snd]; lia].
    pose proof (opens_tail e r') as He.
    set (sg := match r' with
               | String sg r'' =>
                   if (code sg =? 45)%N then (true, r'')
                   else if (code sg =? 43)%N then (false, r'') else (false, r')
               | EmptyString => (false, r')
               end).
    assert (Hsg : (len (snd sg) <= len r')%nat /\ (opens (snd sg) <= opens r')%nat).
    { unfold sg. destruct r' as [ | x r'']; [cbn [fst snd]; lia | ].
      pose proof (opens_tail x r'').
      destruct (code x =? 45)%N; [cbn [fst snd String.length]; lia | ].
      destruct (code x =? 43)%N; cbn [fst snd String.length]; lia. }
    destruct sg as [exp_negative r'']. cbn [snd] in Hsg.
    destruct (take_digits r'' 0 0) as [[z n] r4] eqn:Htd.
    pose proof (take_digits_length _ _ _ _ _ _ Htd).
    pose proof (take_digits_opens _ _ _ _ _ _ Htd).
    destruct n; cbn [fst snd String.length] in *; lia. }
  destruct ex as [[exp10 r3] has_exp]. cbn [fst snd] in Hex.
  destruct (has_frac || has_exp); [cbn [reads_on String.length]; lia | ].
  destruct (Nat.ltb_spec Sys.int_max_str_digits k) as [Hk | Hk]; [ | cbn [reads_on String.length]; lia].
  simpl. left. exists k. split; [reflexivity | lia].
Qed.

(** Twice the length of the text, and one more, is fuel enough: no call
    returns for lack of fuel, every value read takes at least one
    character, and a level of recursion is taken for an opening bracket
    only. *)
Lemma scan_spec (fuel : nat) :
  (forall room s, (2 * len s + 1 <= fuel)%nat ->
     reads_on room s (scan_once fuel room s)) /\
  (forall room s items, (2 * len s + 2 <= fuel)%nat ->
     reads_on room s (parse_array fuel room s items)) /\
  (forall room s members, (2 * len s + 2 <= fuel)%nat ->
     reads_on room s (parse_object fuel room s members)).
Proof.
  induction fuel as [ | fuel (IHscan & IHarray & IHobject)].
  { repeat split; intros; lia. }
  split; [ | split].
  - (* scan_once *)
    intros room s Hfuel. cbn [scan_once].
    destruct s as [ | c rest]; [exact I | ].
    cbn [String.length] in Hfuel.
    destruct (code c =? 34)%N.
    { pose proof (reads_on_scanned_string room rest _
                    (scanstring_reads_on room (String c rest) rest)) as Hscan.
      pose proof (opens_tail c rest).
      destruct (scanned_string room (scanstring (String c rest) rest))
        as [str r | msg a | a | e | ]; [ | exact I | exact I | | exact Hscan].
      - cbn [reads_on String.length] in *. lia.
      - revert Hscan.
        apply (reads_on_from (A := json) room room rest (String c rest) (Failed e));
          cbn [String.length]; lia. }
    assert (Henter : forall room' t x,
              (opens (String c rest) = S (opens rest))%nat ->
              room = S room' ->
              (len t <= len rest)%nat -> (opens t <= opens rest)%nat ->
              reads_on (A := json) room' t x -> reads_on room (String c rest) x).
    { intros room' t x Hopen -> Hlen Hop.
      apply reads_on_from; [cbn [String.length]; lia | lia | lia]. }
    destruct (code c =? 123)%N eqn:Hbrace.
    { assert (Hopen : (opens (String c rest) = S (opens rest))%nat).
      { simpl. rewrite Hbrace, Bool.orb_true_r. reflexivity. }
      destruct room as [ | room'].
      { right. eexists. split; [reflexivity | lia]. }
      pose proof (skip_ws_length rest) as Hws.
      pose proof (skip_ws_opens rest) as Hwo.
      cbv zeta.
      destruct (skip_ws rest) as [ | c' r'] eqn:Hr.
      - apply (Henter room' ""); [exact Hopen | reflexivity | lia | lia | ].
        apply IHobject. simpl. lia.
      - pose proof (opens_tail c' r').
        cbn [String.length] in Hws. destruct (code c' =? 125)%N.
        + cbn [reads_on String.length]. lia.
        + apply (Henter room' (String c' r'));
            [exact Hopen | reflexivity | cbn [String.length]; lia | lia | ].
          apply IHobject. cbn [String.length]. lia. }
    destruct (code c =? 91)%N eqn:Hbracket.
    { assert (Hopen : (opens (String c rest) = S (opens rest))%nat).
      { simpl. rewrite Hbracket. reflexivity. }
      destruct room as [ | room'].
      { right. eexists. split; [reflexivity | lia]. }
      pose proof (skip_ws_length rest) as Hws.
      pose proof (skip_ws_opens rest) as Hwo.
      cbv zeta.
      destruct (skip_ws rest) as [ | c' r'] eqn:Hr.
      - apply (Henter room' ""); [exact Hopen | reflexivity | lia | lia | ].
        apply IHarray. simpl. lia.
      - pose proof (opens_tail c' r').
        cbn [String.length] in Hws. destruct (code c' =? 93)%N.
        + cbn [reads_on String.length]. lia.
        + apply (Henter room' (String c' r'));
            [exact Hopen | reflexivity | cbn [String.length]; lia | lia | ].
          apply IHarray. cbn [String.length]. lia. }
    clear Henter.
    destruct (match_literal literals (String c rest)) as [[v r] | ] eqn:Hlit.
    { pose proof (match_literal_reads_on _ _ _ _ literals_nonempty Hlit) as Hr.
      destruct v; try exact Hr.
      destruct room; [ | exact Hr].
      right. eexists. split; [reflexivity | lia]. }
    apply match_number_spec.
  - (* parse_array *)
    intros room s items Hfuel. cbn [parse_array].
    pose proof (IHscan room s ltac:(lia)) as Hscan.
    destruct (scan_once fuel room s) as [v r | msg a | a | e | ];
      [ | exact I | exact I | exact Hscan | exact Hscan].
    destruct Hscan as [Hl Ho].
    pose proof (skip_ws_length r) as Hws.
    pose proof (skip_ws_opens r) as Hwo.
    cbv zeta.
    destruct (skip_ws r) as [ | c r']; [apply reads_on_raise_errmsg | ].
    pose proof (opens_tail c r').
    cbn [String.length] in Hws.
    destruct (code c =? 93)%N.
    { cbn [reads_on String.length]. lia. }
    destruct (code c =? 44)%N; [ | apply reads_on_raise_errmsg].
    pose proof (skip_ws_length r') as Hws'.
    pose proof (skip_ws_opens r') as Hwo'.
    apply (reads_on_from room room (skip_ws r') s); [lia | lia | lia | ].
    apply IHarray. lia.
  - (* parse_object *)
    intros room s members Hfuel. cbn [parse_object].
    destruct s as [ | q after_quote]; [apply reads_on_raise_errmsg | ].
    cbn [String.length] in Hfuel.
    pose proof (opens_tail q after_quote) as Hq.
    destruct (code q =? 34)%N; [ | apply reads_on_raise_errmsg].
    pose proof (reads_on_scanned_string room after_quote _
                  (scanstring_reads_on room (String q after_quote) after_quote)) as Hkey.
    destruct (scanned_string room (scanstring (String q after_quote) after_quote))
      as [key r | msg a | a | e | ]; [ | exact I | exact I | | exact Hkey].
    2:{ revert Hkey.
        apply (reads_on_from (A := json) room room after_quote (String q after_quote)
                 (Failed e)); cbn [String.length]; lia. }
    destruct Hkey as [Hkl Hko].
    pose proof (skip_ws_length r) as Hws.
    pose proof (skip_ws_opens r) as Hwo.
    cbv zeta.
    destruct (skip_ws r) as [ | colon r']; [apply reads_on_raise_errmsg | ].
    pose proof (opens_tail colon r').
    cbn [String.length] in Hws.
    destruct (code colon =? 58)%N; [ | apply reads_on_raise_errmsg].
    pose proof (skip_ws_length r') as Hws'.
    pose proof (skip_ws_opens r') as Hwo'.
    pose proof (IHscan room (skip_ws r') ltac:(lia)) as Hscan.
    destruct (scan_once fuel room (skip_ws r')) as [v r'' | msg a | a | e | ];
      [ | exact I | exact I | | exact Hscan].
    2:{ revert Hscan.
        apply (reads_on_from (A := json) room room (skip_ws r') (String q after_quote)
                 (Failed e)); cbn [String.length]; lia. }
    destruct Hscan as [Hl Ho].
    pose proof (skip_ws_length r'') as Hws''.
    pose proof (skip_ws_opens r'') as Hwo''.
    destruct (skip_ws r'') as [ | c r3]; [apply reads_on_raise_errmsg | ].
    pose proof (opens_tail c r3).
    cbn [String.length] in Hws''.
    destruct (code c =? 125)%N.
    { cbn [reads_on String.length]. lia. }
    destruct (code c =? 44)%N; [ | apply reads_on_raise_errmsg].
    pose proof (skip_ws_length r3) as Hws3.
    pose proof (skip_ws_opens r3) as Hwo3.
    apply (reads_on_from room room (skip_ws r3) (String q after_quote));
      [cbn [String.length]; lia | lia | lia | ].
    apply IHobject. lia.
Qed.

(** The decoder's own errors are made, or refused for lack of levels. *)
Lemma raise_above_cases (room above : nat) (e : exn) :
  raise_above room above e = Raise e \/
  exists where_, raise_above room above e = Raise (RecursionError where_) /\
                 (room < 3)%nat.
Proof.
  unfold raise_above.
  destruct (short_of_levels (room + above)) as [short | ] eqn:Hs; [right | now left].
  destruct (short_of_levels_some _ _ Hs) as (Hroom & where_ & ->).
  exists where_. split; [reflexivity | lia].
Qed.

Lemma repeat_char_length (c : ascii) (n : nat) : len (repeat_char c n) = n.
Proof. induction n as [ | n IH]; simpl; [reflexivity | now rewrite IH]. Qed.

(** A text of digits is read to its end, and every digit is counted. *)
Lemma take_digits_repeat (d : ascii) (n : nat) :
  is_digit d = true ->
  forall acc count,
    exists z, take_digits (repeat_char d n) acc count = (z, (count + n)%nat, EmptyString).
Proof.
  intros Hd. induction n as [ | n IH]; intros acc count; cbn [repeat_char take_digits].
  - exists acc. now rewrite Nat.add_0_r.
  - rewrite Hd. destruct (IH (acc * 10 + digit_value d)%Z (S count)) as [z Hz].
    exists z. rewrite Hz. f_equal. f_equal. lia.
Qed.

(** One opening bracket more than there is room for is refused where it
    stands, whatever follows. *)
Lemma nested_too_deep (room : nat) :
  forall fuel rest, (2 * room + 1 <= fuel)%nat ->
    scan_once fuel room (repeat_char "["%char (S room) ++ rest)
    = Failed (RecursionError (while_decoding "array")).
Proof.
  induction room as [ | room IH]; intros fuel rest Hfuel.
  - destruct fuel as [ | fuel]; [lia | reflexivity].
  - destruct fuel as [ | [ | fuel]]; [lia | lia | ].
    change (repeat_char "["%char (S (S room)) ++ rest)
      with (String "["%char (repeat_char "["%char (S room) ++ rest)).
    cbn [scan_once]. change (code "["%char =? 34)%N with false.
    change (code "["%char =? 123)%N with false.
    change (code "["%char =? 91)%N with true. cbv iota.
    change (repeat_char "["%char (S room) ++ rest)
      with (String "["%char (repeat_char "["%char room ++ rest)).
    cbn [skip_ws]. change (is_ws "["%char) with false. cbv iota zeta.
    change (code "["%char =? 93)%N with false. cbv iota.
    cbn [parse_array].
    change (String "["%char (repeat_char "["%char room ++ rest))
      with (repeat_char "["%char (S room) ++ rest).
    rewrite IH by lia. reflexivity.
Qed.

End JsonFacts.

(* ===================================================================== *)
(** ** The archive loader *)
(* ===================================================================== *)

Lemma dict_keys_set {V} (d : dict V) (k : string) (v : V) :
  dict_keys (dict_set d k v) = add_key (dict_keys d) k.
Proof.
  unfold dict_keys.
  induction d as [ | [k' v'] d IH]; simpl; [reflexivity | ].
  destruct (String.eqb k' k); simpl; [reflexivity | now rewrite IH].
Qed.

Lemma in_add_key (keys : list string) (k x : string) :
  In x (add_key keys k) <-> In x keys \/ x = k.
Proof.
  induction keys as [ | k' keys IH]; simpl.
  - intuition.
  - destruct (String.eqb_spec k' k) as [-> | Hne]; simpl.
    + intuition.
    + rewrite IH. intuition.
Qed.

Lemma NoDup_add_key (keys : list string) (k : string) :
  NoDup keys -> NoDup (add_key keys k).
Proof.
  induction keys as [ | k' keys IH]; simpl; intros H.
  - constructor; [intros [] | constructor].
  - destruct (String.eqb_spec k' k) as [-> | Hne]; [assumption | ].
    inversion H as [ | ? ? Hnotin Hnodup]; subst.
    constructor; [ | now apply IH].
    rewrite in_add_key. intros [Hin | Heq]; [contradiction | congruence].
Qed.

Lemma in_fold_add_key (names keys : list string) (x : string) :
  In x (fold_left add_key names keys) <-> In x keys \/ In x names.
Proof.
  revert keys. induction names as [ | n names IH]; simpl; intros keys.
  - intuition.
  - rewrite IH, in_add_key. intuition.
Qed.

Lemma NoDup_fold_add_key (names keys : list string) :
  NoDup keys -> NoDup (fold_left add_key names keys).
Proof.
  revert keys. induction names as [ | n names IH]; simpl; intros keys H;
    [assumption | apply IH, NoDup_add_key, H].
Qed.

(** Two duplicate-free lists with the same elements have the same length. *)
Lemma NoDup_same_length (l l' : list string) :
  NoDup l -> NoDup l' -> (forall x, In x l <-> In x l') -> List.length l = List.length l'.
Proof.
  intros Hl Hl' Hiff. apply Nat.le_antisymm.
  - apply NoDup_incl_length; [assumption | intros x Hx; now apply Hiff].
  - apply NoDup_incl_length; [assumption | intros x Hx; now apply Hiff].
Qed.

Lemma load_members_ok (w : World) (infolist : list ZipMember) :
  (forall m, In m (pdf_members infolist) -> extractable w m) ->
  forall invoices, exists d,
    outcome (load_members w infolist invoices) = Ok d /\
    dict_keys d =
      fold_left add_key (map zm_filename (pdf_members infolist)) (dict_keys invoices).
Proof.
  induction infolist as [ | m infolist IH]; intros Hall invoices.
  - exists invoices. split; reflexivity.
  - unfold pdf_members in *. cbn [filter] in Hall. cbn [load_members filter].
    destruct (is_pdf_name (zm_filename m)) eqn:Hpdf.
    + destruct (Hall m (or_introl eq_refl)) as (data & text & Hread & Hext).
      destruct (IH (fun x Hx => Hall x (or_intror Hx))
                   (dict_set invoices (zm_filename m) text)) as (d & Hd & Hkeys).
      exists d. split.
      * run. rewrite Hread. run. rewrite Hext. exact Hd.
      * cbn [map fold_left]. rewrite Hkeys, dict_keys_set. reflexivity.
    + apply IH. exact Hall.
Qed.

Lemma load_members_raise (w : World) (pre post : list ZipMember) (m : ZipMember)
    (data : list byte) (e : exn) :
  (forall x, In x (pdf_members pre) -> extractable w x) ->
  is_pdf_name (zm_filename m) = true ->
  zm_read m = Ok data ->
  outcome (extract_text_from_pdf w data) = Raise e ->
  forall invoices,
    outcome (load_members w (pre ++ m :: post)%list invoices) = Raise e.
Proof.
  intros Hpre Hpdf Hread Hext.
  induction pre as [ | x pre IH]; intros invoices; cbn [app load_members].
  - rewrite Hpdf. run. rewrite Hread. run. rewrite Hext. reflexivity.
  - unfold pdf_members in Hpre. cbn [filter] in Hpre.
    destruct (is_pdf_name (zm_filename x)) eqn:Hx.
    + destruct (Hpre x (or_introl eq_refl)) as (dx & tx & Hrx & Hex).
      run. rewrite Hrx. run. rewrite Hex. apply IH. intros y Hy. apply Hpre. now right.
    + apply IH. exact Hpre.
Qed.

Lemma outcome_extract_invoices_from_zip (w : World) (data : list byte)
    (infolist : list ZipMember) :
  ZipFile w data = Ok infolist ->
  outcome (extract_invoices_from_zip w data) =
    match outcome (load_members w infolist []) with
    | Ok d => Ok d
    | Raise e => Raise (HTTPException 400 ("Error processing ZIP file: " ++ str_exn e))
    end.
Proof.
  intros Hzip. unfold extract_invoices_from_zip.
  run. rewrite Hzip. run.
  destruct (outcome (load_members w infolist [])); reflexivity.
Qed.

(** C1.  When the archive opens and the text extraction of one of its PDF
    members fails (the members before it being fine), the loader does not
    let the extraction error [e] through: it raises its own error for the
    archive, status 400, whose message is "Error processing ZIP file: "
    followed by [str(e)].  No mapping is returned. *)
Theorem C1_member_failure_is_reported_as_archive_error
    (w : World) (zip_file_bytes : list byte) (pre post : list ZipMember)
    (m : ZipMember) (data : list byte) (e : exn) :
  ZipFile w zip_file_bytes = Ok (pre ++ m :: post)%list ->
  (forall x, In x (pdf_members pre) -> extractable w x) ->
  is_pdf_name (zm_filename m) = true ->
  zm_read m = Ok data ->
  outcome (extract_text_from_pdf w data) = Raise e ->
  outcome (extract_invoices_from_zip w zip_file_bytes) =
    Raise (HTTPException 400 ("Error processing ZIP file: " ++ str_exn e)) /\
  outcome (extract_invoices_from_zip w zip_file_bytes) <> Raise e /\
  exists cause,
    str_exn e = "400: Error extracting PDF text: " ++ str_exn cause.
Proof.
  intros Hzip Hpre Hpdf Hread Hext.
  rewrite (outcome_extract_invoices_from_zip w zip_file_bytes _ Hzip).
  rewrite (load_members_raise w pre post m data e Hpre Hpdf Hread Hext).
  destruct (extract_text_from_pdf_raises w data e Hext) as [cause ->].
  split; [reflexivity | split].
  - intros H. inversion H.
  - exists cause. reflexivity.
Qed.

Lemma C1_witness :
  outcome (extract_invoices_from_zip
             (Scenario.world Scenario.broken_member Scenario.answer_A)
             Scenario.archive_bytes) =
    Raise (HTTPException 400
             "Error processing ZIP file: 400: Error extracting PDF text: EOF marker not found").
Proof.
  apply (C1_member_failure_is_reported_as_archive_error
           (Scenario.world Scenario.broken_member Scenario.answer_A)
           Scenario.archive_bytes
           [Scenario.member "a.pdf" Scenario.invoice_bytes]
           [Scenario.member "c.pdf" Scenario.invoice_bytes]
           (Scenario.member "b.PDF" Scenario.broken_bytes)
           Scenario.broken_bytes
           (HTTPException 400 "Error extracting PDF text: EOF marker not found")).
  - reflexivity.
  - intros x [<- | []]. exists Scenario.invoice_bytes, "Lunch 50". split; reflexivity.
  - reflexivity.
  - reflexivity.
  - reflexivity.
Defined.

(** C3 fails for an archive that records one path twice: two PDF members,
    one entry. *)
Lemma C3_repeated_path_gives_one_entry :
  ZipFile (Scenario.world Scenario.repeated_path Scenario.answer_A)
    Scenario.archive_bytes = Ok Scenario.repeated_path /\
  List.length (pdf_members Scenario.repeated_path) = 2%nat /\
  outcome (extract_invoices_from_zip
             (Scenario.world Scenario.repeated_path Scenario.answer_A)
             Scenario.archive_bytes) = Ok [("a.pdf", "Lunch 50")].
Proof.
  repeat split.
Qed.

(** C3, amended.  For an archive that opens and whose PDF members (those
    whose path ends in '.pdf', whatever the case of the letters) can all be
    read and extracted, the loader returns a mapping whose keys are exactly
    the paths of the PDF members, each once: as many entries as there are
    distinct paths among them, hence one per PDF member when no path is
    recorded twice, and none for a member that is not a PDF. *)
Theorem C3_loader_keys_are_the_pdf_paths
    (w : World) (zip_file_bytes : list byte) (infolist : list ZipMember) :
  ZipFile w zip_file_bytes = Ok infolist ->
  (forall m, In m (pdf_members infolist) -> extractable w m) ->
  exists invoices,
    outcome (extract_invoices_from_zip w zip_file_bytes) = Ok invoices /\
    NoDup (dict_keys invoices) /\
    (forall k, In k (dict_keys invoices) <->
               exists m, In m infolist /\ is_pdf_name (zm_filename m) = true /\
                         zm_filename m = k) /\
    List.length invoices =
      List.length (nodup string_dec (map zm_filename (pdf_members infolist))) /\
    (NoDup (map zm_filename (pdf_members infolist)) ->
     List.length invoices = List.length (pdf_members infolist)) /\
    (forall m, In m infolist -> is_pdf_name (zm_filename m) = false ->
               ~ In (zm_filename m) (dict_keys invoices)).
Proof.
  intros Hzip Hall.
  destruct (load_members_ok w infolist Hall []) as (d & Hd & Hkeys).
  exists d. simpl in Hkeys.
  assert (Hnodup : NoDup (dict_keys d)).
  { rewrite Hkeys. apply NoDup_fold_add_key. constructor. }
  assert (Hin : forall k, In k (dict_keys d) <->
                          In k (map zm_filename (pdf_members infolist))).
  { intros k. rewrite Hkeys, in_fold_add_key. simpl. intuition. }
  assert (Hmem : forall k, In k (map zm_filename (pdf_members infolist)) <->
                 exists m, In m infolist /\ is_pdf_name (zm_filename m) = true /\
                           zm_filename m = k).
  { intros k. rewrite in_map_iff. unfold pdf_members. split.
    - intros (m & Hk & Hm). apply filter_In in Hm. exists m. tauto.
    - intros (m & Hm & Hpdf & Hk). exists m. split; [assumption | ].
      apply filter_In. tauto. }
  assert (Hlen : List.length d = List.length (dict_keys d)).
  { unfold dict_keys. now rewrite length_map. }
  split; [ | split; [ | split; [ | split; [ | split]]]].
  - rewrite (outcome_extract_invoices_from_zip w zip_file_bytes _ Hzip), Hd.
    reflexivity.
  - exact Hnodup.
  - intros k. rewrite Hin. apply Hmem.
  - rewrite Hlen. apply NoDup_same_length; [assumption | apply NoDup_nodup | ].
    intros x. rewrite nodup_In. apply Hin.
  - intros Hdistinct. rewrite Hlen.
    rewrite <- (length_map zm_filename (pdf_members infolist)).
    apply NoDup_same_length; assumption.
  - intros m Hm Hnot Hk. apply Hin, Hmem in Hk.
    destruct Hk as (m' & _ & Hpdf & Heq). rewrite Heq in Hpdf. congruence.
Qed.

Lemma C3_witness :
  exists invoices,
    outcome (extract_invoices_from_zip
               (Scenario.world Scenario.one_invoice Scenario.answer_A)
               Scenario.archive_bytes) = Ok invoices /\
    List.length invoices = 1%nat.
Proof.
  destruct (C3_loader_keys_are_the_pdf_paths
              (Scenario.world Scenario.one_invoice Scenario.answer_A)
              Scenario.archive_bytes Scenario.one_invoice eq_refl)
    as (invoices & Hout & _ & _ & Hlen & _).
  - intros m [<- | []]. exists Scenario.invoice_bytes, "Lunch 50". split; reflexivity.
  - exists invoices. split; [exact Hout | exact Hlen].
Defined.

(* ===================================================================== *)
(** ** The search for the array *)
(* ===================================================================== *)

Lemma append_assoc (a b c : string) : (a ++ b) ++ c = a ++ b ++ c.
Proof. induction a as [ | x a IH]; simpl; [reflexivity | now rewrite IH]. Qed.

Lemma drop_append (pre s : string) : Text.drop (String.length pre) (pre ++ s) = s.
Proof. induction pre as [ | x pre IH]; simpl; [now destruct s | exact IH]. Qed.

Lemma find_char_append (c : ascii) (pre rest : string) :
  Text.contains_char c pre = false ->
  Text.find_char c (pre ++ String c rest) = Some (String.length pre).
Proof.
  induction pre as [ | x pre IH]; simpl; intros H.
  - now rewrite Ascii.eqb_refl.
  - apply orb_false_iff in H. destruct H as [Hx Hpre].
    now rewrite Hx, (IH Hpre).
Qed.

Lemma rfind_char_none (c : ascii) (s : string) :
  Text.contains_char c s = false -> Text.rfind_char c s = None.
Proof.
  induction s as [ | x s IH]; simpl; intros H; [reflexivity | ].
  apply orb_false_iff in H. destruct H as [Hx Hs].
  now rewrite (IH Hs), Hx.
Qed.

Lemma rfind_char_append (c : ascii) (a post : string) :
  Text.contains_char c post = false ->
  Text.rfind_char c (a ++ String c post) = Some (String.length a).
Proof.
  intros H. induction a as [ | x a IH]; simpl.
  - now rewrite (rfind_char_none c post H), Ascii.eqb_refl.
  - now rewrite IH.
Qed.

Lemma substring_append (a : string) (c : ascii) (post : string) :
  substring 0 (S (String.length a)) (a ++ String c post) = a ++ String c EmptyString.
Proof.
  induction a as [ | x a IH]; simpl.
  - now destruct post.
  - now rewrite IH.
Qed.

Lemma find_char_some (c : ascii) (s : string) (i : nat) :
  Text.find_char c s = Some i ->
  exists pre rest, s = pre ++ String c rest /\ i = String.length pre.
Proof.
  revert i. induction s as [ | x s IH]; simpl; intros i H; [discriminate | ].
  destruct (Ascii.eqb_spec x c) as [-> | Hne].
  - injection H as <-. now exists EmptyString, s.
  - destruct (Text.find_char c s) as [j | ]; [ | discriminate].
    injection H as <-. destruct (IH j eq_refl) as (pre & rest & -> & ->).
    now exists (String x pre), rest.
Qed.

Lemma rfind_char_some (c : ascii) (s : string) (j : nat) :
  Text.rfind_char c s = Some j ->
  exists a post, s = a ++ String c post /\ j = String.length a.
Proof.
  revert j. induction s as [ | x s IH]; simpl; intros j H; [discriminate | ].
  destruct (Text.rfind_char c s) as [k | ].
  - injection H as <-. destruct (IH k eq_refl) as (a & post & -> & ->).
    now exists (String x a), post.
  - destruct (Ascii.eqb_spec x c) as [-> | Hne]; [ | discriminate].
    injection H as <-. now exists EmptyString, s.
Qed.

(** The pattern matches exactly from the first '[' to the last ']'. *)
Lemma re_search_array_between (pre mid post : string) :
  Text.contains_char "["%char pre = false ->
  Text.contains_char "]"%char post = false ->
  re_search_array (pre ++ "[" ++ mid ++ "]" ++ post) = Some ("[" ++ mid ++ "]").
Proof.
  intros Hpre Hpost. unfold re_search_array.
  change ("[" ++ mid ++ "]" ++ post) with (String "["%char (mid ++ String "]"%char post)).
  rewrite (find_char_append _ _ _ Hpre), drop_append.
  change (String "["%char (mid ++ String "]"%char post))
    with (String "["%char mid ++ String "]"%char post).
  rewrite (rfind_char_append _ _ _ Hpost), substring_append.
  reflexivity.
Qed.

(** A match is a '[' of the text with a ']' somewhere after it. *)
Lemma re_search_array_some (text s : string) :
  re_search_array text = Some s ->
  exists pre mid post, text = pre ++ "[" ++ mid ++ "]" ++ post.
Proof.
  unfold re_search_array.
  destruct (Text.find_char "["%char text) as [i | ] eqn:Hfind; [ | discriminate].
  destruct (find_char_some _ _ _ Hfind) as (pre & rest & -> & ->).
  rewrite drop_append.
  destruct (Text.rfind_char "]"%char (String "["%char rest)) as [j | ] eqn:Hrfind;
    [ | discriminate].
  intros _. destruct (rfind_char_some _ _ _ Hrfind) as (a & post & Ha & _).
  destruct a as [ | x mid]; simpl in Ha; [discriminate | ].
  injection Ha as <- ->. now exists pre, mid, post.
Qed.

Lemma re_search_array_none (text : string) :
  (forall pre mid post, text <> pre ++ "[" ++ mid ++ "]" ++ post) ->
  re_search_array text = None.
Proof.
  intros H. destruct (re_search_array text) as [s | ] eqn:Hs; [ | reflexivity].
  destruct (re_search_array_some _ _ Hs) as (pre & mid & post & Heq).
  now destruct (H pre mid post).
Qed.

(* ===================================================================== *)
(** ** The response parser *)
(* ===================================================================== *)

Lemma rbind_ok {A B} (r : result A) (f : A -> result B) (b : B) :
  rbind r f = Ok b -> exists a, r = Ok a /\ f a = Ok b.
Proof. destruct r as [a | e]; simpl; [eauto | discriminate]. Qed.

(** What a record that [make_analysis] builds says about the element. *)
Lemma make_analysis_ok (w : World) (item : json) (r : InvoiceAnalysis) :
  make_analysis w item = Ok r ->
  exists v, Py.getitem item "reimbursable_amount" = Ok v /\
            Py.int v = Ok (reimbursable_amount r).
Proof.
  unfold make_analysis. intros H.
  apply rbind_ok in H. destruct H as (a & _ & H).
  apply rbind_ok in H. destruct H as (b & _ & H).
  apply rbind_ok in H. destruct H as (c & Hc & H).
  apply rbind_ok in H. destruct H as (n & Hn & H).
  apply rbind_ok in H. destruct H as (d & _ & H).
  apply rbind_ok in H. destruct H as (a' & _ & H).
  apply rbind_ok in H. destruct H as (b' & _ & H).
  apply rbind_ok in H. destruct H as (d' & _ & H).
  injection H as <-. exists c. split; assumption.
Qed.

(** An element that describes a record is turned into that record when
    pydantic lets strings through. *)
Lemma make_analysis_describes (w : World) (item : json) (r : InvoiceAnalysis) :
  (forall s, pydantic_str w (JString s) = Ok s) ->
  describes item r -> make_analysis w item = Ok r.
Proof.
  intros Hstr (Ha & Hb & (v & Hv & Hn) & Hd). unfold make_analysis.
  rewrite Ha, Hb, Hv. simpl. rewrite Hn, Hd. simpl. rewrite !Hstr. simpl.
  now destruct r.
Qed.

Lemma convert_analyses_ok (w : World) (items : list json) :
  forall analyses records,
    convert_analyses w items analyses = Ok records ->
    exists rs, records = (analyses ++ rs)%list /\
               Forall2 (fun item r => make_analysis w item = Ok r) items rs.
Proof.
  induction items as [ | item items IH]; simpl; intros analyses records H.
  - injection H as <-. exists []. split; [now rewrite app_nil_r | constructor].
  - apply rbind_ok in H. destruct H as (r & Hr & H).
    destruct (IH _ _ H) as (rs & -> & Hrs).
    exists (r :: rs). split; [now rewrite <- app_assoc | now constructor].
Qed.

Lemma convert_analyses_describes (w : World) (items : list json)
    (rs : list InvoiceAnalysis) :
  (forall s, pydantic_str w (JString s) = Ok s) ->
  Forall2 describes items rs ->
  forall analyses, convert_analyses w items analyses = Ok (analyses ++ rs)%list.
Proof.
  intros Hstr H. induction H as [ | item r items rs Hd _ IH]; intros analyses; simpl.
  - now rewrite app_nil_r.
  - rewrite (make_analysis_describes w item r Hstr Hd). simpl.
    rewrite IH, <- app_assoc. reflexivity.
Qed.

(** The steps behind an accepted answer. *)
Lemma parse_response_ok (w : World) (response_text : string)
    (records : list InvoiceAnalysis) :
  parse_response w response_text = Ok records ->
  exists analyses_data items,
    decode_response w response_text = Ok analyses_data /\
    Py.iter analyses_data = Ok items /\
    Forall2 (fun item r => make_analysis w item = Ok r) items records.
Proof.
  unfold parse_response. intros H.
  apply rbind_ok in H. destruct H as (analyses_data & Hdec & H).
  apply rbind_ok in H. destruct H as (items & Hiter & H).
  destruct (convert_analyses_ok _ _ _ _ H) as (rs & -> & Hrs).
  now exists analyses_data, items.
Qed.

Lemma trunc_truncated (m e : Z) : truncated_toward_zero m e (Float.trunc m e).
Proof.
  unfold truncated_toward_zero, Float.trunc.
  destruct (Z.leb_spec 0 e) as [He | He].
  - repeat split; lia.
  - assert (Hp : (0 < 2 ^ (- e))%Z) by (apply Z.pow_pos_nonneg; lia).
    set (p := (2 ^ (- e))%Z) in *.
    assert (Habs : Z.abs (Z.quot m p) = Z.quot (Z.abs m) p).
    { rewrite <- Z.quot_abs by lia. now rewrite (Z.abs_eq p) by lia. }
    repeat split; try lia.
    + rewrite Habs, Z.quot_div_nonneg by lia.
      rewrite Z.mul_comm. apply Z.mul_div_le. lia.
    + rewrite Habs, Z.quot_div_nonneg by lia.
      pose proof (Z.mul_succ_div_gt (Z.abs m) p Hp). lia.
    + intros Hm. apply Z.quot_pos; lia.
    + intros Hm. rewrite <- (Z.opp_involutive m), Z.quot_opp_l by lia.
      assert (0 <= Z.quot (- m) p)%Z by (apply Z.quot_pos; lia). lia.
Qed.

(** C2 fails when the prose around the array holds a square bracket: the
    answer below contains one JSON array (at offset 17, the array of
    scenario A, which the parser accepts on its own), but the pattern
    matches from the '[' of the remark and the decoder rejects the match. *)
Lemma C2_bracket_in_the_prose :
  array_substrings Scenario.answer_with_remark = [(17, 136)%nat] /\
  substring 17 136 Scenario.answer_with_remark = Scenario.answer_A /\
  parse_response (Scenario.world Scenario.one_invoice Scenario.answer_A)
    Scenario.answer_A = Ok [Scenario.analysis_A] /\
  re_search_array Scenario.answer_with_remark = Some ("[final]: " ++ Scenario.answer_A) /\
  parse_response (Scenario.world Scenario.one_invoice Scenario.answer_with_remark)
    Scenario.answer_with_remark =
    Raise (PyException "JSONDecodeError" "Expecting value: line 1 column 2 (char 1)") /\
  outcome (analyze_invoices
             (Scenario.world Scenario.one_invoice Scenario.answer_with_remark)
             Scenario.hr_policy Scenario.invoices_zip) =
    Raise (HTTPException 500
             "LLM analysis failed: Expecting value: line 1 column 2 (char 1)").
Proof.
  repeat split; vm_compute; reflexivity.
Qed.

(** C2, amended.  For every answer [pre ++ A ++ post] in which [A], from a
    '[' to a ']', is a well-formed JSON array, [pre] holds no '[' and
    [post] holds no ']', the parser locates [A] (first '[' through last
    ']'), decodes it, and, when every element is an object that supplies
    the three text fields as strings and a [reimbursable_amount] that
    [int()] accepts, returns one record per element, in order. *)
Theorem C2_array_between_the_outer_brackets_is_parsed
    (w : World) (pre mid post : string) (items : list json)
    (records : list InvoiceAnalysis) :
  Text.contains_char "["%char pre = false ->
  Text.contains_char "]"%char post = false ->
  Json.loads (recursion_room w) ("[" ++ mid ++ "]") = Ok (JArray items) ->
  (forall s, pydantic_str w (JString s) = Ok s) ->
  Forall2 describes items records ->
  re_search_array (pre ++ "[" ++ mid ++ "]" ++ post) = Some ("[" ++ mid ++ "]") /\
  decode_response w (pre ++ "[" ++ mid ++ "]" ++ post) = Ok (JArray items) /\
  parse_response w (pre ++ "[" ++ mid ++ "]" ++ post) = Ok records.
Proof.
  intros Hpre Hpost Hloads Hstr Hdesc.
  pose proof (re_search_array_between pre mid post Hpre Hpost) as Hsearch.
  assert (Hdec : decode_response w (pre ++ "[" ++ mid ++ "]" ++ post) = Ok (JArray items)).
  { unfold decode_response. now rewrite Hsearch. }
  split; [exact Hsearch | split; [exact Hdec | ]].
  unfold parse_response. rewrite Hdec. simpl.
  apply (convert_analyses_describes w items records Hstr Hdesc []).
Qed.

Lemma C2_witness :
  parse_response (Scenario.world Scenario.one_invoice Scenario.answer_fraction)
    Scenario.answer_fraction =
    Ok [ {| invoice_id := "a.pdf";
            reimbursement_status := "Partially Reimbursed";
            reimbursable_amount := 42;
            reason := "Cap" |} ].
Proof.
  apply (C2_array_between_the_outer_brackets_is_parsed
           (Scenario.world Scenario.one_invoice Scenario.answer_fraction)
           "Here you are: "
           (Scenario.json_text "{'invoice_id':'a.pdf','reimbursement_status':'Partially Reimbursed','reimbursable_amount':42.9,'reason':'Cap'}")
           ""
           [JObject [("invoice_id", JString "a.pdf");
                     ("reimbursement_status", JString "Partially Reimbursed");
                     ("reimbursable_amount", JFloat (Finite 6037638250443571 (-47)));
                     ("reason", JString "Cap")]]).
  - reflexivity.
  - reflexivity.
  - vm_compute. reflexivity.
  - reflexivity.
  - constructor; [ | constructor].
    repeat split; try reflexivity.
    exists (JFloat (Finite 6037638250443571 (-47))). split; reflexivity.
Defined.

(** C4 fails for a negative amount: the parser accepts it as it is. *)
Lemma C4_negative_amount_is_accepted :
  parse_response (Scenario.world Scenario.one_invoice Scenario.answer_negative)
    Scenario.answer_negative =
    Ok [ {| invoice_id := "a.pdf";
            reimbursement_status := "Declined";
            reimbursable_amount := -5;
            reason := "Refund" |} ] /\
  (-5 < 0)%Z.
Proof.
  split; [vm_compute; reflexivity | lia].
Qed.

(** C4, amended.  The [reimbursable_amount] of every record the parser
    accepts is an integer, the one [int()] gives for the value the element
    supplies: the value itself when it is a JSON integer, negative or not,
    and a non-negative integer when it is a non-negative fraction.  The
    parser checks no sign. *)
Theorem C4_amount_is_the_int_of_the_supplied_value
    (w : World) (response_text : string) (records : list InvoiceAnalysis) :
  parse_response w response_text = Ok records ->
  exists analyses_data items,
    decode_response w response_text = Ok analyses_data /\
    Py.iter analyses_data = Ok items /\
    Forall2
      (fun item r =>
         exists v,
           Py.getitem item "reimbursable_amount" = Ok v /\
           Py.int v = Ok (reimbursable_amount r) /\
           (forall z, v = JInt z -> reimbursable_amount r = z) /\
           (forall m e, v = JFloat (Finite m e) -> (0 <= m)%Z ->
                        (0 <= reimbursable_amount r)%Z))
      items records.
Proof.
  intros H.
  destruct (parse_response_ok w response_text records H)
    as (analyses_data & items & Hdec & Hiter & Hall).
  exists analyses_data, items. split; [exact Hdec | split; [exact Hiter | ]].
  revert Hall. apply Forall2_impl. intros item r Hmake.
  destruct (make_analysis_ok w item r Hmake) as (v & Hv & Hint).
  exists v. split; [exact Hv | split; [exact Hint | split]].
  - intros z ->. simpl in Hint. now injection Hint.
  - intros m e -> Hm. simpl in Hint. injection Hint as <-.
    now apply (trunc_truncated m e).
Qed.

Lemma C4_witness :
  exists analyses_data items,
    decode_response (Scenario.world Scenario.one_invoice Scenario.answer_negative) Scenario.answer_negative = Ok analyses_data /\
    Py.iter analyses_data = Ok items /\
    Forall2
      (fun item r =>
         exists v,
           Py.getitem item "reimbursable_amount" = Ok v /\
           Py.int v = Ok (reimbursable_amount r) /\
           (forall z, v = JInt z -> reimbursable_amount r = z) /\
           (forall m e, v = JFloat (Finite m e) -> (0 <= m)%Z ->
                        (0 <= reimbursable_amount r)%Z))
      items
      [ {| invoice_id := "a.pdf";
           reimbursement_status := "Declined";
           reimbursable_amount := -5;
           reason := "Refund" |} ].
Proof.
  apply (C4_amount_is_the_int_of_the_supplied_value
           (Scenario.world Scenario.one_invoice Scenario.answer_negative)
           Scenario.answer_negative).
  vm_compute. reflexivity.
Defined.

(** *** The float of a written number *)

Module FloatFacts.

Local Open Scope Z_scope.

(** Division with rounding to the nearest integer: the quotient that
    [round_ratio] takes is within half of [a / b]. *)
Lemma nearest_quotient (a b : Z) :
  0 <= a -> 0 < b ->
  let m0 := a / b in
  let r := a mod b in
  let m := if (b <? 2 * r) || ((b =? 2 * r) && Z.odd m0) then m0 + 1 else m0 in
  0 <= m /\ 2 * Z.abs (a - m * b) <= b /\ m0 <= m <= m0 + 1.
Proof.
  intros Ha Hb m0 r m.
  pose proof (Z.div_mod a b ltac:(lia)) as Hdiv.
  pose proof (Z.mod_pos_bound a b Hb) as Hr.
  assert (Hm0 : 0 <= m0) by (apply Z.div_pos; lia).
  fold m0 in Hdiv. fold r in Hdiv, Hr.
  unfold m.
  destruct (Z.ltb_spec b (2 * r)) as [H1 | H1]; cbn [orb].
  - repeat split; lia || nia.
  - destruct (Z.eqb_spec b (2 * r)) as [H2 | H2]; cbn [andb].
    + destruct (Z.odd m0); repeat split; lia || nia.
    + repeat split; lia || nia.
Qed.

(** [floor_log2] is not above the logarithm. *)
Lemma floor_log2_le (n d j : Z) :
  0 < n -> 0 < d -> 0 <= j -> n < d * 2 ^ (j + 1) -> Float.floor_log2 n d <= j.
Proof.
  intros Hn Hd Hj Hlt. unfold Float.floor_log2.
  set (k := Z.log2 n - Z.log2 d).
  pose proof (Z.log2_spec n Hn) as [Hn1 Hn2].
  pose proof (Z.log2_spec d Hd) as [Hd1 Hd2].
  pose proof (Z.log2_nonneg n) as Hln. pose proof (Z.log2_nonneg d) as Hld.
  destruct (Z.le_gt_cases k (j + 1)) as [Hk | Hk].
  - destruct (Z.eq_dec k (j + 1)) as [Heq | Hne].
    + destruct (0 <=? k) eqn:H0.
      * destruct (Z.leb_spec (d * 2 ^ k) n) as [Hge | Hge]; [ | lia].
        rewrite Heq in Hge. lia.
      * apply Z.leb_gt in H0. lia.
    + destruct (if 0 <=? k then d * 2 ^ k <=? n else d <=? n * 2 ^ (- k)); lia.
  - exfalso.
    assert (Hk1 : 0 <= k - 1 - (j + 1)) by lia.
    assert (H1 : 2 ^ (Z.log2 n) = 2 ^ (Z.log2 d) * 2 ^ k).
    { rewrite <- Z.pow_add_r by lia. f_equal. unfold k. lia. }
    assert (H2 : 2 ^ k = 2 * 2 ^ (k - 1)).
    { rewrite <- (Z.pow_succ_r 2 (k - 1)) by lia. f_equal. lia. }
    assert (H3 : 2 ^ (k - 1) = 2 ^ (j + 1) * 2 ^ (k - 1 - (j + 1))).
    { rewrite <- Z.pow_add_r by lia. f_equal. lia. }
    assert (H4 : 0 < 2 ^ (k - 1 - (j + 1))) by (apply Z.pow_pos_nonneg; lia).
    assert (H5 : 0 < 2 ^ (j + 1)) by (apply Z.pow_pos_nonneg; lia).
    rewrite Z.pow_succ_r in Hd2 by lia.
    assert (H6 : d * 2 ^ (k - 1) < n) by nia.
    nia.
Qed.

(** The float of a ratio below [2^53]: its exponent is not positive, it is
    within half a unit of its last place of the ratio, and it lies between
    the integers next to the ratio. *)
Lemma round_ratio_spec (negative : bool) (n d m e : Z) :
  0 < n -> 0 < d -> n < d * 2 ^ 53 ->
  Float.round_ratio negative n d = Finite m e ->
  e <= 0 /\
  (if negative then m <= 0 else 0 <= m) /\
  2 * Z.abs (n * 2 ^ (- e) - Z.abs m * d) <= d /\
  n / d * 2 ^ (- e) <= Z.abs m <= (n / d + 1) * 2 ^ (- e).
Proof.
  intros Hn Hd Hlt. unfold Float.round_ratio.
  pose proof (floor_log2_le n d 52 Hn Hd ltac:(lia) Hlt) as Hlog.
  set (q := Z.max (Float.floor_log2 n d - 52) (-1074)).
  assert (Hq : q <= 0) by lia. clearbody q. clear Hlog.
  set (a := if 0 <=? q then n else n * 2 ^ (- q)).
  set (b := if 0 <=? q then d * 2 ^ q else d).
  assert (Hpp : 0 < 2 ^ (- q)) by (apply Z.pow_pos_nonneg; lia).
  assert (Hab : a = n * 2 ^ (- q) /\ b = d).
  { unfold a, b. destruct (Z.leb_spec 0 q) as [H0 | H0]; [ | now split].
    assert (q = 0) by lia. subst q. cbn. lia. }
  destruct Hab as [Hae Hbe]. clearbody a b. subst a b.
  pose proof (nearest_quotient (n * 2 ^ (- q)) d ltac:(nia) Hd) as Hnear.
  cbv zeta in Hnear.
  set (m1 := if (d <? 2 * ((n * 2 ^ (- q)) mod d))
                || ((d =? 2 * ((n * 2 ^ (- q)) mod d)) && Z.odd (n * 2 ^ (- q) / d))
             then n * 2 ^ (- q) / d + 1 else n * 2 ^ (- q) / d) in *.
  destruct Hnear as (Hm1 & Hhalf & Hbetween).
  destruct ((971 <? q) || ((q =? 971) && (2 ^ 53 <=? m1))); [discriminate | ].
  intros [= <- <-].
  assert (Habs : Z.abs (if negative then - m1 else m1) = m1)
    by (destruct negative; lia).
  rewrite Habs.
  split; [exact Hq | ].
  split; [destruct negative; lia | ].
  split; [exact Hhalf | ].
  set (p := 2 ^ (- q)) in *. clearbody p m1.
  pose proof (Z.div_mod n d ltac:(lia)) as Hnd.
  pose proof (Z.mod_pos_bound n d Hd) as Hnr.
  assert (Hlow : n / d * p <= n * p / d).
  { apply Z.div_le_lower_bound; [lia | nia]. }
  assert (Hup : n * p / d < (n / d + 1) * p).
  { apply Z.div_lt_upper_bound; [lia | nia]. }
  lia.
Qed.

(** What [int()] makes of the float that [json.loads] reads a written
    number below [2^53] as. *)
Lemma written_fraction (negative : bool) (digits exp10 n d m e : Z) :
  0 < digits ->
  decimal_ratio digits exp10 = (n, d) ->
  n < d * 2 ^ 53 ->
  Float.of_decimal negative digits exp10 = Finite m e ->
  stored_for negative n d m e (Float.trunc m e).
Proof.
  intros Hdigits Hratio Hlt Hfloat.
  assert (Hnd : 0 < n /\ 0 < d /\ Float.round_ratio negative n d = Finite m e).
  { unfold Float.of_decimal in Hfloat. unfold decimal_ratio in Hratio.
    destruct (Z.eqb_spec digits 0) as [H0 | _]; [lia | ].
    destruct (Z.leb_spec 0 exp10) as [Hexp | Hexp]; injection Hratio as <- <-.
    - assert (0 < 10 ^ exp10) by (apply Z.pow_pos_nonneg; lia).
      split; [nia | split; [lia | exact Hfloat]].
    - assert (0 < 10 ^ (- exp10)) by (apply Z.pow_pos_nonneg; lia).
      split; [lia | split; [lia | exact Hfloat]]. }
  destruct Hnd as (Hn & Hd & Hround).
  destruct (round_ratio_spec negative n d m e Hn Hd Hlt Hround)
    as (He & Hsign & Hhalf & Hbetween).
  destruct (trunc_truncated m e) as (Hexact & Hcut & Hpos & Hneg).
  split; [exact He | split; [exact Hhalf | split]].
  - destruct negative; [apply Hneg | apply Hpos]; exact Hsign.
  - destruct (Z.eq_dec e 0) as [-> | Hne].
    + rewrite (Hexact ltac:(lia)) in *. cbn in Hbetween |- *.
      rewrite Z.mul_1_r in *. lia.
    + specialize (Hcut ltac:(lia)).
      assert (Hp : 0 < 2 ^ (- e)) by (apply Z.pow_pos_nonneg; lia).
      set (p := 2 ^ (- e)) in *. clearbody p.
      set (z := Z.abs (Float.trunc m e)) in *. clearbody z.
      set (k := n / d) in *. clearbody k.
      assert (k <= z <= k + 1) by nia.
      assert (z = k \/ z = k + 1) as [Hz | Hz] by lia; [now left | right].
      split; [exact Hz | nia].
Qed.

End FloatFacts.

(** C5 fails for a fraction that lies nearer to an integer than binary64
    floats lie to each other: [json.loads] reads 2.9999999999999999, which
    is less than 3, as the float 3.0, and the parser stores 3, while the
    number truncated toward zero is 2. *)
Lemma C5_fraction_next_to_an_integer_is_stored_as_that_integer :
  parse_response (Scenario.world Scenario.one_invoice Edge.answer_nearly_three)
    Edge.answer_nearly_three =
    Ok [ {| invoice_id := "a.pdf";
            reimbursement_status := "Partially Reimbursed";
            reimbursable_amount := 3;
            reason := "Cap" |} ] /\
  Json.loads 940 "2.9999999999999999" = Ok (JFloat (Finite 6755399441055744 (-51))) /\
  Float.trunc 6755399441055744 (-51) = 3%Z /\
  (2 * 10 ^ 16 <= 29999999999999999 < 3 * 10 ^ 16)%Z.
Proof.
  split; [vm_compute; reflexivity | ].
  split; [vm_compute; reflexivity | ].
  split; [vm_compute; reflexivity | lia].
Qed.

(** C5, amended.  When the [reimbursable_amount] of a parsed element is a
    fractional JSON number, the element holds the binary64 float
    [m * 2^e] that [json.loads] made of it, and the amount of the accepted
    record is that float truncated toward zero, an integer.  For every
    number [digits * 10^exp10] below [2^53] that [json.loads] reads as
    this float, the float lies within half a unit of its last place of the
    number, and the amount is the number truncated toward zero, or the
    next integer away from zero, and this only when the float is that
    integer. *)
Theorem C5_fractional_amount_is_truncated_toward_zero
    (w : World) (response_text : string) (records : list InvoiceAnalysis) :
  parse_response w response_text = Ok records ->
  exists analyses_data items,
    decode_response w response_text = Ok analyses_data /\
    Py.iter analyses_data = Ok items /\
    Forall2
      (fun item r =>
         forall m e,
           Py.getitem item "reimbursable_amount" = Ok (JFloat (Finite m e)) ->
           reimbursable_amount r = Float.trunc m e /\
           truncated_toward_zero m e (reimbursable_amount r) /\
           forall negative digits exp10 n d,
             (0 < digits)%Z ->
             decimal_ratio digits exp10 = (n, d) ->
             (n < d * 2 ^ 53)%Z ->
             Float.of_decimal negative digits exp10 = Finite m e ->
             stored_for negative n d m e (reimbursable_amount r))
      items records.
Proof.
  intros H.
  destruct (parse_response_ok w response_text records H)
    as (analyses_data & items & Hdec & Hiter & Hall).
  exists analyses_data, items. split; [exact Hdec | split; [exact Hiter | ]].
  revert Hall. apply Forall2_impl. intros item r Hmake m e Hitem.
  destruct (make_analysis_ok w item r Hmake) as (v & Hv & Hint).
  rewrite Hitem in Hv. injection Hv as <-. simpl in Hint. injection Hint as <-.
  split; [reflexivity | split; [apply trunc_truncated | ]].
  intros negative digits exp10 n d Hdigits Hratio Hlt Hfloat.
  exact (FloatFacts.written_fraction negative digits exp10 n d m e
           Hdigits Hratio Hlt Hfloat).
Qed.

(** The amount 42.9 of the specification's example is stored as 42. *)
Lemma C5_witness :
  parse_response (Scenario.world Scenario.one_invoice Scenario.answer_fraction)
    Scenario.answer_fraction =
    Ok [ {| invoice_id := "a.pdf";
            reimbursement_status := "Partially Reimbursed";
            reimbursable_amount := 42;
            reason := "Cap" |} ] /\
  exists analyses_data items,
    decode_response (Scenario.world Scenario.one_invoice Scenario.answer_fraction)
      Scenario.answer_fraction = Ok analyses_data /\
    Py.iter analyses_data = Ok items /\
    Forall2
      (fun item r =>
         forall m e,
           Py.getitem item "reimbursable_amount" = Ok (JFloat (Finite m e)) ->
           reimbursable_amount r = Float.trunc m e /\
           truncated_toward_zero m e (reimbursable_amount r) /\
           forall negative digits exp10 n d,
             (0 < digits)%Z ->
             decimal_ratio digits exp10 = (n, d) ->
             (n < d * 2 ^ 53)%Z ->
             Float.of_decimal negative digits exp10 = Finite m e ->
             stored_for negative n d m e (reimbursable_amount r))
      items
      [ {| invoice_id := "a.pdf";
           reimbursement_status := "Partially Reimbursed";
           reimbursable_amount := 42;
           reason := "Cap" |} ].
Proof.
  split; [vm_compute; reflexivity | ].
  apply (C5_fractional_amount_is_truncated_toward_zero
           (Scenario.world Scenario.one_invoice Scenario.answer_fraction)
           Scenario.answer_fraction).
  vm_compute. reflexivity.
Defined.

(* ===================================================================== *)
(** ** The endpoint *)
(* ===================================================================== *)

Lemma outcome_analyze_invoices (w : World) (hr_policy invoices_zip : UploadFile) :
  names_accepted hr_policy invoices_zip ->
  outcome (analyze_invoices w hr_policy invoices_zip) =
    match outcome (analyze_invoices_try w hr_policy invoices_zip) with
    | Ok response => Ok response
    | Raise (HTTPException status_code detail) => Raise (HTTPException status_code detail)
    | Raise (PyException cls msg) =>
        Raise (HTTPException 500 ("Internal server error: " ++ msg))
    end.
Proof.
  intros [Hpdf Hzip]. unfold analyze_invoices. rewrite Hpdf, Hzip. cbn [negb]. run.
  destruct (outcome (analyze_invoices_try w hr_policy invoices_zip)) as [r | [c d | cls msg]];
    reflexivity.
Qed.

Lemma outcome_analyze_invoices_try_loaded (w : World) (hr_policy invoices_zip : UploadFile)
    (policy_text : string) (invoices : dict string) :
  archive_loaded w hr_policy invoices_zip policy_text invoices ->
  outcome (analyze_invoices_try w hr_policy invoices_zip) =
    if dict_is_empty invoices then
      Raise (HTTPException 400 "No PDF invoices found in ZIP file")
    else
      match outcome (analyze_invoices_with_llm w policy_text invoices) with
      | Ok analyses =>
          Ok {| analyses := analyses;
                total_invoices_processed := Z.of_nat (List.length analyses) |}
      | Raise e => Raise e
      end.
Proof.
  intros (_ & pb & zb & Hread & Hext & Hblank & Hzread & Hload).
  unfold analyze_invoices_try. run. rewrite Hread. run. rewrite Hext. run.
  rewrite Hblank. run. rewrite Hzread. run. rewrite Hload. run.
  destruct (dict_is_empty invoices); run; [reflexivity | ].
  destruct (outcome (analyze_invoices_with_llm w policy_text invoices)); reflexivity.
Qed.

(** The model analysis raises nothing but its own [HTTPException]. *)
Lemma analyze_invoices_with_llm_raises (w : World) (policy_text : string)
    (invoices : dict string) (e : exn) :
  outcome (analyze_invoices_with_llm w policy_text invoices) = Raise e ->
  exists cause, e = HTTPException 500 ("LLM analysis failed: " ++ str_exn cause).
Proof.
  unfold analyze_invoices_with_llm. run.
  destruct (generate_content w _ _) as [text | e0]; run.
  - destruct (parse_response w text) as [rs | e1]; run; [discriminate | ].
    intros [= <-]. now exists e1.
  - intros [= <-]. now exists e0.
Qed.

(** The loader raises nothing but its own [HTTPException]. *)
Lemma extract_invoices_from_zip_raises (w : World) (data : list byte) (e : exn) :
  outcome (extract_invoices_from_zip w data) = Raise e ->
  exists cause, e = HTTPException 400 ("Error processing ZIP file: " ++ str_exn cause).
Proof.
  unfold extract_invoices_from_zip. run.
  destruct (ZipFile w data) as [infolist | e0]; run.
  - destruct (outcome (load_members w infolist [])) as [d | e1]; [discriminate | ].
    intros [= <-]. now exists e1.
  - intros [= <-]. now exists e0.
Qed.

Lemma load_members_events (w : World) (infolist : list ZipMember) :
  forall invoices, no_model_call (events (load_members w infolist invoices)).
Proof.
  induction infolist as [ | m infolist IH]; intros invoices; cbn [load_members].
  - reflexivity.
  - destruct (is_pdf_name (zm_filename m)); [ | apply IH].
    rewrite events_bind, outcome_emit.
    apply no_model_call_app; [reflexivity | ].
    rewrite events_bind, outcome_lift.
    destruct (zm_read m) as [data | e]; [ | reflexivity].
    apply no_model_call_app; [reflexivity | ].
    rewrite events_bind.
    destruct (outcome (extract_text_from_pdf w data));
      rewrite extract_text_from_pdf_events; [ | reflexivity].
    apply no_model_call_app; [reflexivity | apply IH].
Qed.

Lemma extract_invoices_from_zip_events (w : World) (data : list byte) :
  no_model_call (events (extract_invoices_from_zip w data)).
Proof.
  unfold extract_invoices_from_zip.
  assert (H : forall m : M (dict string),
             m = (emit (EvZipFile data) ;;;
                  infolist <- lift (ZipFile w data) ;;
                  load_members w infolist []) ->
             no_model_call (events m)).
  { intros m ->. rewrite events_bind, outcome_emit.
    apply no_model_call_app; [reflexivity | ].
    rewrite events_bind, outcome_lift.
    destruct (ZipFile w data) as [infolist | e]; [ | reflexivity].
    apply no_model_call_app; [reflexivity | apply load_members_events]. }
  rewrite events_try_except.
  destruct (outcome _); [now apply H | ].
  apply no_model_call_app; [now apply H | reflexivity].
Qed.

(** C6 fails for a name whose extension is written in capitals: it does
    not end in '.pdf', and the request is served. *)
Lemma C6_extension_in_capitals_is_accepted :
  Text.endswith "POLICY.PDF" ".pdf" = false /\
  analyze_invoices (Scenario.world Scenario.one_invoice Scenario.answer_A)
    (Scenario.upload "POLICY.PDF" Scenario.policy_bytes) Scenario.invoices_zip =
  analyze_invoices (Scenario.world Scenario.one_invoice Scenario.answer_A)
    Scenario.hr_policy Scenario.invoices_zip /\
  outcome (analyze_invoices (Scenario.world Scenario.one_invoice Scenario.answer_A)
             (Scenario.upload "POLICY.PDF" Scenario.policy_bytes) Scenario.invoices_zip) =
    Ok {| analyses := [Scenario.analysis_A]; total_invoices_processed := 1 |}.
Proof.
  repeat split; vm_compute; reflexivity.
Qed.

(** C6, amended.  When the declared name of the policy file, put in lower
    case, does not end in '.pdf', or that of the invoices file, put in
    lower case, does not end in '.zip', the endpoint raises an
    [HTTPException] with status 400 whose message names the violated file
    type, the policy's first, and nothing has happened before: no file is
    read, no extraction attempted, no model called. *)
Theorem C6_wrong_file_type_is_rejected_before_any_work
    (w : World) (hr_policy invoices_zip : UploadFile) :
  Text.endswith (Text.lower (filename hr_policy)) ".pdf" = false \/
  Text.endswith (Text.lower (filename invoices_zip)) ".zip" = false ->
  analyze_invoices w hr_policy invoices_zip =
    ([], Raise (HTTPException 400
                  (if Text.endswith (Text.lower (filename hr_policy)) ".pdf"
                   then "Invoices must be in a ZIP file"
                   else "HR policy must be a PDF file"))).
Proof.
  unfold analyze_invoices.
  destruct (Text.endswith (Text.lower (filename hr_policy)) ".pdf");
    destruct (Text.endswith (Text.lower (filename invoices_zip)) ".zip");
    cbn [negb]; intros [H | H]; try discriminate H; reflexivity.
Qed.

Lemma C6_witness :
  analyze_invoices (Scenario.world Scenario.one_invoice Scenario.answer_A)
    (Scenario.upload "policy.docx" Scenario.policy_bytes) Scenario.invoices_zip =
    ([], Raise (HTTPException 400 "HR policy must be a PDF file")).
Proof.
  apply (C6_wrong_file_type_is_rejected_before_any_work
           (Scenario.world Scenario.one_invoice Scenario.answer_A)
           (Scenario.upload "policy.docx" Scenario.policy_bytes) Scenario.invoices_zip).
  left. reflexivity.
Defined.

(** C7.  When the archive of a request is loaded and the mapping is empty,
    the endpoint raises an [HTTPException] with status 400 and the message
    "No PDF invoices found in ZIP file", and the model has not been
    called. *)
Theorem C7_empty_mapping_is_rejected_without_model_call
    (w : World) (hr_policy invoices_zip : UploadFile) (policy_text : string) :
  archive_loaded w hr_policy invoices_zip policy_text [] ->
  outcome (analyze_invoices w hr_policy invoices_zip) =
    Raise (HTTPException 400 "No PDF invoices found in ZIP file") /\
  no_model_call (events (analyze_invoices w hr_policy invoices_zip)).
Proof.
  intros Hloaded. split.
  - rewrite (outcome_analyze_invoices w _ _ (proj1 Hloaded)).
    rewrite (outcome_analyze_invoices_try_loaded w _ _ _ _ Hloaded). reflexivity.
  - destruct Hloaded as ([Hpdf Hzip] & pb & zb & Hread & Hext & Hblank & Hzread & Hload).
    unfold analyze_invoices. rewrite Hpdf, Hzip. cbn [negb].
    assert (Htry : no_model_call (events (analyze_invoices_try w hr_policy invoices_zip))).
    { unfold analyze_invoices_try.
      rewrite events_bind, outcome_emit. apply no_model_call_app; [reflexivity | ].
      rewrite events_bind, outcome_lift, Hread. apply no_model_call_app; [reflexivity | ].
      rewrite events_bind, Hext, extract_text_from_pdf_events.
      apply no_model_call_app; [reflexivity | ].
      rewrite Hblank.
      rewrite events_bind, outcome_emit. apply no_model_call_app; [reflexivity | ].
      rewrite events_bind, outcome_lift, Hzread. apply no_model_call_app; [reflexivity | ].
      rewrite events_bind, Hload.
      apply no_model_call_app; [apply extract_invoices_from_zip_events | reflexivity]. }
    rewrite events_try_except.
    destruct (outcome (analyze_invoices_try w hr_policy invoices_zip)) as [r | e];
      [exact Htry | ].
    apply no_model_call_app; [exact Htry | now destruct e].
Qed.

Lemma C7_witness :
  outcome (analyze_invoices
             (Scenario.world [Scenario.member "notes.txt" Scenario.broken_bytes]
                Scenario.answer_A)
             Scenario.hr_policy Scenario.invoices_zip) =
    Raise (HTTPException 400 "No PDF invoices found in ZIP file") /\
  no_model_call
    (events (analyze_invoices
               (Scenario.world [Scenario.member "notes.txt" Scenario.broken_bytes]
                  Scenario.answer_A)
               Scenario.hr_policy Scenario.invoices_zip)).
Proof.
  apply (C7_empty_mapping_is_rejected_without_model_call
           (Scenario.world [Scenario.member "notes.txt" Scenario.broken_bytes]
              Scenario.answer_A)
           Scenario.hr_policy Scenario.invoices_zip
           "Meals are reimbursed up to 50 per day.").
  split; [split; reflexivity | ].
  exists Scenario.policy_bytes, Scenario.archive_bytes.
  repeat split; reflexivity.
Defined.

(** C8.  When the answer of the model has no '[' with a ']' after it and
    is not JSON, the parser fails with the decoder's error [e], the
    analysis raises an [HTTPException] with status 500 and the message
    "LLM analysis failed: " followed by [str(e)], and a request that has
    come to the analysis ends with that exception. *)
Theorem C8_answer_without_array_is_an_analysis_error
    (w : World) (policy_text : string) (invoices : dict string)
    (response_text : string) (e : exn) :
  generate_content w OPTIMIZED_SYSTEM_PROMPT (combined_prompt policy_text invoices)
    = Ok response_text ->
  (forall pre mid post, response_text <> pre ++ "[" ++ mid ++ "]" ++ post) ->
  Json.loads (recursion_room w) response_text = Raise e ->
  parse_response w response_text = Raise e /\
  outcome (analyze_invoices_with_llm w policy_text invoices) =
    Raise (HTTPException 500 ("LLM analysis failed: " ++ str_exn e)) /\
  forall hr_policy invoices_zip,
    archive_loaded w hr_policy invoices_zip policy_text invoices ->
    dict_is_empty invoices = false ->
    outcome (analyze_invoices w hr_policy invoices_zip) =
      Raise (HTTPException 500 ("LLM analysis failed: " ++ str_exn e)).
Proof.
  intros Hgen Hnone Hloads.
  assert (Hparse : parse_response w response_text = Raise e).
  { unfold parse_response, decode_response.
    now rewrite (re_search_array_none response_text Hnone), Hloads. }
  assert (Hllm : outcome (analyze_invoices_with_llm w policy_text invoices) =
                 Raise (HTTPException 500 ("LLM analysis failed: " ++ str_exn e))).
  { unfold analyze_invoices_with_llm. run. rewrite Hgen. run. now rewrite Hparse. }
  split; [exact Hparse | split; [exact Hllm | ]].
  intros hr_policy invoices_zip Hloaded Hnonempty.
  rewrite (outcome_analyze_invoices w _ _ (proj1 Hloaded)).
  rewrite (outcome_analyze_invoices_try_loaded w _ _ _ _ Hloaded), Hnonempty, Hllm.
  reflexivity.
Qed.

Lemma no_bracket_no_array (text : string) :
  Text.contains_char "["%char text = false ->
  forall pre mid post, text <> pre ++ "[" ++ mid ++ "]" ++ post.
Proof.
  intros H pre mid post ->. revert H.
  induction pre as [ | x pre IH]; simpl.
  - discriminate.
  - intros H. apply orb_false_iff in H. now apply IH.
Qed.

Lemma C8_witness :
  outcome (analyze_invoices
             (Scenario.world Scenario.one_invoice Scenario.answer_plain)
             Scenario.hr_policy Scenario.invoices_zip) =
    Raise (HTTPException 500
             "LLM analysis failed: Expecting value: line 1 column 1 (char 0)").
Proof.
  apply (C8_answer_without_array_is_an_analysis_error
           (Scenario.world Scenario.one_invoice Scenario.answer_plain)
           "Meals are reimbursed up to 50 per day."
           [("a.pdf", "Lunch 50")]
           Scenario.answer_plain
           (PyException "JSONDecodeError" "Expecting value: line 1 column 1 (char 0)")).
  - reflexivity.
  - apply no_bracket_no_array. reflexivity.
  - vm_compute. reflexivity.
  - split; [split; reflexivity | ].
    exists Scenario.policy_bytes, Scenario.archive_bytes.
    repeat split; reflexivity.
  - reflexivity.
Defined.



(** C10.  Once the names are accepted, an [HTTPException] that leaves the
    [try] block leaves the endpoint unchanged, status and message, and any
    other exception leaves it as an [HTTPException] with status 500 and
    the message "Internal server error: " followed by its text.  The
    exceptions of the components are of the first kind: a failed
    extraction of the policy, a blank policy, a failed load of the archive,
    an empty mapping and a failed analysis each end the request with the
    exception the component raised. *)
Theorem C10_http_exceptions_pass_unchanged
    (w : World) (hr_policy invoices_zip : UploadFile) :
  names_accepted hr_policy invoices_zip ->
  (forall status_code detail,
     outcome (analyze_invoices_try w hr_policy invoices_zip) =
       Raise (HTTPException status_code detail) ->
     outcome (analyze_invoices w hr_policy invoices_zip) =
       Raise (HTTPException status_code detail)) /\
  (forall cls msg,
     outcome (analyze_invoices_try w hr_policy invoices_zip) =
       Raise (PyException cls msg) ->
     outcome (analyze_invoices w hr_policy invoices_zip) =
       Raise (HTTPException 500 ("Internal server error: " ++ msg))) /\
  (forall policy_bytes,
     read hr_policy = Ok policy_bytes ->
     (forall e, outcome (extract_text_from_pdf w policy_bytes) = Raise e ->
                outcome (analyze_invoices w hr_policy invoices_zip) = Raise e) /\
     (forall policy_text,
        outcome (extract_text_from_pdf w policy_bytes) = Ok policy_text ->
        (str_is_empty (Text.strip policy_text) = true ->
         outcome (analyze_invoices w hr_policy invoices_zip) =
           Raise (HTTPException 400 "Could not extract text from policy PDF")) /\
        (str_is_empty (Text.strip policy_text) = false ->
         forall invoices_bytes,
           read invoices_zip = Ok invoices_bytes ->
           (forall e, outcome (extract_invoices_from_zip w invoices_bytes) = Raise e ->
                      outcome (analyze_invoices w hr_policy invoices_zip) = Raise e) /\
           (outcome (extract_invoices_from_zip w invoices_bytes) = Ok [] ->
            outcome (analyze_invoices w hr_policy invoices_zip) =
              Raise (HTTPException 400 "No PDF invoices found in ZIP file")) /\
           (forall invoices e,
              outcome (extract_invoices_from_zip w invoices_bytes) = Ok invoices ->
              dict_is_empty invoices = false ->
              outcome (analyze_invoices_with_llm w policy_text invoices) = Raise e ->
              outcome (analyze_invoices w hr_policy invoices_zip) = Raise e)))).
Proof.
  intros Hnames.
  pose proof (outcome_analyze_invoices w hr_policy invoices_zip Hnames) as Hout.
  split; [ | split].
  - intros c d Htry. now rewrite Hout, Htry.
  - intros cls msg Htry. now rewrite Hout, Htry.
  - intros pb Hread. split.
    + intros e He. destruct (extract_text_from_pdf_raises w pb e He) as [cause ->].
      rewrite Hout. unfold analyze_invoices_try. run. rewrite Hread. run.
      rewrite He. reflexivity.
    + intros policy_text Hext. split.
      * intros Hblank. rewrite Hout. unfold analyze_invoices_try. run.
        rewrite Hread. run. rewrite Hext. run. rewrite Hblank. run. reflexivity.
      * intros Hblank zb Hzread. split; [ | split].
        -- intros e He. destruct (extract_invoices_from_zip_raises w zb e He) as [cause ->].
           rewrite Hout. unfold analyze_invoices_try. run.
           rewrite Hread. run. rewrite Hext. run. rewrite Hblank. run.
           rewrite Hzread. run. rewrite He. reflexivity.
        -- intros Hload. rewrite Hout.
           rewrite (outcome_analyze_invoices_try_loaded w _ _ policy_text []);
             [reflexivity | ].
           split; [exact Hnames | now exists pb, zb].
        -- intros invoices e Hload Hnonempty He.
           destruct (analyze_invoices_with_llm_raises w _ _ e He) as [cause ->].
           rewrite Hout.
           rewrite (outcome_analyze_invoices_try_loaded w _ _ policy_text invoices);
             [now rewrite Hnonempty, He | ].
           split; [exact Hnames | now exists pb, zb].
Qed.

Lemma C10_witness :
  outcome (analyze_invoices
             (Scenario.world Scenario.one_invoice Scenario.answer_A)
             (Scenario.upload "policy.pdf" Scenario.broken_bytes)
             Scenario.invoices_zip) =
    Raise (HTTPException 400 "Error extracting PDF text: EOF marker not found").
Proof.
  apply (C10_http_exceptions_pass_unchanged
           (Scenario.world Scenario.one_invoice Scenario.answer_A)
           (Scenario.upload "policy.pdf" Scenario.broken_bytes)
           Scenario.invoices_zip).
  - split; reflexivity.
  - reflexivity.
Defined.

(* ===================================================================== *)
(** ** Facts about text *)
(* ===================================================================== *)

Module TextFacts.
Import Text.

Lemma append_nil_r (s : string) : s ++ "" = s.
Proof. induction s as [ | c s IH]; simpl; [reflexivity | now rewrite IH]. Qed.

Lemma length_append (a b : string) :
  String.length (a ++ b) = (String.length a + String.length b)%nat.
Proof. induction a as [ | c a IH]; simpl; [reflexivity | now rewrite IH]. Qed.

Lemma rev_onto_spec (s acc : string) : rev_onto s acc = rev s ++ acc.
Proof.
  unfold rev. revert acc. induction s as [ | c s IH]; intros acc; simpl.
  - reflexivity.
  - rewrite IH, (IH (String c "")), append_assoc. reflexivity.
Qed.

Lemma rev_cons (c : ascii) (s : string) : rev (String c s) = rev s ++ String c "".
Proof. unfold rev at 1. simpl. apply rev_onto_spec. Qed.

Lemma rev_append (a b : string) : rev (a ++ b) = rev b ++ rev a.
Proof.
  induction a as [ | c a IH]; simpl.
  - now rewrite append_nil_r.
  - now rewrite !rev_cons, IH, append_assoc.
Qed.

Lemma rev_involutive (s : string) : rev (rev s) = s.
Proof.
  induction s as [ | c s IH]; [reflexivity | ].
  now rewrite rev_cons, rev_append, IH.
Qed.

Lemma length_rev (s : string) : String.length (rev s) = String.length s.
Proof.
  induction s as [ | c s IH]; [reflexivity | ].
  rewrite rev_cons, length_append, IH. simpl. lia.
Qed.

Lemma prefix_append (p t : string) : String.prefix p (p ++ t) = true.
Proof.
  induction p as [ | c p IH]; simpl; [now destruct t | ].
  destruct (Ascii.ascii_dec c c); [exact IH | contradiction].
Qed.

Lemma prefix_split (p s : string) :
  String.prefix p s = true -> s = p ++ drop (String.length p) s.
Proof.
  revert s. induction p as [ | c p IH]; intros s; simpl.
  - now destruct s.
  - destruct s as [ | d s]; simpl; [discriminate | ].
    destruct (Ascii.ascii_dec c d) as [<- | ]; [ | discriminate].
    intros H. now rewrite <- (IH s H).
Qed.

Lemma prefix_iff (p s : string) :
  String.prefix p s = true <-> exists t, s = p ++ t.
Proof.
  split.
  - intros H. eexists. apply (prefix_split _ _ H).
  - intros [t ->]. apply prefix_append.
Qed.

(** [s.endswith(p)] holds exactly when [s] is some text followed by [p]. *)
Lemma endswith_iff (s p : string) :
  endswith s p = true <-> exists t, s = t ++ p.
Proof.
  unfold endswith. rewrite prefix_iff. split.
  - intros [t H]. exists (rev t).
    rewrite <- (rev_involutive s), H, rev_append, rev_involutive. reflexivity.
  - intros [t ->]. exists (rev t). apply rev_append.
Qed.

Lemma lower_append (a b : string) : lower (a ++ b) = lower a ++ lower b.
Proof. induction a as [ | c a IH]; simpl; [reflexivity | now rewrite IH]. Qed.

Lemma length_lower (s : string) : String.length (lower s) = String.length s.
Proof. induction s as [ | c s IH]; simpl; [reflexivity | now rewrite IH]. Qed.

Lemma lower_split (s a b : string) :
  lower s = a ++ b ->
  exists a' b', s = a' ++ b' /\ lower a' = a /\ lower b' = b.
Proof.
  revert s. induction a as [ | c a IH]; intros s H; simpl in H.
  - now exists "", s.
  - destruct s as [ | d s]; simpl in H; [discriminate | ].
    injection H as Hc H. destruct (IH s H) as (a' & b' & -> & <- & <-).
    exists (String d a'), b'. simpl. now rewrite Hc.
Qed.

(** The lower-cased text ends in [suffix] when the text ends in
    characters that [lower] turns into [suffix]. *)
Lemma endswith_lower_iff (name suffix : string) :
  endswith (lower name) suffix = true <->
  exists stem ext, name = stem ++ ext /\ lower ext = suffix.
Proof.
  rewrite endswith_iff. split.
  - intros [t H].
    destruct (lower_split _ _ _ H) as (stem & ext & -> & _ & Hext).
    now exists stem, ext.
  - intros (stem & ext & -> & Hext). exists (lower stem).
    now rewrite lower_append, Hext.
Qed.

(** The characters that [lower_ascii] turns into a point or into one of
    the letters of the two extensions. *)
Lemma lower_ascii_inv (c : ascii) :
  (lower_ascii c = "."%char <-> c = "."%char) /\
  (lower_ascii c = "p"%char <-> c = "p"%char \/ c = "P"%char) /\
  (lower_ascii c = "d"%char <-> c = "d"%char \/ c = "D"%char) /\
  (lower_ascii c = "f"%char <-> c = "f"%char \/ c = "F"%char) /\
  (lower_ascii c = "z"%char <-> c = "z"%char \/ c = "Z"%char) /\
  (lower_ascii c = "i"%char <-> c = "i"%char \/ c = "I"%char).
Proof.
  destruct c as [[] [] [] [] [] [] [] []]; vm_compute;
    repeat split; try (intros H; discriminate H); try (intros [H | H]; discriminate H);
    auto.
Qed.

(** A text whose lower case is a point and three letters is a point and
    three characters that [lower_ascii] turns into these letters. *)
Lemma lower_extension (ext : string) (a b c : ascii) :
  lower ext = String "."%char (String a (String b (String c EmptyString))) <->
  exists a' b' c',
    ext = String "."%char (String a' (String b' (String c' EmptyString))) /\
    lower_ascii a' = a /\ lower_ascii b' = b /\ lower_ascii c' = c.
Proof.
  split.
  - destruct ext as [ | x [ | a' [ | b' [ | c' [ | y ext]]]]]; simpl; try discriminate.
    intros [= Hx Ha Hb Hc]. apply (proj1 (lower_ascii_inv x)) in Hx. subst x.
    now exists a', b', c'.
  - intros (a' & b' & c' & -> & <- & <- & <-). reflexivity.
Qed.

Lemma find_prefix_some (ps : list string) (s p : string) :
  find_prefix ps s = Some p -> In p ps /\ String.prefix p s = true.
Proof.
  induction ps as [ | q ps IH]; simpl; [discriminate | ].
  destruct (String.prefix q s) eqn:Hq.
  - intros [= <-]. now split; [left | ].
  - intros H. destruct (IH H). now split; [right | ].
Qed.

Lemma find_prefix_none (ps : list string) (s p : string) :
  find_prefix ps s = None -> In p ps -> String.prefix p s = false.
Proof.
  induction ps as [ | q ps IH]; simpl; [contradiction | ].
  destruct (String.prefix q s) eqn:Hq; [discriminate | ].
  intros H [<- | Hin]; [exact Hq | now apply IH].
Qed.

Lemma strip_prefixes_clean (ps : list string) (s : string) (fuel : nat) :
  find_prefix ps s = None -> strip_prefixes fuel ps s = s.
Proof. intros H. destruct fuel; simpl; [reflexivity | now rewrite H]. Qed.

(** What [strip_prefixes] returns is the end of its argument. *)
Lemma strip_prefixes_suffix (ps : list string) (fuel : nat) :
  forall s, exists x, s = x ++ strip_prefixes fuel ps s.
Proof.
  induction fuel as [ | fuel IH]; intros s; simpl; [now exists "" | ].
  destruct (find_prefix ps s) as [p | ] eqn:Hfind; [ | now exists ""].
  destruct p as [ | c p]; [now exists "" | ].
  destruct (find_prefix_some _ _ _ Hfind) as [_ Hp].
  destruct (IH (drop (String.length (String c p)) s)) as [x Hx].
  exists (String c p ++ x). rewrite append_assoc, <- Hx.
  apply (prefix_split _ _ Hp).
Qed.

(** With fuel for every character, nothing of [ps] is left in front. *)
Lemma strip_prefixes_done (ps : list string) :
  Forall (fun p => p <> "") ps ->
  forall fuel s, (String.length s <= fuel)%nat ->
    find_prefix ps (strip_prefixes fuel ps s) = None.
Proof.
  intros Hps. induction fuel as [ | fuel IH]; intros s Hlen; simpl.
  - destruct s; [ | simpl in Hlen; lia].
    clear Hlen. induction Hps as [ | p ps Hp _ IHps]; simpl; [reflexivity | ].
    destruct p; [contradiction | exact IHps].
  - destruct (find_prefix ps s) as [p | ] eqn:Hfind; [ | exact Hfind].
    destruct (find_prefix_some _ _ _ Hfind) as [Hin Hp].
    destruct p as [ | c p].
    + rewrite Forall_forall in Hps. now destruct (Hps "" Hin).
    + apply IH. apply prefix_split in Hp.
      rewrite Hp, length_append in Hlen.
      set (d := drop (String.length (String c p)) s) in *. simpl in Hlen. lia.
Qed.

Lemma whitespace_nonempty : Forall (fun p => p <> "") whitespace.
Proof. repeat constructor; discriminate. Qed.

Lemma rev_whitespace_nonempty : Forall (fun p => p <> "") (map rev whitespace).
Proof. repeat constructor; discriminate. Qed.

Lemma lstrip_clean (s : string) : find_prefix whitespace (lstrip s) = None.
Proof. apply (strip_prefixes_done _ whitespace_nonempty). lia. Qed.

Lemma rstrip_clean (s : string) :
  find_prefix (map rev whitespace) (rev (rstrip s)) = None.
Proof.
  unfold rstrip. rewrite rev_involutive.
  apply (strip_prefixes_done _ rev_whitespace_nonempty). rewrite length_rev. lia.
Qed.

(** [rstrip] keeps the beginning of the text. *)
Lemma rstrip_prefix (s : string) : exists x, s = rstrip s ++ x.
Proof.
  unfold rstrip.
  destruct (strip_prefixes_suffix (map rev whitespace) (String.length s) (rev s))
    as [x Hx].
  exists (rev x). rewrite <- rev_append, <- Hx, rev_involutive. reflexivity.
Qed.

Lemma find_prefix_append (ps : list string) (s x : string) :
  find_prefix ps (s ++ x) = None -> find_prefix ps s = None.
Proof.
  induction ps as [ | p ps IH]; simpl; [reflexivity | ].
  destruct (String.prefix p (s ++ x)) eqn:Hp; [discriminate | ].
  intros H. destruct (String.prefix p s) eqn:Hps; [ | now apply IH].
  apply prefix_iff in Hps. destruct Hps as [t ->].
  rewrite append_assoc, prefix_append in Hp. discriminate.
Qed.

(** The text [strip] returns has no whitespace at either end. *)
Lemma strip_clean (s : string) :
  find_prefix whitespace (strip s) = None /\
  find_prefix (map rev whitespace) (rev (strip s)) = None.
Proof.
  unfold strip. split; [ | apply rstrip_clean].
  destruct (rstrip_prefix (lstrip s)) as [x Hx].
  apply (find_prefix_append _ _ x). rewrite <- Hx. apply lstrip_clean.
Qed.

(** A text without whitespace at either end is left as it is. *)
Lemma strip_fixed (s : string) :
  find_prefix whitespace s = None ->
  find_prefix (map rev whitespace) (rev s) = None ->
  strip s = s.
Proof.
  intros Hl Hr. unfold strip, lstrip. rewrite (strip_prefixes_clean _ _ _ Hl).
  unfold rstrip. rewrite (strip_prefixes_clean _ _ _ Hr). apply rev_involutive.
Qed.

Lemma strip_idempotent (s : string) : strip (strip s) = strip s.
Proof. destruct (strip_clean s) as [Hl Hr]. now apply strip_fixed. Qed.

End TextFacts.

(* ===================================================================== *)
(** ** More about the text extractor *)
(* ===================================================================== *)

Lemma concat_pages_ok (pages : list (result string)) :
  forall acc text,
    concat_pages pages acc = Ok text <->
    exists texts, pages = map Ok texts /\ text = acc ++ join_pages texts.
Proof.
  induction pages as [ | [t | e] pages IH]; intros acc text; simpl.
  - split.
    + intros [= <-]. exists []. now rewrite TextFacts.append_nil_r.
    + intros ([ | ? ?] & Hp & ->); [ | discriminate].
      now rewrite TextFacts.append_nil_r.
  - rewrite IH. split.
    + intros (texts & -> & ->). exists (t :: texts). simpl.
      now rewrite !append_assoc.
    + intros ([ | t' texts] & Hp & ->); [discriminate | ].
      injection Hp as <- ->. exists texts. simpl. now rewrite !append_assoc.
  - split; [discriminate | ].
    intros ([ | t' texts] & Hp & _); discriminate.
Qed.

Lemma concat_pages_raise (pages : list (result string)) :
  forall acc e, concat_pages pages acc = Raise e -> In (Raise e) pages.
Proof.
  induction pages as [ | [t | e'] pages IH]; intros acc e; simpl.
  - discriminate.
  - intros H. right. exact (IH _ _ H).
  - intros [= <-]. now left.
Qed.

(** X1.  The extractor succeeds exactly when the reader opens the document
    and every page gives its text; the result is then the texts of the
    pages in order, each followed by a newline, with the whitespace at both
    ends removed. *)
Theorem X1_extract_text_from_pdf_returns_the_joined_pages
    (w : World) (pdf_file_bytes : list byte) (text : string) :
  outcome (extract_text_from_pdf w pdf_file_bytes) = Ok text <->
  exists texts,
    PdfReader w pdf_file_bytes = Ok (map Ok texts) /\
    text = Text.strip (join_pages texts).
Proof.
  unfold extract_text_from_pdf. run.
  destruct (PdfReader w pdf_file_bytes) as [pages | e]; run.
  - destruct (concat_pages pages "") as [joined | e] eqn:Hjoin; run.
    + apply concat_pages_ok in Hjoin. destruct Hjoin as (texts & -> & ->).
      simpl. split.
      * intros [= <-]. now exists texts.
      * intros (texts' & [= Heq] & ->).
        assert (texts' = texts) as ->; [ | reflexivity].
        clear - Heq. revert texts' Heq.
        induction texts as [ | t texts IH]; intros [ | t' texts'] H;
          try discriminate; [reflexivity | ].
        injection H as -> H. now rewrite (IH _ H).
    + split; [discriminate | ].
      intros (texts & [= ->] & _).
      assert (H : concat_pages (map Ok texts) "" = Ok ("" ++ join_pages texts))
        by (apply concat_pages_ok; now exists texts).
      rewrite H in Hjoin. discriminate.
  - split; [discriminate | intros (texts & H & _); discriminate].
Qed.

Lemma extract_text_from_pdf_ok_strip (w : World) (data : list byte) (text : string) :
  outcome (extract_text_from_pdf w data) = Ok text ->
  exists joined, text = Text.strip joined.
Proof.
  unfold extract_text_from_pdf. run.
  destruct (PdfReader w data) as [pages | e]; run; [ | discriminate].
  destruct (concat_pages pages "") as [joined | e]; run; [ | discriminate].
  intros [= <-]. now exists joined.
Qed.

(** X2.  The text the extractor returns has no whitespace at either end:
    stripping it again changes nothing. *)
Theorem X2_extracted_text_is_stripped
    (w : World) (pdf_file_bytes : list byte) (text : string) :
  outcome (extract_text_from_pdf w pdf_file_bytes) = Ok text ->
  Text.strip text = text /\
  forall space, In space Text.whitespace ->
    Text.startswith text space = false /\ Text.endswith text space = false.
Proof.
  intros H. apply extract_text_from_pdf_ok_strip in H. destruct H as [joined ->].
  destruct (TextFacts.strip_clean joined) as [Hl Hr].
  split; [apply TextFacts.strip_idempotent | ].
  intros space Hin. split.
  - exact (TextFacts.find_prefix_none _ _ _ Hl Hin).
  - apply (TextFacts.find_prefix_none _ _ _ Hr). now apply in_map.
Qed.

Lemma X2_witness :
  Text.strip "Lunch 50" = "Lunch 50" /\
  forall space, In space Text.whitespace ->
    Text.startswith "Lunch 50" space = false /\ Text.endswith "Lunch 50" space = false.
Proof.
  apply (X2_extracted_text_is_stripped
           (Scenario.world Scenario.one_invoice Scenario.answer_A)
           Scenario.invoice_bytes).
  reflexivity.
Defined.

(** X3.  Whatever fails in the extractor, the reader on opening or a page
    on giving its text, leaves it as an [HTTPException] with status 400
    whose message is "Error extracting PDF text: " followed by the text of
    that failure. *)
Theorem X3_extract_text_from_pdf_failure
    (w : World) (pdf_file_bytes : list byte) (e : exn) :
  outcome (extract_text_from_pdf w pdf_file_bytes) = Raise e ->
  exists cause,
    e = HTTPException 400 ("Error extracting PDF text: " ++ str_exn cause) /\
    (PdfReader w pdf_file_bytes = Raise cause \/
     exists pages, PdfReader w pdf_file_bytes = Ok pages /\ In (Raise cause) pages).
Proof.
  unfold extract_text_from_pdf. run.
  destruct (PdfReader w pdf_file_bytes) as [pages | e0]; run.
  - destruct (concat_pages pages "") as [joined | e1] eqn:Hjoin; run; [discriminate | ].
    intros [= <-]. exists e1. split; [reflexivity | right].
    exists pages. split; [reflexivity | exact (concat_pages_raise _ _ _ Hjoin)].
  - intros [= <-]. exists e0. now split; [ | left].
Qed.

Lemma X3_witness :
  exists cause,
    HTTPException 400 "Error extracting PDF text: EOF marker not found" =
      HTTPException 400 ("Error extracting PDF text: " ++ str_exn cause) /\
    (PdfReader (Scenario.world Scenario.one_invoice Scenario.answer_A)
       Scenario.broken_bytes = Raise cause \/
     exists pages,
       PdfReader (Scenario.world Scenario.one_invoice Scenario.answer_A)
         Scenario.broken_bytes = Ok pages /\ In (Raise cause) pages).
Proof.
  apply (X3_extract_text_from_pdf_failure
           (Scenario.world Scenario.one_invoice Scenario.answer_A)
           Scenario.broken_bytes).
  reflexivity.
Defined.

(* ===================================================================== *)
(** ** More about dictionaries and the archive loader *)
(* ===================================================================== *)

Lemma dict_get_set {V} (d : dict V) (k k' : string) (v : V) :
  dict_get (dict_set d k v) k' = if String.eqb k k' then Some v else dict_get d k'.
Proof.
  induction d as [ | [k0 v0] d IH]; simpl.
  - reflexivity.
  - destruct (String.eqb_spec k0 k) as [-> | Hne]; simpl.
    + destruct (String.eqb k k'); reflexivity.
    + rewrite IH. destruct (String.eqb_spec k0 k') as [-> | Hne'];
        [ | reflexivity].
      destruct (String.eqb_spec k k'); [congruence | reflexivity].
Qed.

Lemma add_key_new (keys : list string) (k : string) :
  ~ In k keys -> add_key keys k = (keys ++ [k])%list.
Proof.
  induction keys as [ | k' keys IH]; simpl; intros H; [reflexivity | ].
  destruct (String.eqb_spec k' k) as [-> | Hne]; [tauto | ].
  rewrite IH; tauto.
Qed.

Lemma add_key_old (keys : list string) (k : string) :
  In k keys -> add_key keys k = keys.
Proof.
  induction keys as [ | k' keys IH]; simpl; intros H; [contradiction | ].
  destruct (String.eqb_spec k' k) as [-> | Hne]; [reflexivity | ].
  rewrite IH; [reflexivity | ]. destruct H; [contradiction | assumption].
Qed.

(** X4.  An assignment [d[k] = v] makes [k] map to [v] and leaves the
    value of every other key; a key that was present keeps its place, a
    new one goes last, and no key comes to stand twice. *)
Theorem X4_dict_assignment
    (d : dict string) (k : string) (v : string) :
  dict_get (dict_set d k v) k = Some v /\
  (forall k', k' <> k -> dict_get (dict_set d k v) k' = dict_get d k') /\
  (In k (dict_keys d) -> dict_keys (dict_set d k v) = dict_keys d) /\
  (~ In k (dict_keys d) -> dict_keys (dict_set d k v) = (dict_keys d ++ [k])%list) /\
  (NoDup (dict_keys d) -> NoDup (dict_keys (dict_set d k v))).
Proof.
  repeat split.
  - now rewrite dict_get_set, String.eqb_refl.
  - intros k' Hne. rewrite dict_get_set.
    destruct (String.eqb_spec k k'); [congruence | reflexivity].
  - intros H. now rewrite dict_keys_set, add_key_old.
  - intros H. now rewrite dict_keys_set, add_key_new.
  - intros H. rewrite dict_keys_set. now apply NoDup_add_key.
Qed.

(** One turn of the loop over the members, when the whole loop succeeds. *)
Lemma load_members_cons_ok (w : World) (m : ZipMember) (infolist : list ZipMember)
    (invoices d : dict string) :
  outcome (load_members w (m :: infolist) invoices) = Ok d ->
  if is_pdf_name (zm_filename m) then
    exists data text,
      zm_read m = Ok data /\
      outcome (extract_text_from_pdf w data) = Ok text /\
      outcome (load_members w infolist (dict_set invoices (zm_filename m) text)) = Ok d
  else outcome (load_members w infolist invoices) = Ok d.
Proof.
  cbn [load_members]. destruct (is_pdf_name (zm_filename m)); [ | trivial].
  run. destruct (zm_read m) as [data | e]; run; [ | discriminate].
  destruct (outcome (extract_text_from_pdf w data)) as [text | e] eqn:Hext;
    [ | discriminate].
  intros H. now exists data, text.
Qed.

Lemma load_members_keys (w : World) (infolist : list ZipMember) :
  forall invoices d,
    outcome (load_members w infolist invoices) = Ok d ->
    dict_keys d =
      fold_left add_key (map zm_filename (pdf_members infolist)) (dict_keys invoices).
Proof.
  induction infolist as [ | m infolist IH]; intros invoices d H.
  - cbn in H. now injection H as <-.
  - apply load_members_cons_ok in H. unfold pdf_members in *. cbn [filter].
    destruct (is_pdf_name (zm_filename m)).
    + destruct H as (data & text & _ & _ & H). apply IH in H.
      cbn [map fold_left]. now rewrite H, dict_keys_set.
    + now apply IH.
Qed.

(** Members after the last one stored under [k] leave that entry alone. *)
Lemma load_members_frame (w : World) (k : string) (infolist : list ZipMember) :
  (forall x, In x (pdf_members infolist) -> zm_filename x <> k) ->
  forall invoices d,
    outcome (load_members w infolist invoices) = Ok d ->
    dict_get d k = dict_get invoices k.
Proof.
  induction infolist as [ | m infolist IH]; intros Hother invoices d H.
  - cbn in H. now injection H as <-.
  - apply load_members_cons_ok in H. unfold pdf_members in *. cbn [filter] in Hother.
    destruct (is_pdf_name (zm_filename m)).
    + destruct H as (data & text & _ & _ & H).
      rewrite (IH (fun x Hx => Hother x (or_intror Hx)) _ _ H), dict_get_set.
      destruct (String.eqb_spec (zm_filename m) k) as [Heq | ]; [ | reflexivity].
      now destruct (Hother m (or_introl eq_refl)).
    + now apply IH.
Qed.

Lemma load_members_last (w : World) (pre post : list ZipMember) (m : ZipMember)
    (data : list byte) (text : string) :
  is_pdf_name (zm_filename m) = true ->
  (forall x, In x (pdf_members post) -> zm_filename x <> zm_filename m) ->
  zm_read m = Ok data ->
  outcome (extract_text_from_pdf w data) = Ok text ->
  forall invoices d,
    outcome (load_members w (pre ++ m :: post)%list invoices) = Ok d ->
    dict_get d (zm_filename m) = Some text.
Proof.
  intros Hpdf Hlast Hread Hext.
  induction pre as [ | x pre IH]; intros invoices d H; cbn [app] in H.
  - apply load_members_cons_ok in H. rewrite Hpdf in H.
    destruct H as (data' & text' & Hread' & Hext' & H).
    rewrite Hread in Hread'. injection Hread' as <-.
    rewrite Hext in Hext'. injection Hext' as <-.
    rewrite (load_members_frame w _ post Hlast _ _ H), dict_get_set.
    now rewrite String.eqb_refl.
  - apply load_members_cons_ok in H.
    destruct (is_pdf_name (zm_filename x)).
    + destruct H as (? & ? & _ & _ & H). exact (IH _ _ H).
    + exact (IH _ _ H).
Qed.

Lemma outcome_loader_ok (w : World) (data : list byte) (infolist : list ZipMember)
    (invoices : dict string) :
  ZipFile w data = Ok infolist ->
  outcome (extract_invoices_from_zip w data) = Ok invoices ->
  outcome (load_members w infolist []) = Ok invoices.
Proof.
  intros Hzip. rewrite (outcome_extract_invoices_from_zip w data _ Hzip).
  destruct (outcome (load_members w infolist [])); [trivial | discriminate].
Qed.

(** X5.  In the mapping the loader returns, a path stands for the text of
    the last PDF member recorded under it: a later member with the same
    path overwrites the text of an earlier one. *)
Theorem X5_last_member_of_a_path_wins
    (w : World) (zip_file_bytes : list byte) (pre post : list ZipMember)
    (m : ZipMember) (data : list byte) (text : string) (invoices : dict string) :
  ZipFile w zip_file_bytes = Ok (pre ++ m :: post)%list ->
  is_pdf_name (zm_filename m) = true ->
  (forall x, In x (pdf_members post) -> zm_filename x <> zm_filename m) ->
  zm_read m = Ok data ->
  outcome (extract_text_from_pdf w data) = Ok text ->
  outcome (extract_invoices_from_zip w zip_file_bytes) = Ok invoices ->
  dict_get invoices (zm_filename m) = Some text.
Proof.
  intros Hzip Hpdf Hlast Hread Hext Hout.
  apply (load_members_last w pre post m data text Hpdf Hlast Hread Hext []).
  exact (outcome_loader_ok w _ _ _ Hzip Hout).
Qed.

Lemma fold_add_key_distinct (names : list string) :
  forall keys, NoDup (keys ++ names)%list ->
    fold_left add_key names keys = (keys ++ names)%list.
Proof.
  induction names as [ | n names IH]; intros keys H; cbn [fold_left].
  - now rewrite app_nil_r.
  - assert (Hn : ~ In n keys).
    { intros Hin. apply NoDup_remove_2 in H. apply H, in_or_app. now left. }
    rewrite (add_key_new _ _ Hn), IH, <- app_assoc; [reflexivity | ].
    now rewrite <- app_assoc.
Qed.

(** X6.  The keys of the returned mapping stand in the order in which the
    archive lists the PDF members, a path recorded more than once standing
    where it comes first: when no path is recorded twice, the keys are the
    paths of the PDF members in the order of the archive, which is the
    order of the invoice sections of the prompt. *)
Theorem X6_keys_follow_the_archive
    (w : World) (zip_file_bytes : list byte) (infolist : list ZipMember)
    (invoices : dict string) :
  ZipFile w zip_file_bytes = Ok infolist ->
  outcome (extract_invoices_from_zip w zip_file_bytes) = Ok invoices ->
  dict_keys invoices =
    fold_left add_key (map zm_filename (pdf_members infolist)) [] /\
  (NoDup (map zm_filename (pdf_members infolist)) ->
   dict_keys invoices = map zm_filename (pdf_members infolist)).
Proof.
  intros Hzip Hout.
  pose proof (load_members_keys w infolist [] invoices
                (outcome_loader_ok w _ _ _ Hzip Hout)) as Hkeys.
  split; [exact Hkeys | ].
  intros Hdistinct. rewrite Hkeys. now apply (fold_add_key_distinct _ []).
Qed.

Lemma opened_members_app (t t' : list event) :
  opened_members (t ++ t')%list = (opened_members t ++ opened_members t')%list.
Proof.
  induction t as [ | ev t IH]; [reflexivity | ].
  destruct ev; cbn [app opened_members]; now rewrite IH.
Qed.

Lemma load_members_opened (w : World) (infolist : list ZipMember) :
  forall invoices, exists rest,
    map zm_filename (pdf_members infolist) =
      (opened_members (events (load_members w infolist invoices)) ++ rest)%list /\
    forall d, outcome (load_members w infolist invoices) = Ok d -> rest = [].
Proof.
  induction infolist as [ | m infolist IH]; intros invoices.
  - exists []. split; [reflexivity | trivial].
  - unfold pdf_members in *. cbn [load_members filter].
    destruct (is_pdf_name (zm_filename m)); [ | apply IH].
    rewrite events_bind, outcome_emit, outcome_bind, outcome_emit.
    rewrite events_bind, outcome_lift, outcome_bind, outcome_lift.
    destruct (zm_read m) as [data | e].
    + rewrite events_bind, outcome_bind, extract_text_from_pdf_events.
      destruct (outcome (extract_text_from_pdf w data)) as [text | e].
      * destruct (IH (dict_set invoices (zm_filename m) text)) as (rest & Hrest & Hok).
        exists rest. split; [ | exact Hok].
        cbn [map]. rewrite Hrest. reflexivity.
      * exists (map zm_filename (filter (fun m0 => is_pdf_name (zm_filename m0)) infolist)).
        split; [reflexivity | discriminate].
    + exists (map zm_filename (filter (fun m0 => is_pdf_name (zm_filename m0)) infolist)).
      split; [reflexivity | discriminate].
Qed.

(** X7.  The loader opens nothing but PDF members, in the order of the
    archive, and stops at the first that fails: the members it opens are
    the first of the archive's PDF members, and all of them when it
    returns a mapping. *)
Theorem X7_only_pdf_members_are_opened
    (w : World) (zip_file_bytes : list byte) (infolist : list ZipMember) :
  ZipFile w zip_file_bytes = Ok infolist ->
  exists rest,
    map zm_filename (pdf_members infolist) =
      (opened_members (events (extract_invoices_from_zip w zip_file_bytes)) ++ rest)%list /\
    (forall invoices,
       outcome (extract_invoices_from_zip w zip_file_bytes) = Ok invoices ->
       rest = []).
Proof.
  intros Hzip.
  destruct (load_members_opened w infolist []) as (rest & Hrest & Hok).
  exists rest. split.
  - unfold extract_invoices_from_zip.
    rewrite events_try_except, outcome_bind, outcome_emit, outcome_bind, outcome_lift.
    rewrite events_bind, outcome_emit, events_bind, outcome_lift, Hzip.
    destruct (outcome (load_members w infolist [])); cbn [events emit lift raise fst];
      rewrite ?opened_members_app; cbn [opened_members app];
      rewrite ?app_nil_r; exact Hrest.
  - intros invoices Hout. apply (Hok invoices).
    exact (outcome_loader_ok w _ _ _ Hzip Hout).
Qed.

Lemma load_members_failure (w : World) (infolist : list ZipMember) (e : exn) :
  forall invoices,
    outcome (load_members w infolist invoices) = Raise e ->
    exists m, In m (pdf_members infolist) /\
      (zm_read m = Raise e \/
       exists data, zm_read m = Ok data /\
                    outcome (extract_text_from_pdf w data) = Raise e).
Proof.
  induction infolist as [ | m infolist IH]; intros invoices; cbn [load_members].
  - discriminate.
  - unfold pdf_members in *. cbn [filter].
    destruct (is_pdf_name (zm_filename m)).
    + run. destruct (zm_read m) as [data | e0] eqn:Hread; run.
      * destruct (outcome (extract_text_from_pdf w data)) as [text | e1] eqn:Hext.
        -- intros H. destruct (IH _ H) as (m' & Hin & Hm').
           exists m'. split; [now right | exact Hm'].
        -- intros [= <-]. exists m. split; [now left | right].
           now exists data.
      * intros [= <-]. exists m. split; [now left | now left].
    + apply IH.
Qed.

(** X8.  The loader fails in one way only, with an [HTTPException] of
    status 400 whose message is "Error processing ZIP file: " followed by
    the text of what failed: the opening of the archive, the reading of a
    PDF member, or the extraction of its text. *)
Theorem X8_loader_failure
    (w : World) (zip_file_bytes : list byte) (e : exn) :
  outcome (extract_invoices_from_zip w zip_file_bytes) = Raise e ->
  exists cause,
    e = HTTPException 400 ("Error processing ZIP file: " ++ str_exn cause) /\
    (ZipFile w zip_file_bytes = Raise cause \/
     exists infolist m,
       ZipFile w zip_file_bytes = Ok infolist /\
       In m (pdf_members infolist) /\
       (zm_read m = Raise cause \/
        exists data, zm_read m = Ok data /\
                     outcome (extract_text_from_pdf w data) = Raise cause)).
Proof.
  unfold extract_invoices_from_zip. run.
  destruct (ZipFile w zip_file_bytes) as [infolist | e0]; run.
  - destruct (outcome (load_members w infolist [])) as [d | e1] eqn:Hload;
      [discriminate | ].
    intros [= <-]. exists e1. split; [reflexivity | right].
    destruct (load_members_failure w infolist e1 [] Hload) as (m & Hin & Hm).
    now exists infolist, m.
  - intros [= <-]. exists e0. now split; [ | left].
Qed.

(* ===================================================================== *)
(** ** More about the file type check *)
(* ===================================================================== *)

(** X9.  The tests of the file types ignore the case of the extension,
    and nothing else: [name.lower().endswith('.pdf')], by which the loader
    takes a member for a PDF and the endpoint accepts the policy, holds
    exactly when the name ends in a point and the letters p, d and f, each
    of them in either case; [name.lower().endswith('.zip')], by which the
    endpoint accepts the archive, holds exactly when the name ends in a
    point and the letters z, i and p, each of them in either case. *)
Theorem X9_file_type_test_ignores_case (name : string) :
  (is_pdf_name name = true <->
   exists (stem : string) (p d f : ascii),
     name = stem ++ String "."%char (String p (String d (String f EmptyString))) /\
     (p = "p"%char \/ p = "P"%char) /\
     (d = "d"%char \/ d = "D"%char) /\
     (f = "f"%char \/ f = "F"%char)) /\
  (Text.endswith (Text.lower name) ".zip" = true <->
   exists (stem : string) (z i p : ascii),
     name = stem ++ String "."%char (String z (String i (String p EmptyString))) /\
     (z = "z"%char \/ z = "Z"%char) /\
     (i = "i"%char \/ i = "I"%char) /\
     (p = "p"%char \/ p = "P"%char)).
Proof.
  assert (H : forall a b c : ascii,
             Text.endswith (Text.lower name)
               (String "."%char (String a (String b (String c EmptyString)))) = true <->
             exists (stem : string) (a' b' c' : ascii),
               name = stem ++ String "."%char (String a' (String b' (String c' EmptyString))) /\
               Text.lower_ascii a' = a /\ Text.lower_ascii b' = b /\
               Text.lower_ascii c' = c).
  { intros a b c. rewrite TextFacts.endswith_lower_iff. split.
    - intros (stem & ext & -> & Hext).
      apply TextFacts.lower_extension in Hext.
      destruct Hext as (a' & b' & c' & -> & Ha & Hb & Hc).
      now exists stem, a', b', c'.
    - intros (stem & a' & b' & c' & -> & Ha & Hb & Hc).
      exists stem, (String "."%char (String a' (String b' (String c' EmptyString)))).
      split; [reflexivity | ]. apply TextFacts.lower_extension.
      now exists a', b', c'. }
  split.
  - unfold is_pdf_name. change ".pdf" with
      (String "."%char (String "p"%char (String "d"%char (String "f"%char EmptyString)))).
    rewrite H. split.
    + intros (stem & p & d & f & -> & Hp & Hd & Hf). exists stem, p, d, f.
      split; [reflexivity | ].
      split; [apply (TextFacts.lower_ascii_inv p), Hp | ].
      split; [apply (TextFacts.lower_ascii_inv d), Hd | ].
      apply (TextFacts.lower_ascii_inv f), Hf.
    + intros (stem & p & d & f & -> & Hp & Hd & Hf). exists stem, p, d, f.
      split; [reflexivity | ].
      split; [apply (TextFacts.lower_ascii_inv p), Hp | ].
      split; [apply (TextFacts.lower_ascii_inv d), Hd | ].
      apply (TextFacts.lower_ascii_inv f), Hf.
  - change ".zip" with
      (String "."%char (String "z"%char (String "i"%char (String "p"%char EmptyString)))).
    rewrite H. split.
    + intros (stem & z & i & p & -> & Hz & Hi & Hp). exists stem, z, i, p.
      split; [reflexivity | ].
      split; [apply (TextFacts.lower_ascii_inv z), Hz | ].
      split; [apply (TextFacts.lower_ascii_inv i), Hi | ].
      apply (TextFacts.lower_ascii_inv p), Hp.
    + intros (stem & z & i & p & -> & Hz & Hi & Hp). exists stem, z, i, p.
      split; [reflexivity | ].
      split; [apply (TextFacts.lower_ascii_inv z), Hz | ].
      split; [apply (TextFacts.lower_ascii_inv i), Hi | ].
      apply (TextFacts.lower_ascii_inv p), Hp.
Qed.

(* ===================================================================== *)
(** ** More about the prompt and the search for the array *)
(* ===================================================================== *)

Lemma invoice_sections_app (a b : dict string) :
  invoice_sections (a ++ b)%list = invoice_sections a ++ invoice_sections b.
Proof.
  induction a as [ | [k v] a IH]; cbn [app invoice_sections]; [reflexivity | ].
  now rewrite IH, !append_assoc.
Qed.

(** X10.  The prompt is the policy text, then one section for each entry
    of the mapping, in its order, that holds the path and the text of the
    invoice, then the closing request. *)
Theorem X10_prompt_holds_every_invoice
    (policy_text : string) (before after : dict string) (path invoice_text : string) :
  combined_prompt policy_text (before ++ (path, invoice_text) :: after)%list =
    " COMPANY REIMBURSEMENT POLICY:" ++ policy_text ++ " INVOICES TO ANALYZE:"
      ++ invoice_sections before
      ++ (Text.nl ++ "--- INVOICE: " ++ path ++ " ---" ++ Text.nl
            ++ invoice_text ++ Text.nl)
      ++ invoice_sections after
      ++ Text.nl
      ++ "Please analyze each invoice against the policy and provide a JSON array response with the exact format specified in the system prompt."
      ++ Text.nl.
Proof.
  unfold combined_prompt. rewrite invoice_sections_app. cbn [invoice_sections].
  now rewrite !append_assoc.
Qed.

Lemma find_char_first (c : ascii) (s : string) (i : nat) :
  Text.find_char c s = Some i ->
  exists pre rest,
    s = pre ++ String c rest /\ i = String.length pre /\
    Text.contains_char c pre = false.
Proof.
  revert i. induction s as [ | x s IH]; simpl; intros i H; [discriminate | ].
  destruct (Ascii.eqb x c) eqn:Hx.
  - apply Ascii.eqb_eq in Hx. subst x. injection H as <-. now exists EmptyString, s.
  - destruct (Text.find_char c s) as [j | ]; [ | discriminate].
    injection H as <-. destruct (IH j eq_refl) as (pre & rest & -> & -> & Hpre).
    exists (String x pre), rest. simpl. now rewrite Hx, Hpre.
Qed.

Lemma rfind_char_last (c : ascii) (s : string) (j : nat) :
  Text.rfind_char c s = Some j ->
  exists a post,
    s = a ++ String c post /\ j = String.length a /\
    Text.contains_char c post = false.
Proof.
  revert j. induction s as [ | x s IH]; simpl; intros j H; [discriminate | ].
  destruct (Text.rfind_char c s) as [k | ] eqn:Hr.
  - injection H as <-. destruct (IH k eq_refl) as (a & post & -> & -> & Hpost).
    now exists (String x a), post.
  - destruct (Ascii.eqb x c) eqn:Hx; [ | discriminate].
    apply Ascii.eqb_eq in Hx. subst x. injection H as <-.
    exists EmptyString, s. repeat split.
    clear IH. induction s as [ | y s IHs]; [reflexivity | ].
    simpl in *. destruct (Text.rfind_char c s); [discriminate | ].
    destruct (Ascii.eqb y c); [discriminate | ]. now apply IHs.
Qed.

(** X11.  The search for the array finds something exactly when the text
    has a '[' with a ']' after it, and what it finds runs from the first
    '[' of the text to its last ']'. *)
Theorem X11_search_runs_from_first_to_last_bracket (text found : string) :
  re_search_array text = Some found <->
  exists pre mid post,
    text = pre ++ "[" ++ mid ++ "]" ++ post /\
    Text.contains_char "["%char pre = false /\
    Text.contains_char "]"%char post = false /\
    found = "[" ++ mid ++ "]".
Proof.
  split.
  - unfold re_search_array.
    destruct (Text.find_char "["%char text) as [i | ] eqn:Hfind; [ | discriminate].
    destruct (find_char_first _ _ _ Hfind) as (pre & rest & -> & -> & Hpre).
    rewrite drop_append.
    destruct (Text.rfind_char "]"%char (String "["%char rest)) as [j | ] eqn:Hrfind;
      [ | discriminate].
    destruct (rfind_char_last _ _ _ Hrfind) as (a & post & Ha & -> & Hpost).
    destruct a as [ | x mid]; simpl in Ha; [discriminate | ].
    injection Ha as <- ->. intros [= <-].
    exists pre, mid, post. repeat split; try assumption.
    change (String "["%char (mid ++ String "]"%char post))
      with (String "["%char mid ++ String "]"%char post).
    now rewrite substring_append.
  - intros (pre & mid & post & -> & Hpre & Hpost & ->).
    now apply re_search_array_between.
Qed.

(* ===================================================================== *)
(** ** More about the response parser *)
(* ===================================================================== *)

Lemma getitem_ok (item : json) (key : string) (v : json) :
  Py.getitem item key = Ok v ->
  exists members, item = JObject members /\ dict_get members key = Some v.
Proof.
  destruct item; simpl; try discriminate.
  destruct (dict_get members key) as [x | ] eqn:Hget; [ | discriminate].
  intros [= <-]. now exists members.
Qed.

Lemma make_analysis_has_fields (w : World) (item : json) (r : InvoiceAnalysis) :
  make_analysis w item = Ok r -> has_fields item = true.
Proof.
  unfold make_analysis. intros H.
  apply rbind_ok in H. destruct H as (a & Ha & H).
  apply rbind_ok in H. destruct H as (b & Hb & H).
  apply rbind_ok in H. destruct H as (c & Hc & H).
  apply rbind_ok in H. destruct H as (n & _ & H).
  apply rbind_ok in H. destruct H as (d & Hd & _).
  destruct (getitem_ok _ _ _ Ha) as (members & -> & Hga).
  destruct (getitem_ok _ _ _ Hb) as (? & [= <-] & Hgb).
  destruct (getitem_ok _ _ _ Hc) as (? & [= <-] & Hgc).
  destruct (getitem_ok _ _ _ Hd) as (? & [= <-] & Hgd).
  unfold has_fields, analysis_fields. cbn [forallb].
  now rewrite Hga, Hgb, Hgc, Hgd.
Qed.

Lemma Forall2_in_left {A B} (R : A -> B -> Prop) (l : list A) (l' : list B) (a : A) :
  Forall2 R l l' -> In a l -> exists b, R a b.
Proof.
  induction 1 as [ | x y l l' Hxy _ IH]; intros Hin; [contradiction | ].
  destruct Hin as [<- | Hin]; [now exists y | now apply IH].
Qed.

(** X12.  The parser takes the whole batch or nothing: when one element of
    the decoded answer is not an object with the four keys, it returns no
    record at all and raises. *)
Theorem X12_one_bad_element_rejects_the_batch
    (w : World) (response_text : string) (analyses_data : json)
    (items : list json) (item : json) :
  decode_response w response_text = Ok analyses_data ->
  Py.iter analyses_data = Ok items ->
  In item items ->
  has_fields item = false ->
  exists e, parse_response w response_text = Raise e.
Proof.
  intros Hdec Hiter Hin Hbad.
  destruct (parse_response w response_text) as [records | e] eqn:Hparse;
    [ | now exists e].
  destruct (parse_response_ok _ _ _ Hparse) as (data' & items' & Hdec' & Hiter' & Hall).
  rewrite Hdec in Hdec'. injection Hdec' as <-.
  rewrite Hiter in Hiter'. injection Hiter' as <-.
  destruct (Forall2_in_left _ _ _ _ Hall Hin) as [r Hr].
  apply make_analysis_has_fields in Hr. congruence.
Qed.

(** X13.  An answer without a '[' that has a ']' after it, and which is a
    JSON object, is read as the sequence of its keys: an object with a
    member is rejected with a [TypeError], every key being a string, and
    the empty object gives the empty batch. *)
Theorem X13_object_answer
    (w : World) (response_text : string) (members : dict json) :
  (forall pre mid post, response_text <> pre ++ "[" ++ mid ++ "]" ++ post) ->
  Json.loads (recursion_room w) response_text = Ok (JObject members) ->
  parse_response w response_text =
    match members with
    | [] => Ok []
    | _ :: _ => Raise (PyException "TypeError"
                         "string indices must be integers, not 'str'")
    end.
Proof.
  intros Hnone Hloads. unfold parse_response, decode_response.
  rewrite (re_search_array_none _ Hnone), Hloads.
  destruct members as [ | [k v] members]; reflexivity.
Qed.

(* ===================================================================== *)
(** ** More about the model analysis *)
(* ===================================================================== *)

Lemma analyze_invoices_with_llm_events (w : World) (policy_text : string)
    (invoices : dict string) :
  events (analyze_invoices_with_llm w policy_text invoices) =
    [EvGenerateContent OPTIMIZED_SYSTEM_PROMPT (combined_prompt policy_text invoices)].
Proof.
  unfold analyze_invoices_with_llm. cbv zeta.
  destruct (generate_content w _ _) as [text | e]; cbn; [ | reflexivity].
  destruct (parse_response w text); reflexivity.
Qed.

(** X14.  The analysis fails in one way only, with an [HTTPException] of
    status 500 whose message is "LLM analysis failed: " followed by the
    text of what failed: the call of the model or the parsing of its
    answer.  Either way the model has been called once, with the fixed
    instructions and the prompt. *)
Theorem X14_analysis_failure
    (w : World) (policy_text : string) (invoices : dict string) (e : exn) :
  outcome (analyze_invoices_with_llm w policy_text invoices) = Raise e ->
  (exists cause,
     e = HTTPException 500 ("LLM analysis failed: " ++ str_exn cause) /\
     (generate_content w OPTIMIZED_SYSTEM_PROMPT (combined_prompt policy_text invoices)
        = Raise cause \/
      exists response_text,
        generate_content w OPTIMIZED_SYSTEM_PROMPT (combined_prompt policy_text invoices)
          = Ok response_text /\
        parse_response w response_text = Raise cause)) /\
  events (analyze_invoices_with_llm w policy_text invoices) =
    [EvGenerateContent OPTIMIZED_SYSTEM_PROMPT (combined_prompt policy_text invoices)].
Proof.
  intros H. split; [ | apply analyze_invoices_with_llm_events].
  revert H. unfold analyze_invoices_with_llm. cbv zeta. run.
  destruct (generate_content w _ _) as [text | e0]; run.
  - destruct (parse_response w text) as [rs | e1] eqn:Hparse; run; [discriminate | ].
    intros [= <-]. exists e1. split; [reflexivity | right]. now exists text.
  - intros [= <-]. exists e0. now split; [ | left].
Qed.

(* ===================================================================== *)
(** ** More about the endpoint *)
(* ===================================================================== *)

(** Unfold the monad of a computation whose parts are known. *)
Ltac crunch :=
  cbv beta iota zeta
      delta [bind emit lift raise ret try_except events outcome fst snd];
  cbn [app].

Lemma outcome_pair {A} (t : list event) (r : result A) : outcome (t, r) = r.
Proof. reflexivity. Qed.

Lemma events_pair {A} (t : list event) (r : result A) : events (t, r) = t.
Proof. reflexivity. Qed.

(** The [try] block, stage by stage: its events and how it ends. *)
Lemma analyze_invoices_try_stages (w : World) (hr_policy invoices_zip : UploadFile) :
  analyze_invoices_try w hr_policy invoices_zip =
    match read hr_policy with
    | Raise e => ([EvUploadRead "hr_policy"], Raise e)
    | Ok policy_bytes =>
        match outcome (extract_text_from_pdf w policy_bytes) with
        | Raise e => ([EvUploadRead "hr_policy"; EvPdfReader policy_bytes], Raise e)
        | Ok policy_text =>
            if str_is_empty (Text.strip policy_text) then
              ([EvUploadRead "hr_policy"; EvPdfReader policy_bytes],
               Raise (HTTPException 400 "Could not extract text from policy PDF"))
            else
              match read invoices_zip with
              | Raise e =>
                  ([EvUploadRead "hr_policy"; EvPdfReader policy_bytes;
                    EvUploadRead "invoices_zip"], Raise e)
              | Ok invoices_bytes =>
                  let loading :=
                    (EvUploadRead "hr_policy" :: EvPdfReader policy_bytes
                       :: EvUploadRead "invoices_zip"
                       :: events (extract_invoices_from_zip w invoices_bytes))%list in
                  match outcome (extract_invoices_from_zip w invoices_bytes) with
                  | Raise e => (loading, Raise e)
                  | Ok invoices =>
                      if dict_is_empty invoices then
                        (loading,
                         Raise (HTTPException 400 "No PDF invoices found in ZIP file"))
                      else
                        ((loading ++
                          [EvGenerateContent OPTIMIZED_SYSTEM_PROMPT
                             (combined_prompt policy_text invoices)])%list,
                         match outcome (analyze_invoices_with_llm w policy_text invoices) with
                         | Ok analyses =>
                             Ok {| analyses := analyses;
                                   total_invoices_processed :=
                                     Z.of_nat (List.length analyses) |}
                         | Raise e => Raise e
                         end)
                  end
              end
        end
    end.
Proof.
  unfold analyze_invoices_try.
  destruct (read hr_policy) as [policy_bytes | e]; [ | reflexivity].
  pose proof (extract_text_from_pdf_events w policy_bytes) as Hev.
  crunch.
  destruct (extract_text_from_pdf w policy_bytes) as [t1 [policy_text | e]];
    cbn [events fst] in Hev; subst t1; crunch; [ | reflexivity].
  destruct (str_is_empty (Text.strip policy_text)); [reflexivity | ].
  destruct (read invoices_zip) as [invoices_bytes | e]; [ | reflexivity].
  destruct (extract_invoices_from_zip w invoices_bytes) as [t2 [invoices | e]];
    crunch; [ | reflexivity].
  destruct (dict_is_empty invoices); [rewrite ?app_nil_r; reflexivity | ].
  pose proof (analyze_invoices_with_llm_events w policy_text invoices) as Hllm.
  destruct (analyze_invoices_with_llm w policy_text invoices) as [t3 [a | e]];
    cbn [events fst] in Hllm; subst t3; crunch; rewrite ?app_nil_r; reflexivity.
Qed.

(** The endpoint adds no event to those of its [try] block. *)
Lemma analyze_invoices_events (w : World) (hr_policy invoices_zip : UploadFile) :
  names_accepted hr_policy invoices_zip ->
  events (analyze_invoices w hr_policy invoices_zip) =
    events (analyze_invoices_try w hr_policy invoices_zip).
Proof.
  intros [Hpdf Hzip]. unfold analyze_invoices. rewrite Hpdf, Hzip. cbn [negb].
  rewrite events_try_except.
  destruct (outcome (analyze_invoices_try w hr_policy invoices_zip)) as [r | e];
    [reflexivity | ].
  destruct e; cbn [analyze_invoices_except raise events fst]; apply app_nil_r.
Qed.

Lemma names_accepted_dec (hr_policy invoices_zip : UploadFile) :
  names_accepted hr_policy invoices_zip \/
  Text.endswith (Text.lower (filename hr_policy)) ".pdf" = false \/
  Text.endswith (Text.lower (filename invoices_zip)) ".zip" = false.
Proof.
  unfold names_accepted.
  destruct (Text.endswith (Text.lower (filename hr_policy)) ".pdf");
    destruct (Text.endswith (Text.lower (filename invoices_zip)) ".zip"); tauto.
Qed.

Lemma analyze_invoices_rejected (w : World) (hr_policy invoices_zip : UploadFile) :
  Text.endswith (Text.lower (filename hr_policy)) ".pdf" = false \/
  Text.endswith (Text.lower (filename invoices_zip)) ".zip" = false ->
  exists detail,
    analyze_invoices w hr_policy invoices_zip = ([], Raise (HTTPException 400 detail)).
Proof.
  unfold analyze_invoices.
  destruct (Text.endswith (Text.lower (filename hr_policy)) ".pdf");
    destruct (Text.endswith (Text.lower (filename invoices_zip)) ".zip");
    cbn [negb]; intros [H | H]; try discriminate H; eexists; reflexivity.
Qed.

Lemma model_calls_app (t t' : list event) :
  model_calls (t ++ t')%list = (model_calls t ++ model_calls t')%list.
Proof. apply filter_app. Qed.

Lemma model_calls_none (t : list event) : no_model_call t -> model_calls t = [].
Proof.
  unfold no_model_call, model_calls. induction t as [ | ev t IH]; [reflexivity | ].
  cbn [existsb filter]. destruct (is_model_call ev); [discriminate | exact IH].
Qed.

(** X15.  A request calls the model at most once, whatever the number of
    invoices, and only when the archive has been loaded as a mapping that
    is not empty; the call then carries the fixed instructions and the
    prompt made of the policy text and that mapping. *)
Theorem X15_at_most_one_model_call
    (w : World) (hr_policy invoices_zip : UploadFile) :
  model_calls (events (analyze_invoices w hr_policy invoices_zip)) = [] \/
  exists policy_text invoices,
    archive_loaded w hr_policy invoices_zip policy_text invoices /\
    dict_is_empty invoices = false /\
    model_calls (events (analyze_invoices w hr_policy invoices_zip)) =
      [EvGenerateContent OPTIMIZED_SYSTEM_PROMPT (combined_prompt policy_text invoices)].
Proof.
  destruct (names_accepted_dec hr_policy invoices_zip) as [Hnames | Hbad].
  2:{ left. destruct (analyze_invoices_rejected w _ _ Hbad) as [detail ->].
      reflexivity. }
  rewrite (analyze_invoices_events w _ _ Hnames), analyze_invoices_try_stages.
  destruct (read hr_policy) as [pb | e] eqn:Hread; [ | now left].
  destruct (outcome (extract_text_from_pdf w pb)) as [policy_text | e] eqn:Hext;
    [ | now left].
  destruct (str_is_empty (Text.strip policy_text)) eqn:Hblank; [now left | ].
  destruct (read invoices_zip) as [zb | e] eqn:Hzread; [ | now left].
  pose proof (extract_invoices_from_zip_events w zb) as Hload.
  apply model_calls_none in Hload. cbv zeta.
  destruct (outcome (extract_invoices_from_zip w zb)) as [invoices | e] eqn:Hout.
  - destruct (dict_is_empty invoices) eqn:Hempty.
    + left. cbn [events fst model_calls filter is_model_call]. exact Hload.
    + right. exists policy_text, invoices. split; [ | split; [exact Hempty | ]].
      * split; [exact Hnames | now exists pb, zb].
      * cbn [events fst]. rewrite model_calls_app.
        cbn [model_calls filter is_model_call]. fold (model_calls (events (extract_invoices_from_zip w zb))).
        now rewrite Hload.
  - left. cbn [events fst model_calls filter is_model_call]. exact Hload.
Qed.

(** X16.  No exception other than an [HTTPException] leaves the endpoint;
    and unless the reading of an upload itself raises an [HTTPException],
    its status is 400 or 500. *)
Theorem X16_endpoint_raises_http_exceptions_only
    (w : World) (hr_policy invoices_zip : UploadFile) (e : exn) :
  outcome (analyze_invoices w hr_policy invoices_zip) = Raise e ->
  (exists status_code detail, e = HTTPException status_code detail) /\
  ((forall c d, read hr_policy <> Raise (HTTPException c d)) ->
   (forall c d, read invoices_zip <> Raise (HTTPException c d)) ->
   exists detail, e = HTTPException 400 detail \/ e = HTTPException 500 detail).
Proof.
  destruct (names_accepted_dec hr_policy invoices_zip) as [Hnames | Hbad].
  2:{ destruct (analyze_invoices_rejected w _ _ Hbad) as [detail ->].
      intros [= <-]. split; [now exists 400%Z, detail | ].
      intros _ _. exists detail. now left. }
  rewrite (outcome_analyze_invoices w _ _ Hnames), analyze_invoices_try_stages.
  destruct (read hr_policy) as [pb | e0] eqn:Hread.
  2:{ rewrite outcome_pair. destruct e0 as [c d | cls msg]; intros [= <-].
      - split; [now exists c, d | ]. intros H _. now destruct (H c d).
      - split; [eexists _, _; reflexivity | ]. intros _ _. eexists. now right. }
  destruct (outcome (extract_text_from_pdf w pb)) as [policy_text | e0] eqn:Hext.
  2:{ destruct (extract_text_from_pdf_raises w pb e0 Hext) as [cause ->].
      rewrite outcome_pair. intros [= <-].
      split; [eexists _, _; reflexivity | ]. intros _ _. eexists. now left. }
  destruct (str_is_empty (Text.strip policy_text)).
  { rewrite outcome_pair. intros [= <-].
    split; [eexists _, _; reflexivity | ]. intros _ _. eexists. now left. }
  destruct (read invoices_zip) as [zb | e0] eqn:Hzread.
  2:{ rewrite outcome_pair. destruct e0 as [c d | cls msg]; intros [= <-].
      - split; [now exists c, d | ]. intros _ H. now destruct (H c d).
      - split; [eexists _, _; reflexivity | ]. intros _ _. eexists. now right. }
  cbv zeta.
  destruct (outcome (extract_invoices_from_zip w zb)) as [invoices | e0] eqn:Hload.
  2:{ destruct (extract_invoices_from_zip_raises w zb e0 Hload) as [cause ->].
      rewrite outcome_pair. intros [= <-].
      split; [eexists _, _; reflexivity | ]. intros _ _. eexists. now left. }
  destruct (dict_is_empty invoices).
  { rewrite outcome_pair. intros [= <-].
    split; [eexists _, _; reflexivity | ]. intros _ _. eexists. now left. }
  rewrite outcome_pair.
  destruct (outcome (analyze_invoices_with_llm w policy_text invoices)) as [a | e0] eqn:Hllm;
    [discriminate | ].
  destruct (analyze_invoices_with_llm_raises w _ _ e0 Hllm) as [cause ->].
  intros [= <-]. split; [eexists _, _; reflexivity | ]. intros _ _. eexists. now right.
Qed.

(** X17.  When the text of the policy cannot be extracted, or is blank,
    the request ends there: the policy has been read and given to the
    reader, and the archive of the invoices is not even read. *)
Theorem X17_policy_failure_stops_the_request
    (w : World) (hr_policy invoices_zip : UploadFile) (policy_bytes : list byte) :
  names_accepted hr_policy invoices_zip ->
  read hr_policy = Ok policy_bytes ->
  (forall policy_text,
     outcome (extract_text_from_pdf w policy_bytes) = Ok policy_text ->
     str_is_empty (Text.strip policy_text) = true) ->
  events (analyze_invoices w hr_policy invoices_zip) =
    [EvUploadRead "hr_policy"; EvPdfReader policy_bytes] /\
  exists detail,
    outcome (analyze_invoices w hr_policy invoices_zip) =
      Raise (HTTPException 400 detail).
Proof.
  intros Hnames Hread Hblank.
  rewrite (analyze_invoices_events w _ _ Hnames),
    (outcome_analyze_invoices w _ _ Hnames), analyze_invoices_try_stages, Hread.
  destruct (outcome (extract_text_from_pdf w policy_bytes)) as [policy_text | e] eqn:Hext.
  - rewrite (Hblank policy_text eq_refl). split; [reflexivity | ].
    eexists. reflexivity.
  - destruct (extract_text_from_pdf_raises w _ e Hext) as [cause ->].
    split; [reflexivity | ]. eexists. reflexivity.
Qed.

(** X18.  When every stage succeeds, the response holds the records of the
    parser, as they are and in their order, and their number. *)
Theorem X18_response_holds_the_parsed_records
    (w : World) (hr_policy invoices_zip : UploadFile) (policy_text : string)
    (invoices : dict string) (response_text : string)
    (records : list InvoiceAnalysis) :
  archive_loaded w hr_policy invoices_zip policy_text invoices ->
  dict_is_empty invoices = false ->
  generate_content w OPTIMIZED_SYSTEM_PROMPT (combined_prompt policy_text invoices)
    = Ok response_text ->
  parse_response w response_text = Ok records ->
  outcome (analyze_invoices w hr_policy invoices_zip) =
    Ok {| analyses := records;
          total_invoices_processed := Z.of_nat (List.length records) |}.
Proof.
  intros Hloaded Hnonempty Hgen Hparse.
  rewrite (outcome_analyze_invoices w _ _ (proj1 Hloaded)).
  rewrite (outcome_analyze_invoices_try_loaded w _ _ _ _ Hloaded), Hnonempty.
  unfold analyze_invoices_with_llm. cbv zeta. run. rewrite Hgen. run.
  now rewrite Hparse.
Qed.

(** X19.  The components turn their own failures into [HTTPException]s, so
    the only exception of another kind that the [try] block can raise is
    one raised by the reading of an upload; it is what the endpoint
    reports as "Internal server error". *)
Theorem X19_only_a_failed_read_is_an_internal_error
    (w : World) (hr_policy invoices_zip : UploadFile) (cls msg : string) :
  outcome (analyze_invoices_try w hr_policy invoices_zip) = Raise (PyException cls msg) ->
  read hr_policy = Raise (PyException cls msg) \/
  read invoices_zip = Raise (PyException cls msg).
Proof.
  rewrite analyze_invoices_try_stages.
  destruct (read hr_policy) as [pb | e0] eqn:Hread.
  2:{ rewrite outcome_pair. intros [= ->]. now left. }
  destruct (outcome (extract_text_from_pdf w pb)) as [policy_text | e0] eqn:Hext.
  2:{ destruct (extract_text_from_pdf_raises w pb e0 Hext) as [cause ->]. discriminate. }
  destruct (str_is_empty (Text.strip policy_text)); [discriminate | ].
  destruct (read invoices_zip) as [zb | e0] eqn:Hzread.
  2:{ rewrite outcome_pair. intros [= ->]. now right. }
  cbv zeta.
  destruct (outcome (extract_invoices_from_zip w zb)) as [invoices | e0] eqn:Hload.
  2:{ destruct (extract_invoices_from_zip_raises w zb e0 Hload) as [cause ->]. discriminate. }
  destruct (dict_is_empty invoices); [discriminate | ].
  rewrite outcome_pair.
  destruct (outcome (analyze_invoices_with_llm w policy_text invoices)) as [a | e0] eqn:Hllm;
    [discriminate | ].
  destruct (analyze_invoices_with_llm_raises w _ _ e0 Hllm) as [cause ->]. discriminate.
Qed.

(** X20.  [json.loads] comes to an end on every text, whatever room the
    interpreter has left: it returns a value or raises a
    [JSONDecodeError], or it raises the [ValueError] of an integer of more
    digits than the limit of 4300, which the text then holds, or a
    [RecursionError], and this only on a text that has opening brackets
    for all the levels of recursion but two.  Both limits are met: one
    array more than there is room for is refused whatever follows the
    brackets, and so is an integer of more than 4300 digits. *)
Theorem X20_json_loads_ends :
  (forall (room : nat) (s : string),
     (exists v, Json.loads room s = Ok v) \/
     (exists msg, Json.loads room s = Raise (PyException "JSONDecodeError" msg)) \/
     (exists n, Json.loads room s = Raise (Sys.digits_error n) /\
                (Sys.int_max_str_digits < n <= String.length s)%nat) \/
     (exists where_, Json.loads room s = Raise (Json.RecursionError where_) /\
                     (room < opening_brackets s + 3)%nat)) /\
  (forall (room : nat) (rest : string),
     Json.loads room (repeat_char "["%char (S room) ++ rest)
     = Raise (Json.RecursionError (Json.while_decoding "array"))) /\
  (forall (room more : nat),
     Json.loads room (repeat_char "1"%char (Sys.int_max_str_digits + S more))
     = Raise (Sys.digits_error (Sys.int_max_str_digits + S more))).
Proof.
  split; [ | split].
  - intros room s. unfold Json.loads.
    destruct (String.prefix Json.bom s); [right; left; eexists; reflexivity | ].
    pose proof (JsonFacts.skip_ws_length s) as Hws.
    pose proof (JsonFacts.skip_ws_opens s) as Hwo.
    pose proof (proj1 (JsonFacts.scan_spec (2 * String.length s + 2)) room
                  (Json.skip_ws s) ltac:(lia)) as H.
    assert (Habove : forall above msg at_,
              (exists m, Json.raise_above room above (Json.JSONDecodeError msg s at_)
                         = Raise (PyException "JSONDecodeError" m)) \/
              (exists where_,
                 Json.raise_above room above (Json.JSONDecodeError msg s at_)
                 = Raise (Json.RecursionError where_) /\
                 (room < opening_brackets s + 3)%nat)).
    { intros above msg at_.
      destruct (JsonFacts.raise_above_cases room above (Json.JSONDecodeError msg s at_))
        as [-> | (where_ & -> & Hroom)].
      - left. eexists. reflexivity.
      - right. exists where_. split; [reflexivity | lia]. }
    destruct (Json.scan_once (2 * String.length s + 2) room (Json.skip_ws s))
      as [obj rest | msg a | a | e | ].
    + destruct (Json.skip_ws rest) as [ | x extra]; [left; eexists; reflexivity | ].
      destruct (Habove 2%nat "Extra data" (String x extra)) as [Hm | Hr];
        [right; left; exact Hm | right; right; right; exact Hr].
    + right; left; eexists; reflexivity.
    + destruct (Habove 1%nat "Expecting value" a) as [Hm | Hr];
        [right; left; exact Hm | right; right; right; exact Hr].
    + destruct H as [(n & -> & Hn) | (where_ & -> & Hw)].
      * right; right; left. exists n. split; [reflexivity | lia].
      * right; right; right. exists where_. split; [reflexivity | lia].
    + destruct H.
  - intros room rest. unfold Json.loads.
    change (String.prefix Json.bom (repeat_char "["%char (S room) ++ rest)) with false.
    change (Json.skip_ws (repeat_char "["%char (S room) ++ rest))
      with (repeat_char "["%char (S room) ++ rest).
    rewrite JsonFacts.nested_too_deep; [reflexivity | ].
    rewrite TextFacts.length_append, JsonFacts.repeat_char_length. lia.
  - intros room more. unfold Json.loads.
    rewrite Nat.add_succ_r.
    set (n := (Sys.int_max_str_digits + more)%nat).
    change (String.prefix Json.bom (repeat_char "1"%char (S n))) with false.
    change (Json.skip_ws (repeat_char "1"%char (S n))) with (repeat_char "1"%char (S n)).
    replace (2 * String.length (repeat_char "1"%char (S n)) + 2)%nat
      with (S (2 * String.length (repeat_char "1"%char (S n)) + 1)) by lia.
    change (repeat_char "1"%char (S n)) with (String "1"%char (repeat_char "1"%char n)).
    cbn [Json.scan_once].
    change (Json.code "1"%char =? 34)%N with false.
    change (Json.code "1"%char =? 123)%N with false.
    change (Json.code "1"%char =? 91)%N with false. cbv iota.
    change (Json.match_literal Json.literals (String "1"%char (repeat_char "1"%char n)))
      with (@None (json * string)). cbv iota.
    unfold Json.match_number.
    change (Json.code "1"%char =? 45)%N with false. cbv iota zeta.
    change (Json.code "1"%char =? 48)%N with false.
    change (Json.is_digit "1"%char) with true. cbv iota.
    destruct (JsonFacts.take_digits_repeat "1"%char n eq_refl (Json.digit_value "1"%char) 1)
      as [z Hz].
    rewrite Hz. cbv iota beta zeta. cbn [orb].
    replace (Sys.int_max_str_digits <? 1 + n)%nat with true; [reflexivity | ].
    symmetry. apply Nat.ltb_lt. unfold n. lia.
Qed.

(* ===================================================================== *)
(** ** The further statements on concrete requests *)
(* ===================================================================== *)

Lemma X5_witness :
  dict_get [("a.pdf", "Lunch 50")] "a.pdf" = Some "Lunch 50".
Proof.
  apply (X5_last_member_of_a_path_wins
           (Scenario.world Edge.overwritten_path Scenario.answer_A)
           Scenario.archive_bytes
           [Scenario.member "a.pdf" Scenario.policy_bytes;
            Scenario.member "notes.txt" Scenario.broken_bytes]
           []
           (Scenario.member "a.pdf" Scenario.invoice_bytes)
           Scenario.invoice_bytes "Lunch 50").
  - reflexivity.
  - reflexivity.
  - intros x [].
  - reflexivity.
  - reflexivity.
  - reflexivity.
Defined.

Lemma X6_witness :
  dict_keys [("a.pdf", "Lunch 50")] =
    fold_left add_key (map zm_filename (pdf_members Scenario.one_invoice)) [] /\
  (NoDup (map zm_filename (pdf_members Scenario.one_invoice)) ->
   dict_keys [("a.pdf", "Lunch 50")] =
     map zm_filename (pdf_members Scenario.one_invoice)).
Proof.
  apply (X6_keys_follow_the_archive
           (Scenario.world Scenario.one_invoice Scenario.answer_A)
           Scenario.archive_bytes Scenario.one_invoice).
  - reflexivity.
  - reflexivity.
Defined.

Lemma X7_witness :
  exists rest,
    map zm_filename (pdf_members Scenario.broken_member) =
      (opened_members
         (events (extract_invoices_from_zip
                    (Scenario.world Scenario.broken_member Scenario.answer_A)
                    Scenario.archive_bytes)) ++ rest)%list /\
    (forall invoices,
       outcome (extract_invoices_from_zip
                  (Scenario.world Scenario.broken_member Scenario.answer_A)
                  Scenario.archive_bytes) = Ok invoices ->
       rest = []).
Proof.
  apply (X7_only_pdf_members_are_opened
           (Scenario.world Scenario.broken_member Scenario.answer_A)
           Scenario.archive_bytes Scenario.broken_member).
  reflexivity.
Defined.

Lemma X8_witness :
  exists cause,
    HTTPException 400
      "Error processing ZIP file: 400: Error extracting PDF text: EOF marker not found" =
      HTTPException 400 ("Error processing ZIP file: " ++ str_exn cause) /\
    (ZipFile (Scenario.world Scenario.broken_member Scenario.answer_A)
       Scenario.archive_bytes = Raise cause \/
     exists infolist m,
       ZipFile (Scenario.world Scenario.broken_member Scenario.answer_A)
         Scenario.archive_bytes = Ok infolist /\
       In m (pdf_members infolist) /\
       (zm_read m = Raise cause \/
        exists data,
          zm_read m = Ok data /\
          outcome (extract_text_from_pdf
                     (Scenario.world Scenario.broken_member Scenario.answer_A) data)
            = Raise cause)).
Proof.
  apply (X8_loader_failure
           (Scenario.world Scenario.broken_member Scenario.answer_A)
           Scenario.archive_bytes).
  reflexivity.
Defined.

Lemma X12_witness :
  exists e,
    parse_response (Scenario.world Scenario.one_invoice Edge.answer_missing_fields)
      Edge.answer_missing_fields = Raise e.
Proof.
  apply (X12_one_bad_element_rejects_the_batch
           (Scenario.world Scenario.one_invoice Edge.answer_missing_fields)
           Edge.answer_missing_fields
           (JArray
              [JObject [("invoice_id", JString "a.pdf");
                        ("reimbursement_status", JString "Declined");
                        ("reimbursable_amount", JInt 0);
                        ("reason", JString "None")];
               JObject [("invoice_id", JString "b.pdf")]])
           [JObject [("invoice_id", JString "a.pdf");
                     ("reimbursement_status", JString "Declined");
                     ("reimbursable_amount", JInt 0);
                     ("reason", JString "None")];
            JObject [("invoice_id", JString "b.pdf")]]
           (JObject [("invoice_id", JString "b.pdf")])).
  - vm_compute. reflexivity.
  - reflexivity.
  - right. left. reflexivity.
  - reflexivity.
Defined.

Lemma X13_witness :
  parse_response (Scenario.world Scenario.one_invoice Edge.answer_object)
    Edge.answer_object =
    Raise (PyException "TypeError" "string indices must be integers, not 'str'").
Proof.
  apply (X13_object_answer
           (Scenario.world Scenario.one_invoice Edge.answer_object)
           Edge.answer_object
           [("invoice_id", JString "a.pdf");
            ("reimbursement_status", JString "Declined");
            ("reimbursable_amount", JInt 0);
            ("reason", JString "None")]).
  - apply no_bracket_no_array. reflexivity.
  - vm_compute. reflexivity.
Defined.

Lemma X14_witness :
  (exists cause,
     HTTPException 500 "LLM analysis failed: Expecting value: line 1 column 1 (char 0)" =
       HTTPException 500 ("LLM analysis failed: " ++ str_exn cause) /\
     (generate_content (Scenario.world Scenario.one_invoice Scenario.answer_plain)
        OPTIMIZED_SYSTEM_PROMPT (combined_prompt "Policy" [("a.pdf", "Lunch 50")])
        = Raise cause \/
      exists response_text,
        generate_content (Scenario.world Scenario.one_invoice Scenario.answer_plain)
          OPTIMIZED_SYSTEM_PROMPT (combined_prompt "Policy" [("a.pdf", "Lunch 50")])
          = Ok response_text /\
        parse_response (Scenario.world Scenario.one_invoice Scenario.answer_plain)
          response_text = Raise cause)) /\
  events (analyze_invoices_with_llm
            (Scenario.world Scenario.one_invoice Scenario.answer_plain)
            "Policy" [("a.pdf", "Lunch 50")]) =
    [EvGenerateContent OPTIMIZED_SYSTEM_PROMPT
       (combined_prompt "Policy" [("a.pdf", "Lunch 50")])].
Proof.
  apply (X14_analysis_failure
           (Scenario.world Scenario.one_invoice Scenario.answer_plain)
           "Policy" [("a.pdf", "Lunch 50")]).
  vm_compute. reflexivity.
Defined.

Lemma X16_witness :
  (exists status_code detail,
     HTTPException 500 "Internal server error: I/O operation on closed file." =
       HTTPException status_code detail) /\
  ((forall c d, read (Edge.unreadable "policy.pdf") <> Raise (HTTPException c d)) ->
   (forall c d, read Scenario.invoices_zip <> Raise (HTTPException c d)) ->
   exists detail,
     HTTPException 500 "Internal server error: I/O operation on closed file." =
       HTTPException 400 detail \/
     HTTPException 500 "Internal server error: I/O operation on closed file." =
       HTTPException 500 detail).
Proof.
  apply (X16_endpoint_raises_http_exceptions_only
           (Scenario.world Scenario.one_invoice Scenario.answer_A)
           (Edge.unreadable "policy.pdf") Scenario.invoices_zip).
  reflexivity.
Defined.

Lemma X17_witness :
  events (analyze_invoices
            (Scenario.world Scenario.one_invoice Scenario.answer_A)
            (Scenario.upload "policy.pdf" Scenario.broken_bytes)
            Scenario.invoices_zip) =
    [EvUploadRead "hr_policy"; EvPdfReader Scenario.broken_bytes] /\
  exists detail,
    outcome (analyze_invoices
               (Scenario.world Scenario.one_invoice Scenario.answer_A)
               (Scenario.upload "policy.pdf" Scenario.broken_bytes)
               Scenario.invoices_zip) = Raise (HTTPException 400 detail).
Proof.
  apply (X17_policy_failure_stops_the_request
           (Scenario.world Scenario.one_invoice Scenario.answer_A)
           (Scenario.upload "policy.pdf" Scenario.broken_bytes)
           Scenario.invoices_zip Scenario.broken_bytes).
  - split; reflexivity.
  - reflexivity.
  - intros policy_text H. discriminate H.
Defined.

Lemma X18_witness :
  outcome (analyze_invoices
             (Scenario.world Scenario.one_invoice Scenario.answer_A)
             Scenario.hr_policy Scenario.invoices_zip) =
    Ok {| analyses := [Scenario.analysis_A];
          total_invoices_processed := Z.of_nat (List.length [Scenario.analysis_A]) |}.
Proof.
  apply (X18_response_holds_the_parsed_records
           (Scenario.world Scenario.one_invoice Scenario.answer_A)
           Scenario.hr_policy Scenario.invoices_zip
           "Meals are reimbursed up to 50 per day."
           [("a.pdf", "Lunch 50")]
           Scenario.answer_A).
  - split; [split; reflexivity | ].
    exists Scenario.policy_bytes, Scenario.archive_bytes.
    repeat split; reflexivity.
  - reflexivity.
  - reflexivity.
  - vm_compute. reflexivity.
Defined.

Lemma X19_witness :
  read (Edge.unreadable "policy.pdf") =
    Raise (PyException "ValueError" "I/O operation on closed file.") \/
  read Scenario.invoices_zip =
    Raise (PyException "ValueError" "I/O operation on closed file.").
Proof.
  apply (X19_only_a_failed_read_is_an_internal_error
           (Scenario.world Scenario.one_invoice Scenario.answer_A)
           (Edge.unreadable "policy.pdf") Scenario.invoices_zip).
  reflexivity.
Defined.
